(** * terraform-provider-devgraph: resource lifecycle operations

    A shallow embedding of the resource files under [internal/provider]:
    the plan/state models, the request payloads built by Create and Update,
    the merge of API responses into the persisted record, and the schema
    declarations.  Each lifecycle method is a computation over the
    framework's response object (diagnostics and state) that also records
    the remote calls it issues. *)

From Stdlib Require Import ZArith Ascii String.
From stdpp Require Import base decidable option list strings gmap fin_maps.

Local Open Scope string_scope.

(* ===================================================================== *)
(** ** Terraform framework values ([types.String], [types.Bool], ...) *)
(* ===================================================================== *)

(** A framework value is null, unknown (plan-time placeholder) or known. *)
Inductive tfval (A : Type) : Type :=
| TfNull
| TfUnknown
| TfValue (a : A).
Arguments TfNull {A}.
Arguments TfUnknown {A}.
Arguments TfValue {A} a.

#[global] Instance tfval_eq_dec {A} `{EqDecision A} : EqDecision (tfval A).
Proof. solve_decision. Defined.

(** Go zero values, returned by [ValueString], [ValueBool], ... on a null
    or unknown value and stored in the [Value] field of an unset optional. *)
Class Zero (A : Type) := zero : A.
#[global] Instance zero_string : Zero string := "".
#[global] Instance zero_bool : Zero bool := false.
#[global] Instance zero_Z : Zero Z := 0%Z.
#[global] Instance zero_list {A} : Zero (list A) := [].
#[global] Instance zero_gmap {A} : Zero (gmap string A) := (∅ : gmap string A).

Definition IsNull {A} (v : tfval A) : bool :=
  match v with TfNull => true | _ => false end.

Definition IsUnknown {A} (v : tfval A) : bool :=
  match v with TfUnknown => true | _ => false end.

(** [ValueString] / [ValueBool] / [ValueInt64]. *)
Definition ValueOf {A} `{Zero A} (v : tfval A) : A :=
  match v with TfValue a => a | _ => zero end.

(** [a.Equal(b)]: same state and, when known, same value. *)
Definition Equal {A} `{EqDecision A} (a b : tfval A) : bool :=
  bool_decide (a = b).

Abbreviation tfString := (tfval string).
Abbreviation tfBool := (tfval bool).
Abbreviation tfInt64 := (tfval Z).
(** [types.List] and [types.Map] with [ElementType: types.StringType]. *)
Abbreviation tfList := (tfval (list tfString)).
Abbreviation tfMap := (tfval (gmap string tfString)).

(* ===================================================================== *)
(** ** Go results and the optional wrappers of the generated client *)
(* ===================================================================== *)

(** A Go [(value, error)] pair; the error is kept as its [Error()] text. *)
Inductive GoResult (A : Type) : Type :=
| Ok (a : A)
| Err (msg : string).
Arguments Ok {A} a.
Arguments Err {A} msg.

(** [OptT]: a value and a [Set] flag. *)
Record Opt (A : Type) := mkOpt { opt_Value : A; opt_Set : bool }.
Arguments mkOpt {A}.
Arguments opt_Value {A}.
Arguments opt_Set {A}.

(** [OptNilT]: a value, a [Set] flag and a [Null] flag.  On the wire:
    omitted when not set, [null] when set and null, the value otherwise. *)
Record OptNil (A : Type) :=
  mkOptNil { on_Value : A; on_Set : bool; on_Null : bool }.
Arguments mkOptNil {A}.
Arguments on_Value {A}.
Arguments on_Set {A}.
Arguments on_Null {A}.

(** [NilT]: a value and a [Null] flag. *)
Record Nil (A : Type) := mkNil { nil_Value : A; nil_Null : bool }.
Arguments mkNil {A}.
Arguments nil_Value {A}.
Arguments nil_Null {A}.

#[global] Instance Opt_eq_dec {A} `{EqDecision A} : EqDecision (Opt A).
Proof. solve_decision. Defined.
#[global] Instance OptNil_eq_dec {A} `{EqDecision A} : EqDecision (OptNil A).
Proof. solve_decision. Defined.

#[global] Instance zero_Opt {A} `{Zero A} : Zero (Opt A) := mkOpt zero false.
#[global] Instance zero_OptNil {A} `{Zero A} : Zero (OptNil A) :=
  mkOptNil zero false false.

(** [v1.NewOptBool(v)], [v1.NewOptInt(v)], ... *)
Definition NewOpt {A} (v : A) : Opt A := mkOpt v true.
(** [v1.NewOptNilString(v)], [v1.NewOptNilBool(v)], ... *)
Definition NewOptNil {A} (v : A) : OptNil A := mkOptNil v true false.

(** The three wire states of an optional-nilable field. *)
Inductive wire (A : Type) : Type :=
| Omitted
| SentNull
| SentValue (a : A).
Arguments Omitted {A}.
Arguments SentNull {A}.
Arguments SentValue {A} a.

Definition encode {A} (o : OptNil A) : wire A :=
  if negb (on_Set o) then Omitted
  else if on_Null o then SentNull
  else SentValue (on_Value o).

(* ===================================================================== *)
(** ** Diagnostics *)
(* ===================================================================== *)

Inductive Severity := SeverityError | SeverityWarning.

#[global] Instance Severity_eq_dec : EqDecision Severity.
Proof. solve_decision. Defined.

Record Diagnostic := mkDiag {
  diag_Severity : Severity;
  diag_Summary : string;
  diag_Detail : string
}.

#[global] Instance Diagnostic_eq_dec : EqDecision Diagnostic.
Proof. solve_decision. Defined.

Abbreviation Diagnostics := (list Diagnostic).

Definition ErrorDiagnostic (summary detail : string) : Diagnostic :=
  mkDiag SeverityError summary detail.

(** [diags.Append(d)]: duplicates are not added. *)
Definition diags_Append (ds : Diagnostics) (d : Diagnostic) : Diagnostics :=
  if bool_decide (d ∈ ds) then ds else ds ++ [d].

Definition diags_HasError (ds : Diagnostics) : bool :=
  existsb (λ d, bool_decide (diag_Severity d = SeverityError)) ds.

(* ===================================================================== *)
(** ** Lifecycle computations *)
(* ===================================================================== *)

(** A lifecycle method [func (r *R) Create(ctx, req, resp)] is modelled as
    a function of the client and of the records that [req.Plan.Get] and
    [req.State.Get] decode, acting on the response object.  Decoding the
    plan or state into the model struct and encoding it back with
    [resp.State.Set] are taken to succeed without diagnostics; the
    [HasError] checks that follow them in the source are kept.  The
    client answers each call with a fixed result, so a client is a record
    of functions from the request to the [(result, error)] pair.

    The response object a lifecycle method writes to, together with the
    log of remote calls issued so far.  [w_State] is [None] when the
    resource has no state (before Create, after [RemoveResource]). *)
Record World (M C : Type) := mkWorld {
  w_Diagnostics : Diagnostics;
  w_State : option M;
  w_Calls : list C
}.
Arguments mkWorld {M C}.
Arguments w_Diagnostics {M C}.
Arguments w_State {M C}.
Arguments w_Calls {M C}.

(** The response the framework hands to a method: no diagnostics, the
    prior state (none for Create), and no call made yet. *)
Definition fresh {M C} (st : option M) : World M C := mkWorld [] st [].

(** A method body: it transforms the world and either continues with a
    value or has executed [return]. *)
Definition Op (M C A : Type) : Type := World M C → option A * World M C.

Definition op_ret {M C A} (a : A) : Op M C A := λ w, (Some a, w).

Definition op_bind {M C A B} (m : Op M C A) (k : A → Op M C B) : Op M C B :=
  λ w, match m w with
       | (Some a, w') => k a w'
       | (None, w') => (None, w')
       end.

(** Go's [return] in the middle of a method. *)
Definition halt {M C A} : Op M C A := λ w, (None, w).

Notation "x <- m ;; k" := (op_bind m (λ x, k))
  (at level 100, m at next level, right associativity, only parsing).
Notation "m ;;; k" := (op_bind m (λ _, k))
  (at level 100, right associativity, only parsing).

Definition AddError {M C} (summary detail : string) : Op M C unit :=
  λ w, (Some tt,
        mkWorld (diags_Append (w_Diagnostics w) (ErrorDiagnostic summary detail))
                (w_State w) (w_Calls w)).

(** [if resp.Diagnostics.HasError() { return }]. *)
Definition returnIfError {M C} : Op M C unit :=
  λ w, if diags_HasError (w_Diagnostics w) then (None, w) else (Some tt, w).

(** [resp.State.Set(ctx, m)]. *)
Definition StateSet {M C} (m : M) : Op M C unit :=
  λ w, (Some tt, mkWorld (w_Diagnostics w) (Some m) (w_Calls w)).

(** [resp.State.RemoveResource(ctx)]. *)
Definition RemoveResource {M C} : Op M C unit :=
  λ w, (Some tt, mkWorld (w_Diagnostics w) None (w_Calls w)).

(** A call through the client: the call is logged and the client's
    answer returned. *)
Definition remote {M C A} (c : C) (answer : A) : Op M C A :=
  λ w, (Some answer, mkWorld (w_Diagnostics w) (w_State w) (w_Calls w ++ [c])).

(** [AddError(...)] followed by [return]. *)
Definition fail {M C A} (summary detail : string) : Op M C A :=
  AddError summary detail ;;; halt.

Definition exec {M C} (m : Op M C unit) (w : World M C) : World M C := (m w).2.

(* ===================================================================== *)
(** ** [encoding/json]: the validity scanner behind [json.Unmarshal] *)
(* ===================================================================== *)

(** [json.Unmarshal] first runs the byte-by-byte scanner of the standard
    library over the whole input ([checkValid]) and only then decodes.
    The scanner is a state machine with a stack of open containers. *)
Module Json.

Local Open Scope char_scope.

Inductive parseKind := parseObjectKey | parseObjectValue | parseArrayValue.

Inductive step :=
| stateBeginValueOrEmpty
| stateBeginValue
| stateBeginStringOrEmpty
| stateBeginString
| stateEndValue
| stateEndTop
| stateInString
| stateInStringEsc
| stateInStringEscU (seen : nat)   (* hex digits of a \u escape read so far *)
| stateNeg
| state1
| state0
| stateDot
| stateDot0
| stateE
| stateESign
| stateE0
| stateLit (rest : list ascii).    (* letters of true/false/null still due *)

(** The top of the container stack is the head of [parseState]. *)
Record scanner := mkScanner {
  sc_step : step;
  sc_parseState : list parseKind;
  sc_endTop : bool
}.

Definition maxNestingDepth : N := 10000%N.

Definition isSpace (c : ascii) : bool :=
  match c with
  | " " | "009" | "013" | "010" => true
  | _ => false
  end.

Definition inRange (lo hi c : ascii) : bool :=
  (N_of_ascii lo <=? N_of_ascii c)%N && (N_of_ascii c <=? N_of_ascii hi)%N.

Definition isDigit (c : ascii) : bool := inRange "0" "9" c.

Definition isHex (c : ascii) : bool :=
  inRange "0" "9" c || inRange "a" "f" c || inRange "A" "F" c.

Definition reset : scanner := mkScanner stateBeginValue [] false.

Definition goto (s : scanner) (st : step) : option scanner :=
  Some (mkScanner st (sc_parseState s) (sc_endTop s)).

Definition pushParseState (s : scanner) (st : step) (k : parseKind)
  : option scanner :=
  let ps := k :: sc_parseState s in
  if (N.of_nat (length ps) <=? maxNestingDepth)%N
  then Some (mkScanner st ps (sc_endTop s))
  else None.

Definition popParseState (s : scanner) : option scanner :=
  match sc_parseState s with
  | _ :: [] => Some (mkScanner stateEndTop [] true)
  | _ :: ps => Some (mkScanner stateEndValue ps (sc_endTop s))
  | [] => None
  end.

Definition do_stateEndTop (s : scanner) (c : ascii) : option scanner :=
  if isSpace c then Some s else None.

Definition do_stateEndValue (s : scanner) (c : ascii) : option scanner :=
  match sc_parseState s with
  | [] => do_stateEndTop (mkScanner stateEndTop [] true) c
  | top :: ps =>
    if isSpace c then goto s stateEndValue
    else match top with
         | parseObjectKey =>
           if Ascii.eqb c ":"
           then Some (mkScanner stateBeginValue (parseObjectValue :: ps) (sc_endTop s))
           else None
         | parseObjectValue =>
           if Ascii.eqb c ","
           then Some (mkScanner stateBeginString (parseObjectKey :: ps) (sc_endTop s))
           else if Ascii.eqb c "}" then popParseState s
           else None
         | parseArrayValue =>
           if Ascii.eqb c "," then goto s stateBeginValue
           else if Ascii.eqb c "]" then popParseState s
           else None
         end
  end.

Definition do_stateBeginValue (s : scanner) (c : ascii) : option scanner :=
  if isSpace c then Some s
  else match c with
       | "{" => pushParseState s stateBeginStringOrEmpty parseObjectKey
       | "[" => pushParseState s stateBeginValueOrEmpty parseArrayValue
       | "034" => goto s stateInString
       | "-" => goto s stateNeg
       | "0" => goto s state0
       | "t" => goto s (stateLit ["r"; "u"; "e"])
       | "f" => goto s (stateLit ["a"; "l"; "s"; "e"])
       | "n" => goto s (stateLit ["u"; "l"; "l"])
       | _ => if inRange "1" "9" c then goto s state1 else None
       end.

Definition do_stateBeginString (s : scanner) (c : ascii) : option scanner :=
  if isSpace c then Some s
  else if Ascii.eqb c "034" then goto s stateInString
  else None.

Definition do_state0 (s : scanner) (c : ascii) : option scanner :=
  if Ascii.eqb c "." then goto s stateDot
  else if Ascii.eqb c "e" || Ascii.eqb c "E" then goto s stateE
  else do_stateEndValue s c.

Definition do_stateESign (s : scanner) (c : ascii) : option scanner :=
  if isDigit c then goto s stateE0 else None.

(** One byte of input; [None] is [scanError]. *)
Definition scan_step (s : scanner) (c : ascii) : option scanner :=
  match sc_step s with
  | stateBeginValueOrEmpty =>
    if isSpace c then Some s
    else if Ascii.eqb c "]" then do_stateEndValue s c
    else do_stateBeginValue s c
  | stateBeginValue => do_stateBeginValue s c
  | stateBeginStringOrEmpty =>
    if isSpace c then Some s
    else if Ascii.eqb c "}" then
      do_stateEndValue
        (mkScanner (sc_step s)
                   (match sc_parseState s with
                    | _ :: ps => parseObjectValue :: ps
                    | [] => []
                    end)
                   (sc_endTop s)) c
    else do_stateBeginString s c
  | stateBeginString => do_stateBeginString s c
  | stateEndValue => do_stateEndValue s c
  | stateEndTop => do_stateEndTop s c
  | stateInString =>
    if Ascii.eqb c "034" then goto s stateEndValue
    else if Ascii.eqb c "\" then goto s stateInStringEsc
    else if (N_of_ascii c <? 32)%N then None
    else Some s
  | stateInStringEsc =>
    match c with
    | "b" | "f" | "n" | "r" | "t" | "\" | "/" | "034" => goto s stateInString
    | "u" => goto s (stateInStringEscU 0)
    | _ => None
    end
  | stateInStringEscU seen =>
    if isHex c then
      if (seen <? 3)%nat then goto s (stateInStringEscU (S seen))
      else goto s stateInString
    else None
  | stateNeg =>
    if Ascii.eqb c "0" then goto s state0
    else if inRange "1" "9" c then goto s state1
    else None
  | state1 => if isDigit c then Some s else do_state0 s c
  | state0 => do_state0 s c
  | stateDot => if isDigit c then goto s stateDot0 else None
  | stateDot0 =>
    if isDigit c then Some s
    else if Ascii.eqb c "e" || Ascii.eqb c "E" then goto s stateE
    else do_stateEndValue s c
  | stateE =>
    if Ascii.eqb c "+" || Ascii.eqb c "-" then goto s stateESign
    else do_stateESign s c
  | stateESign => do_stateESign s c
  | stateE0 => if isDigit c then Some s else do_stateEndValue s c
  | stateLit rest =>
    match rest with
    | [] => None
    | x :: [] => if Ascii.eqb c x then goto s stateEndValue else None
    | x :: rest' => if Ascii.eqb c x then goto s (stateLit rest') else None
    end
  end.

Fixpoint scan_bytes (s : scanner) (data : string) : option scanner :=
  match data with
  | EmptyString => Some s
  | String c data' =>
    match scan_step s c with
    | Some s' => scan_bytes s' data'
    | None => None
    end
  end.

(** [scan.eof()]: the input may end only after a complete top-level value. *)
Definition eof (s : scanner) : bool :=
  if sc_endTop s then true
  else match scan_step s " " with
       | Some s' => sc_endTop s'
       | None => false
       end.

(** [checkValid(data, scan) == nil]. *)
Definition checkValid (data : string) : bool :=
  match scan_bytes reset data with
  | Some s => eof s
  | None => false
  end.

(** The first byte that is not white space: it opens the top-level value. *)
Fixpoint firstByte (data : string) : option ascii :=
  match data with
  | EmptyString => None
  | String c data' => if isSpace c then firstByte data' else Some c
  end.

(** A syntactically valid text whose top-level value is an object. *)
Definition isObject (data : string) : bool :=
  checkValid data && bool_decide (firstByte data = Some "{").

(** A syntactically valid text whose top-level value is [null]. *)
Definition isNull (data : string) : bool :=
  checkValid data && bool_decide (firstByte data = Some "n").

End Json.

Definition dquote : string := String "034"%char EmptyString.

(* ===================================================================== *)
(** ** Libraries the provider is linked against *)
(* ===================================================================== *)

(** [google/uuid], [net/url], [time] and the decoding half of
    [encoding/json] are used through their interface only. *)
Class Platform := {
  (** [uuid.UUID], compared with [==]. *)
  UUID : Type;
  UUID_eq_dec :: EqDecision UUID;
  uuid_Parse : string → GoResult UUID;
  uuid_String : UUID → string;
  uuid_Nil : UUID;
  (** [url.URL] *)
  URL : Type;
  url_Parse : string → GoResult URL;
  url_zero : URL;
  (** [time.Time] *)
  Time : Type;
  time_String : Time → string;
  (** Values of type [interface{}] produced by the JSON decoder, the
      members it stores for an object text, [json.Marshal] on such a
      value, and the text of the error reported for a rejected input. *)
  JsonAny : Type;
  json_members : string → list (string * JsonAny);
  json_Marshal : JsonAny → GoResult string;
  json_error : string → string;
  (** The error the decoder saves while it stores the members of an object
      text the scanner has accepted, if any: a number literal that
      [strconv.ParseFloat] rejects as out of the [float64] range
      ([convertNumber]).  Decoding goes on, and [json.Unmarshal] returns
      the saved error at the end. *)
  json_decode_error : string → option string;
  (** Detail text of the framework's diagnostic for a failed [ElementsAs]. *)
  conversion_error_detail : string
}.

#[global] Instance zero_UUID `{Platform} : Zero UUID := uuid_Nil.
#[global] Instance zero_URL `{Platform} : Zero URL := url_zero.

(** [json.Unmarshal(data, &m)] for [m] of type [map[string]interface{}]:
    an error for a text the scanner rejects, for a top-level value that
    is neither an object nor [null], and for an object in which the
    decoder saved an error; [null] leaves the map nil. *)
Definition json_Unmarshal_map `{Platform} (data : string)
  : GoResult (list (string * JsonAny)) :=
  if Json.isObject data then
    match json_decode_error data with
    | Some e => Err e
    | None => Ok (json_members data)
    end
  else if Json.isNull data then Ok []
  else Err (json_error data).

(** [list.ElementsAs(ctx, &[]string, false)]: fails on a null or unknown
    list and on a null or unknown element. *)
Definition stringOfElem (v : tfString) : option string :=
  match v with TfValue s => Some s | _ => None end.

Definition ElementsAs_list (l : tfList) : option (list string) :=
  match l with
  | TfValue elems => mapM stringOfElem elems
  | _ => None
  end.

(** [map.ElementsAs(ctx, &map[string]string, false)]. *)
Definition ElementsAs_map (m : tfMap) : option (gmap string string) :=
  match m with
  | TfValue elems =>
    if bool_decide (map_Forall (λ _ v, is_Some (stringOfElem v)) elems)
    then Some (omap stringOfElem elems)
    else None
  | _ => None
  end.

(** [diags = v.ElementsAs(...)], [resp.Diagnostics.Append(diags...)],
    [if resp.Diagnostics.HasError() { return }]: a failed conversion
    appends an error diagnostic. *)
Definition ElementsAsError `{Platform} {M C A} : Op M C A :=
  fail "Value Conversion Error" conversion_error_detail.

Definition elementsAs_list `{Platform} {M C} (l : tfList) : Op M C (list string) :=
  match ElementsAs_list l with
  | Some xs => returnIfError ;;; op_ret xs
  | None => ElementsAsError
  end.

Definition elementsAs_map `{Platform} {M C} (m : tfMap) : Op M C (gmap string string) :=
  match ElementsAs_map m with
  | Some xs => returnIfError ;;; op_ret xs
  | None => ElementsAsError
  end.

(** [types.ListValueMust(types.StringType, values)] over a [[]string]. *)
Definition ListOfStrings (xs : list string) : tfList :=
  TfValue (TfValue <$> xs).

(** [uuid.Parse] followed by the [AddError(summary, err.Error()); return]
    the resources use. *)
Definition parseUUID `{Platform} {M C} (summary : string) (prefix : string)
  (s : string) : Op M C UUID :=
  match uuid_Parse s with
  | Ok u => op_ret u
  | Err e => fail summary (prefix ++ e)
  end.

Definition parseURL `{Platform} {M C} (summary : string) (s : string)
  : Op M C URL :=
  match url_Parse s with
  | Ok u => op_ret u
  | Err e => fail summary e
  end.

(* ===================================================================== *)
(** ** devgraph_model_provider ([model_provider_resource.go]) *)
(* ===================================================================== *)

Module ModelProvider.
Section WithPlatform.
Context `{Platform}.

Record ResourceModel := mkModel {
  ID : tfString;
  Type_ : tfString;
  Name : tfString;
  APIKey : tfString;
  Default : tfBool
}.

#[global] Instance ResourceModel_eq_dec : EqDecision ResourceModel.
Proof. solve_decision. Defined.

(** Discriminator of the create payload. *)
Inductive ModelProviderCreateDataType :=
| OpenAIModelProviderCreateModelProviderCreateData
| AnthropicModelProviderCreateModelProviderCreateData
| XAIModelProviderCreateModelProviderCreateData.

(** [OpenAIModelProviderCreate], [AnthropicModelProviderCreate] and
    [XAIModelProviderCreate] have the same four fields. *)
Record ProviderCreate := mkProviderCreate {
  pc_Type : string;
  pc_Name : string;
  pc_APIKey : string;
  pc_Default : Opt bool
}.

Record ModelProviderCreate := mkCreate {
  Data_Type : ModelProviderCreateDataType;
  Data_Provider : ProviderCreate
}.

Record ModelProviderUpdate := mkUpdate {
  u_Name : OptNil string;
  u_APIKey : OptNil string;
  u_Default : OptNil bool
}.

(** Discriminator of the response: a string-typed tag with three declared
    constants. *)
Inductive ModelProviderResponseType :=
| OpenAIModelProviderResponseModelProviderResponse
| AnthropicModelProviderResponseModelProviderResponse
| XAIModelProviderResponseModelProviderResponse
| OtherModelProviderResponseType (tag : string).

Record ProviderResponse := mkProviderResponse {
  pr_ID : UUID;
  pr_Type : string;
  pr_Name : string;
  pr_APIKey : string;
  pr_Default : Opt bool
}.

Record ModelProviderResponse := mkResponse {
  r_Type : ModelProviderResponseType;
  OpenAIModelProviderResponse : ProviderResponse;
  AnthropicModelProviderResponse : ProviderResponse;
  XAIModelProviderResponse : ProviderResponse
}.

(** What the client methods return besides an error: the expected
    response or another implementation of the result interface. *)
Inductive CreateModelproviderRes :=
| Create_ModelProviderResponse (r : ModelProviderResponse)
| Create_Other (goType : string).

Inductive GetModelproviderRes :=
| Get_NotFound
| Get_ModelProviderResponse (r : ModelProviderResponse)
| Get_Other (goType : string).

Inductive UpdateModelproviderRes :=
| Update_ModelProviderResponse (r : ModelProviderResponse)
| Update_Other (goType : string).

Inductive Call :=
| CallCreateModelprovider (req : ModelProviderCreate)
| CallGetModelprovider (ProviderID : UUID)
| CallUpdateModelprovider (req : ModelProviderUpdate) (ProviderID : UUID)
| CallDeleteModelprovider (ProviderID : UUID).

Record Client := mkClient {
  CreateModelprovider : ModelProviderCreate → GoResult CreateModelproviderRes;
  GetModelprovider : UUID → GoResult GetModelproviderRes;
  UpdateModelprovider : ModelProviderUpdate → UUID → GoResult UpdateModelproviderRes;
  DeleteModelprovider : UUID → GoResult unit
}.

Definition M := Op ResourceModel Call.

(** The five assignments Create and Update make in each recognised case
    of the switch on [result.Type]. *)
Definition assignWithID (plan : ResourceModel) (provider : ProviderResponse)
  : ResourceModel :=
  {| ID := TfValue (uuid_String (pr_ID provider));
     Type_ := TfValue (pr_Type provider);
     Name := TfValue (pr_Name provider);
     APIKey := TfValue (pr_APIKey provider);
     Default := if opt_Set (pr_Default provider)
                then TfValue (opt_Value (pr_Default provider))
                else Default plan |}.

(** The four assignments Read makes in each recognised case. *)
Definition assignRead (state : ResourceModel) (provider : ProviderResponse)
  : ResourceModel :=
  {| ID := ID state;
     Type_ := TfValue (pr_Type provider);
     Name := TfValue (pr_Name provider);
     APIKey := TfValue (pr_APIKey provider);
     Default := if opt_Set (pr_Default provider)
                then TfValue (opt_Value (pr_Default provider))
                else Default state |}.

(** The [switch result.Type] of Create and Update: no [default] case. *)
Definition mergeWithID (plan : ResourceModel) (result : ModelProviderResponse)
  : ResourceModel :=
  match r_Type result with
  | OpenAIModelProviderResponseModelProviderResponse =>
    assignWithID plan (OpenAIModelProviderResponse result)
  | AnthropicModelProviderResponseModelProviderResponse =>
    assignWithID plan (AnthropicModelProviderResponse result)
  | XAIModelProviderResponseModelProviderResponse =>
    assignWithID plan (XAIModelProviderResponse result)
  | OtherModelProviderResponseType _ => plan
  end.

(** The [switch result.Type] of Read: no [default] case. *)
Definition mergeRead (state : ResourceModel) (result : ModelProviderResponse)
  : ResourceModel :=
  match r_Type result with
  | OpenAIModelProviderResponseModelProviderResponse =>
    assignRead state (OpenAIModelProviderResponse result)
  | AnthropicModelProviderResponseModelProviderResponse =>
    assignRead state (AnthropicModelProviderResponse result)
  | XAIModelProviderResponseModelProviderResponse =>
    assignRead state (XAIModelProviderResponse result)
  | OtherModelProviderResponseType _ => state
  end.

(** The [switch providerType] that builds the create request. *)
Definition createReqOf (plan : ResourceModel) : option ModelProviderCreate :=
  let providerType := ValueOf (Type_ plan) in
  let payload (ty : string) :=
    mkProviderCreate ty (ValueOf (Name plan)) (ValueOf (APIKey plan))
                     (NewOpt (ValueOf (Default plan))) in
  if String.eqb providerType "openai" then
    Some (mkCreate OpenAIModelProviderCreateModelProviderCreateData (payload "openai"))
  else if String.eqb providerType "anthropic" then
    Some (mkCreate AnthropicModelProviderCreateModelProviderCreateData (payload "anthropic"))
  else if String.eqb providerType "xai" then
    Some (mkCreate XAIModelProviderCreateModelProviderCreateData (payload "xai"))
  else None.

Definition Create (client : Client) (plan : ResourceModel) : M unit :=
  returnIfError ;;;
  createReq <-
    match createReqOf plan with
    | Some createReq => op_ret createReq
    | None =>
      fail "Invalid provider type"
           ("Provider type must be one of: openai, anthropic, xai. Got: "
              ++ ValueOf (Type_ plan))
    end ;;
  resultInterface <-
    remote (CallCreateModelprovider createReq)
           (CreateModelprovider client createReq) ;;
  match resultInterface with
  | Err e =>
    fail "Error creating model provider" ("Could not create model provider: " ++ e)
  | Ok (Create_Other _) =>
    fail "Unexpected response type" "Expected ModelProviderResponse"
  | Ok (Create_ModelProviderResponse result) =>
    StateSet (mergeWithID plan result)
  end.

Definition Read (client : Client) (state : ResourceModel) : M unit :=
  returnIfError ;;;
  providerID <- parseUUID "Invalid Model Provider ID" "" (ValueOf (ID state)) ;;
  resultInterface <-
    remote (CallGetModelprovider providerID) (GetModelprovider client providerID) ;;
  match resultInterface with
  | Err e =>
    fail "Error reading model provider"
         ("Could not read model provider ID " ++ ValueOf (ID state) ++ ": " ++ e)
  | Ok Get_NotFound => RemoveResource ;;; halt
  | Ok (Get_Other goType) =>
    fail "Unexpected response type"
         ("Expected *v1.ModelProviderResponse, got: " ++ goType)
  | Ok (Get_ModelProviderResponse result) =>
    StateSet (mergeRead state result)
  end.

(** The update request: only the fields that have changed. *)
Definition updateReqOf (plan state : ResourceModel) : ModelProviderUpdate :=
  {| u_Name := if negb (Equal (Name plan) (Name state))
               then NewOptNil (ValueOf (Name plan)) else zero;
     u_APIKey := if negb (Equal (APIKey plan) (APIKey state))
                 then NewOptNil (ValueOf (APIKey plan)) else zero;
     u_Default := if negb (Equal (Default plan) (Default state))
                  then NewOptNil (ValueOf (Default plan)) else zero |}.

Definition Update (client : Client) (plan state : ResourceModel) : M unit :=
  returnIfError ;;;
  returnIfError ;;;
  providerID <- parseUUID "Invalid Model Provider ID" "" (ValueOf (ID state)) ;;
  let updateReq := updateReqOf plan state in
  resultInterface <-
    remote (CallUpdateModelprovider updateReq providerID)
           (UpdateModelprovider client updateReq providerID) ;;
  match resultInterface with
  | Err e =>
    fail "Error updating model provider" ("Could not update model provider: " ++ e)
  | Ok (Update_Other _) =>
    fail "Unexpected response type" "Expected ModelProviderResponse"
  | Ok (Update_ModelProviderResponse result) =>
    StateSet (mergeWithID plan result)
  end.

Definition Delete (client : Client) (state : ResourceModel) : M unit :=
  returnIfError ;;;
  providerID <- parseUUID "Invalid Model Provider ID" "" (ValueOf (ID state)) ;;
  res <- remote (CallDeleteModelprovider providerID)
                (DeleteModelprovider client providerID) ;;
  match res with
  | Err e =>
    fail "Error deleting model provider" ("Could not delete model provider: " ++ e)
  | Ok _ => op_ret tt
  end.

(** [resource.ImportStatePassthroughID(ctx, path.Root("id"), req, resp)]:
    the import identifier becomes the [id] attribute of a state whose
    other attributes are null. *)
Definition ImportState (req_ID : string) : M unit :=
  StateSet (mkModel (TfValue req_ID) TfNull TfNull TfNull TfNull).

End WithPlatform.
End ModelProvider.

(* ===================================================================== *)
(** ** devgraph_oauth_service *)
(* ===================================================================== *)

Module OAuthService.
Section WithPlatform.
Context `{Platform}.

Record ResourceModel := mkModel {
  ID : tfString;
  Name : tfString;
  DisplayName : tfString;
  Description : tfString;
  ClientID : tfString;
  ClientSecret : tfString;
  AuthorizationURL : tfString;
  TokenURL : tfString;
  UserinfoURL : tfString;
  DefaultScopes : tfList;
  SupportedGrantTypes : tfList;
  IsActive : tfBool;
  IconURL : tfString;
  HomepageURL : tfString;
  CreatedAt : tfString;
  UpdatedAt : tfString
}.

Record OAuthServiceCreate := mkCreate {
  c_Name : string;
  c_DisplayName : string;
  c_ClientID : string;
  c_ClientSecret : string;
  c_AuthorizationURL : URL;
  c_TokenURL : URL;
  c_SupportedGrantTypes : list string;
  c_Description : OptNil string;
  c_DefaultScopes : OptNil (list string);
  c_UserinfoURL : OptNil URL;
  c_IsActive : Opt bool;
  c_IconURL : OptNil URL;
  c_HomepageURL : OptNil URL
}.

Record OAuthServiceUpdate := mkUpdate {
  u_DisplayName : OptNil string;
  u_ClientID : OptNil string;
  u_ClientSecret : OptNil string;
  u_AuthorizationURL : OptNil URL;
  u_TokenURL : OptNil URL;
  u_Description : OptNil string;
  u_DefaultScopes : OptNil (list string);
  u_SupportedGrantTypes : OptNil (list string);
  u_UserinfoURL : OptNil URL;
  u_IsActive : OptNil bool;
  u_IconURL : OptNil URL;
  u_HomepageURL : OptNil URL
}.

Record OAuthServiceResponse := mkResponse {
  r_ID : UUID;
  r_DisplayName : string;
  r_AuthorizationURL : string;
  r_TokenURL : string;
  r_IsActive : bool;
  r_CreatedAt : Time;
  r_UpdatedAt : Time;
  r_Description : Nil string;
  r_UserinfoURL : Nil string;
  r_IconURL : Nil string;
  r_HomepageURL : Nil string;
  r_DefaultScopes : list string;
  r_SupportedGrantTypes : list string
}.

Inductive CreateOAuthServiceRes :=
| Create_OAuthServiceResponse (r : OAuthServiceResponse)
| Create_Other (goType : string).

Inductive GetOAuthServiceRes :=
| Get_NotFound
| Get_OAuthServiceResponse (r : OAuthServiceResponse)
| Get_Other (goType : string).

Inductive UpdateOAuthServiceRes :=
| Update_OAuthServiceResponse (r : OAuthServiceResponse)
| Update_Other (goType : string).

Inductive Call :=
| CallCreateOAuthService (req : OAuthServiceCreate)
| CallGetOAuthService (ServiceID : UUID)
| CallUpdateOAuthService (req : OAuthServiceUpdate) (ServiceID : UUID)
| CallDeleteOAuthService (ServiceID : UUID).

Record Client := mkClient {
  CreateOAuthService : OAuthServiceCreate → GoResult CreateOAuthServiceRes;
  GetOAuthService : UUID → GoResult GetOAuthServiceRes;
  UpdateOAuthService : OAuthServiceUpdate → UUID → GoResult UpdateOAuthServiceRes;
  DeleteOAuthService : UUID → GoResult unit
}.

Definition M := Op ResourceModel Call.

(** [if !x.Null { StringValue(x.Value) } else { StringNull() }] *)
Definition ofNil (x : Nil string) : tfString :=
  if negb (nil_Null x) then TfValue (nil_Value x) else TfNull.

(** [if !v.IsNull() { u, err := url.Parse(v.ValueString()) ... }]: the
    parsed URL wrapped by [NewOptNilURI]. *)
Definition optURL (summary : string) (v : tfString) : M (OptNil URL) :=
  if negb (IsNull v) then
    u <- parseURL summary (ValueOf v) ;;
    op_ret (NewOptNil u)
  else op_ret zero.

Definition optString (v : tfString) : OptNil string :=
  if negb (IsNull v) then NewOptNil (ValueOf v) else zero.

(** [if !v.IsNull() && !v.IsUnknown() { ElementsAs ...; NewOptNilStringArray }] *)
Definition optStringArray (v : tfList) : M (OptNil (list string)) :=
  if negb (IsNull v) && negb (IsUnknown v) then
    xs <- elementsAs_list v ;;
    op_ret (NewOptNil xs)
  else op_ret zero.

(** Response fields copied by Create, Read and Update alike. *)
Definition mergeCommon (m : ResourceModel) (result : OAuthServiceResponse)
  : ResourceModel :=
  {| ID := ID m;
     Name := Name m;
     DisplayName := TfValue (r_DisplayName result);
     Description := ofNil (r_Description result);
     ClientID := ClientID m;
     ClientSecret := ClientSecret m;
     AuthorizationURL := TfValue (r_AuthorizationURL result);
     TokenURL := TfValue (r_TokenURL result);
     UserinfoURL := ofNil (r_UserinfoURL result);
     DefaultScopes := ListOfStrings (r_DefaultScopes result);
     SupportedGrantTypes := ListOfStrings (r_SupportedGrantTypes result);
     IsActive := TfValue (r_IsActive result);
     IconURL := ofNil (r_IconURL result);
     HomepageURL := ofNil (r_HomepageURL result);
     CreatedAt := CreatedAt m;
     UpdatedAt := TfValue (time_String (r_UpdatedAt result)) |}.

Definition with_ID (m : ResourceModel) (v : tfString) : ResourceModel :=
  mkModel v (Name m) (DisplayName m) (Description m) (ClientID m)
          (ClientSecret m) (AuthorizationURL m) (TokenURL m) (UserinfoURL m)
          (DefaultScopes m) (SupportedGrantTypes m) (IsActive m) (IconURL m)
          (HomepageURL m) (CreatedAt m) (UpdatedAt m).

Definition with_CreatedAt (m : ResourceModel) (v : tfString) : ResourceModel :=
  mkModel (ID m) (Name m) (DisplayName m) (Description m) (ClientID m)
          (ClientSecret m) (AuthorizationURL m) (TokenURL m) (UserinfoURL m)
          (DefaultScopes m) (SupportedGrantTypes m) (IsActive m) (IconURL m)
          (HomepageURL m) v (UpdatedAt m).

(** Create also stores the identifier and the creation time. *)
Definition mergeCreate (plan : ResourceModel) (result : OAuthServiceResponse)
  : ResourceModel :=
  with_CreatedAt
    (with_ID (mergeCommon plan result) (TfValue (uuid_String (r_ID result))))
    (TfValue (time_String (r_CreatedAt result))).

(** Read stores the creation time but not the identifier. *)
Definition mergeRead (state : ResourceModel) (result : OAuthServiceResponse)
  : ResourceModel :=
  with_CreatedAt (mergeCommon state result)
                 (TfValue (time_String (r_CreatedAt result))).

(** Update stores neither. *)
Definition mergeUpdate (plan : ResourceModel) (result : OAuthServiceResponse)
  : ResourceModel :=
  mergeCommon plan result.

Definition Create (client : Client) (plan : ResourceModel) : M unit :=
  returnIfError ;;;
  authURL <- parseURL "Invalid authorization URL" (ValueOf (AuthorizationURL plan)) ;;
  tokenURL <- parseURL "Invalid token URL" (ValueOf (TokenURL plan)) ;;
  supportedGrantTypes <-
    (if negb (IsNull (SupportedGrantTypes plan))
        && negb (IsUnknown (SupportedGrantTypes plan))
     then elementsAs_list (SupportedGrantTypes plan)
     else op_ret []) ;;
  let description := optString (Description plan) in
  defaultScopes <- optStringArray (DefaultScopes plan) ;;
  userinfoURL <- optURL "Invalid userinfo URL" (UserinfoURL plan) ;;
  let isActive :=
    if negb (IsNull (IsActive plan)) then NewOpt (ValueOf (IsActive plan))
    else zero in
  iconURL <- optURL "Invalid icon URL" (IconURL plan) ;;
  homepageURL <- optURL "Invalid homepage URL" (HomepageURL plan) ;;
  let createReq :=
    {| c_Name := ValueOf (Name plan);
       c_DisplayName := ValueOf (DisplayName plan);
       c_ClientID := ValueOf (ClientID plan);
       c_ClientSecret := ValueOf (ClientSecret plan);
       c_AuthorizationURL := authURL;
       c_TokenURL := tokenURL;
       c_SupportedGrantTypes := supportedGrantTypes;
       c_Description := description;
       c_DefaultScopes := defaultScopes;
       c_UserinfoURL := userinfoURL;
       c_IsActive := isActive;
       c_IconURL := iconURL;
       c_HomepageURL := homepageURL |} in
  resultInterface <-
    remote (CallCreateOAuthService createReq) (CreateOAuthService client createReq) ;;
  match resultInterface with
  | Err e =>
    fail "Error creating OAuth service" ("Could not create OAuth service: " ++ e)
  | Ok (Create_Other goType) =>
    fail "Unexpected response type"
         ("Expected *v1.OAuthServiceResponse, got: " ++ goType)
  | Ok (Create_OAuthServiceResponse result) =>
    StateSet (mergeCreate plan result)
  end.

Definition Read (client : Client) (state : ResourceModel) : M unit :=
  returnIfError ;;;
  serviceID <- parseUUID "Invalid OAuth Service ID" "" (ValueOf (ID state)) ;;
  resultInterface <-
    remote (CallGetOAuthService serviceID) (GetOAuthService client serviceID) ;;
  match resultInterface with
  | Err e =>
    fail "Error reading OAuth service"
         ("Could not read OAuth service ID " ++ ValueOf (ID state) ++ ": " ++ e)
  | Ok Get_NotFound => RemoveResource ;;; halt
  | Ok (Get_Other goType) =>
    fail "Unexpected response type"
         ("Expected *v1.OAuthServiceResponse, got: " ++ goType)
  | Ok (Get_OAuthServiceResponse result) =>
    StateSet (mergeRead state result)
  end.

(** The update request is built from the plan alone: every attribute that
    is not null in the plan is sent. *)
Definition updateReqOf (plan : ResourceModel) : M OAuthServiceUpdate :=
  let displayName := optString (DisplayName plan) in
  let clientID := optString (ClientID plan) in
  let clientSecret := optString (ClientSecret plan) in
  authorizationURL <- optURL "Invalid authorization URL" (AuthorizationURL plan) ;;
  tokenURL <- optURL "Invalid token URL" (TokenURL plan) ;;
  let description := optString (Description plan) in
  defaultScopes <- optStringArray (DefaultScopes plan) ;;
  supportedGrantTypes <- optStringArray (SupportedGrantTypes plan) ;;
  userinfoURL <- optURL "Invalid userinfo URL" (UserinfoURL plan) ;;
  let isActive :=
    if negb (IsNull (IsActive plan)) then NewOptNil (ValueOf (IsActive plan))
    else zero in
  iconURL <- optURL "Invalid icon URL" (IconURL plan) ;;
  homepageURL <- optURL "Invalid homepage URL" (HomepageURL plan) ;;
  op_ret {| u_DisplayName := displayName;
            u_ClientID := clientID;
            u_ClientSecret := clientSecret;
            u_AuthorizationURL := authorizationURL;
            u_TokenURL := tokenURL;
            u_Description := description;
            u_DefaultScopes := defaultScopes;
            u_SupportedGrantTypes := supportedGrantTypes;
            u_UserinfoURL := userinfoURL;
            u_IsActive := isActive;
            u_IconURL := iconURL;
            u_HomepageURL := homepageURL |}.

(** Update reads the plan only; the prior state is not consulted. *)
Definition Update (client : Client) (plan state : ResourceModel) : M unit :=
  returnIfError ;;;
  serviceID <- parseUUID "Invalid OAuth Service ID" "" (ValueOf (ID plan)) ;;
  updateReq <- updateReqOf plan ;;
  resultInterface <-
    remote (CallUpdateOAuthService updateReq serviceID)
           (UpdateOAuthService client updateReq serviceID) ;;
  match resultInterface with
  | Err e =>
    fail "Error updating OAuth service" ("Could not update OAuth service: " ++ e)
  | Ok (Update_Other goType) =>
    fail "Unexpected response type"
         ("Expected *v1.OAuthServiceResponse, got: " ++ goType)
  | Ok (Update_OAuthServiceResponse result) =>
    StateSet (mergeUpdate plan result)
  end.

Definition Delete (client : Client) (state : ResourceModel) : M unit :=
  returnIfError ;;;
  serviceID <- parseUUID "Invalid OAuth Service ID" "" (ValueOf (ID state)) ;;
  res <- remote (CallDeleteOAuthService serviceID)
                (DeleteOAuthService client serviceID) ;;
  match res with
  | Err e =>
    fail "Error deleting OAuth service" ("Could not delete OAuth service: " ++ e)
  | Ok _ => op_ret tt
  end.

(** [resource.ImportStatePassthroughID(ctx, path.Root("id"), req, resp)] *)
Definition ImportState (req_ID : string) : M unit :=
  StateSet (mkModel (TfValue req_ID) TfNull TfNull TfNull TfNull TfNull TfNull
                    TfNull TfNull TfNull TfNull TfNull TfNull TfNull TfNull TfNull).

End WithPlatform.
End OAuthService.

(* ===================================================================== *)
(** ** devgraph_mcp_endpoint ([mcp_endpoint_resource.go]) *)
(* ===================================================================== *)

Module MCPEndpoint.
Section WithPlatform.
Context `{Platform}.

Record ResourceModel := mkModel {
  ID : tfString;
  Name : tfString;
  URL_ : tfString;
  Description : tfString;
  Headers : tfMap;
  DevgraphAuth : tfBool;
  SupportsResources : tfBool;
  OAuthServiceID : tfString;
  Immutable : tfBool;
  Active : tfBool;
  AllowedTools : tfList;
  DeniedTools : tfList
}.

Record MCPEndpointCreate := mkCreate {
  c_Name : string;
  c_URL : string;
  c_Description : OptNil string;
  c_Headers : Opt (gmap string string);
  c_DevgraphAuth : Opt bool;
  c_SupportsResources : Opt bool;
  c_Immutable : Opt bool;
  c_Active : Opt bool;
  c_OAuthServiceID : OptNil UUID;
  c_AllowedTools : OptNil (list string);
  c_DeniedTools : OptNil (list string)
}.

Record MCPEndpointUpdate := mkUpdate {
  u_Name : OptNil string;
  u_URL : OptNil string;
  u_Description : OptNil string;
  u_Headers : OptNil (gmap string string);
  u_DevgraphAuth : OptNil bool;
  u_SupportsResources : OptNil bool;
  u_Immutable : OptNil bool;
  u_Active : OptNil bool;
  u_OAuthServiceID : OptNil UUID;
  u_AllowedTools : OptNil (list string);
  u_DeniedTools : OptNil (list string)
}.

Record MCPEndpointResponse := mkResponse {
  r_ID : UUID;
  r_Name : string;
  r_URL : string;
  r_Description : OptNil string;
  r_Headers : Opt (gmap string string);
  r_DevgraphAuth : Opt bool;
  r_SupportsResources : Opt bool;
  r_Immutable : Opt bool;
  r_Active : Opt bool;
  r_OAuthServiceID : OptNil UUID
}.

Inductive CreateMcpendpointRes :=
| Create_MCPEndpointResponse (r : MCPEndpointResponse)
| Create_Other (goType : string).

Inductive GetMcpendpointRes :=
| Get_NotFound
| Get_MCPEndpointResponse (r : MCPEndpointResponse)
| Get_Other (goType : string).

Inductive UpdateMcpendpointRes :=
| Update_MCPEndpointResponse (r : MCPEndpointResponse)
| Update_Other (goType : string).

Inductive Call :=
| CallCreateMcpendpoint (req : MCPEndpointCreate)
| CallGetMcpendpoint (McpendpointID : UUID)
| CallUpdateMcpendpoint (req : MCPEndpointUpdate) (McpendpointID : UUID)
| CallDeleteMcpendpoint (McpendpointID : UUID).

Record Client := mkClient {
  CreateMcpendpoint : MCPEndpointCreate → GoResult CreateMcpendpointRes;
  GetMcpendpoint : UUID → GoResult GetMcpendpointRes;
  UpdateMcpendpoint : MCPEndpointUpdate → UUID → GoResult UpdateMcpendpointRes;
  DeleteMcpendpoint : UUID → GoResult unit
}.

Definition M := Op ResourceModel Call.

(** [if o.IsSet() { BoolValue(o.Value) }], the old value otherwise. *)
Definition ifSetBool (o : Opt bool) (old : tfBool) : tfBool :=
  if opt_Set o then TfValue (opt_Value o) else old.

(** The assignments Create and Read make from the response, the
    identifier aside. *)
Definition mergeResponse (m : ResourceModel) (result : MCPEndpointResponse)
  : ResourceModel :=
  {| ID := ID m;
     Name := TfValue (r_Name result);
     URL_ := TfValue (r_URL result);
     Description :=
       if on_Set (r_Description result)
       then TfValue (on_Value (r_Description result))
       else Description m;
     Headers :=
       if opt_Set (r_Headers result)
          && (0 <? size (opt_Value (r_Headers result)))%nat
       then TfValue (TfValue <$> opt_Value (r_Headers result))
       else Headers m;
     DevgraphAuth := ifSetBool (r_DevgraphAuth result) (DevgraphAuth m);
     SupportsResources := ifSetBool (r_SupportsResources result) (SupportsResources m);
     OAuthServiceID :=
       if on_Set (r_OAuthServiceID result)
          && negb (bool_decide (on_Value (r_OAuthServiceID result) = uuid_Nil))
       then TfValue (uuid_String (on_Value (r_OAuthServiceID result)))
       else OAuthServiceID m;
     Immutable := ifSetBool (r_Immutable result) (Immutable m);
     Active := ifSetBool (r_Active result) (Active m);
     AllowedTools := AllowedTools m;
     DeniedTools := DeniedTools m |}.

Definition with_ID (m : ResourceModel) (v : tfString) : ResourceModel :=
  mkModel v (Name m) (URL_ m) (Description m) (Headers m) (DevgraphAuth m)
          (SupportsResources m) (OAuthServiceID m) (Immutable m) (Active m)
          (AllowedTools m) (DeniedTools m).

Definition mergeCreate (plan : ResourceModel) (result : MCPEndpointResponse)
  : ResourceModel :=
  with_ID (mergeResponse plan result) (TfValue (uuid_String (r_ID result))).

Definition mergeRead (state : ResourceModel) (result : MCPEndpointResponse)
  : ResourceModel :=
  mergeResponse state result.

(** Update copies back the name, the URL and a set description only. *)
Definition mergeUpdate (plan : ResourceModel) (result : MCPEndpointResponse)
  : ResourceModel :=
  mkModel (ID plan) (TfValue (r_Name result)) (TfValue (r_URL result))
          (if on_Set (r_Description result)
           then TfValue (on_Value (r_Description result))
           else Description plan)
          (Headers plan) (DevgraphAuth plan) (SupportsResources plan)
          (OAuthServiceID plan) (Immutable plan) (Active plan)
          (AllowedTools plan) (DeniedTools plan).

Definition optString (v : tfString) : OptNil string :=
  if negb (IsNull v) then NewOptNil (ValueOf v) else zero.

Definition optBool (v : tfBool) : OptNil bool :=
  if negb (IsNull v) then NewOptNil (ValueOf v) else zero.

Definition optUUID (v : tfString) : M (OptNil UUID) :=
  if negb (IsNull v) then
    oauthID <- parseUUID "Invalid OAuth Service ID" "" (ValueOf v) ;;
    op_ret (NewOptNil oauthID)
  else op_ret zero.

(** [if len(xs) > 0 { NewOptNilStringArray(xs) }] *)
Definition optNonEmpty (xs : list string) : OptNil (list string) :=
  if (0 <? length xs)%nat then NewOptNil xs else zero.

Definition Create (client : Client) (plan : ResourceModel) : M unit :=
  returnIfError ;;;
  headers <-
    (if negb (IsNull (Headers plan)) then elementsAs_map (Headers plan)
     else op_ret ∅) ;;
  allowedTools <-
    (if negb (IsNull (AllowedTools plan)) then elementsAs_list (AllowedTools plan)
     else op_ret []) ;;
  deniedTools <-
    (if negb (IsNull (DeniedTools plan)) then elementsAs_list (DeniedTools plan)
     else op_ret []) ;;
  oauthServiceID <- optUUID (OAuthServiceID plan) ;;
  let createReq :=
    {| c_Name := ValueOf (Name plan);
       c_URL := ValueOf (URL_ plan);
       c_Description := optString (Description plan);
       c_Headers := if (0 <? size headers)%nat then NewOpt headers else zero;
       c_DevgraphAuth := NewOpt (ValueOf (DevgraphAuth plan));
       c_SupportsResources := NewOpt (ValueOf (SupportsResources plan));
       c_Immutable := NewOpt (ValueOf (Immutable plan));
       c_Active := NewOpt (ValueOf (Active plan));
       c_OAuthServiceID := oauthServiceID;
       c_AllowedTools := optNonEmpty allowedTools;
       c_DeniedTools := optNonEmpty deniedTools |} in
  resultInterface <-
    remote (CallCreateMcpendpoint createReq) (CreateMcpendpoint client createReq) ;;
  match resultInterface with
  | Err e =>
    fail "Error creating MCP endpoint" ("Could not create MCP endpoint: " ++ e)
  | Ok (Create_Other _) =>
    fail "Unexpected response type" "Expected MCPEndpointResponse"
  | Ok (Create_MCPEndpointResponse result) =>
    StateSet (mergeCreate plan result)
  end.

Definition Read (client : Client) (state : ResourceModel) : M unit :=
  returnIfError ;;;
  endpointID <- parseUUID "Invalid MCP Endpoint ID" "" (ValueOf (ID state)) ;;
  resultInterface <-
    remote (CallGetMcpendpoint endpointID) (GetMcpendpoint client endpointID) ;;
  match resultInterface with
  | Err e =>
    fail "Error reading MCP endpoint"
         ("Could not read MCP endpoint ID " ++ ValueOf (ID state) ++ ": " ++ e)
  | Ok Get_NotFound => RemoveResource ;;; halt
  | Ok (Get_Other goType) =>
    fail "Unexpected response type"
         ("Expected *v1.MCPEndpointResponse, got: " ++ goType)
  | Ok (Get_MCPEndpointResponse result) =>
    StateSet (mergeRead state result)
  end.

(** [if !v.IsNull() { ElementsAs ...; NewOptNilStringArray(xs) }] *)
Definition optStringArray (v : tfList) : M (OptNil (list string)) :=
  if negb (IsNull v) then
    xs <- elementsAs_list v ;;
    op_ret (NewOptNil xs)
  else op_ret zero.

(** The update request is built from the plan alone: every attribute that
    is not null in the plan is sent. *)
Definition updateReqOf (plan : ResourceModel) : M MCPEndpointUpdate :=
  headers <-
    (if negb (IsNull (Headers plan)) then
       hs <- elementsAs_map (Headers plan) ;;
       op_ret (NewOptNil hs)
     else op_ret zero) ;;
  oauthServiceID <- optUUID (OAuthServiceID plan) ;;
  allowedTools <- optStringArray (AllowedTools plan) ;;
  deniedTools <- optStringArray (DeniedTools plan) ;;
  op_ret {| u_Name := optString (Name plan);
            u_URL := optString (URL_ plan);
            u_Description := optString (Description plan);
            u_Headers := headers;
            u_DevgraphAuth := optBool (DevgraphAuth plan);
            u_SupportsResources := optBool (SupportsResources plan);
            u_Immutable := optBool (Immutable plan);
            u_Active := optBool (Active plan);
            u_OAuthServiceID := oauthServiceID;
            u_AllowedTools := allowedTools;
            u_DeniedTools := deniedTools |}.

(** Update reads the plan only; the prior state is not consulted. *)
Definition Update (client : Client) (plan state : ResourceModel) : M unit :=
  returnIfError ;;;
  endpointID <- parseUUID "Invalid MCP Endpoint ID" "" (ValueOf (ID plan)) ;;
  updateReq <- updateReqOf plan ;;
  resultInterface <-
    remote (CallUpdateMcpendpoint updateReq endpointID)
           (UpdateMcpendpoint client updateReq endpointID) ;;
  match resultInterface with
  | Err e =>
    fail "Error updating MCP endpoint" ("Could not update MCP endpoint: " ++ e)
  | Ok (Update_Other _) =>
    fail "Unexpected response type" "Expected MCPEndpointResponse"
  | Ok (Update_MCPEndpointResponse result) =>
    StateSet (mergeUpdate plan result)
  end.

Definition Delete (client : Client) (state : ResourceModel) : M unit :=
  returnIfError ;;;
  endpointID <- parseUUID "Invalid MCP Endpoint ID" "" (ValueOf (ID state)) ;;
  res <- remote (CallDeleteMcpendpoint endpointID)
                (DeleteMcpendpoint client endpointID) ;;
  match res with
  | Err e =>
    fail "Error deleting MCP endpoint" ("Could not delete MCP endpoint: " ++ e)
  | Ok _ => op_ret tt
  end.

(** [resource.ImportStatePassthroughID(ctx, path.Root("id"), req, resp)] *)
Definition ImportState (req_ID : string) : M unit :=
  StateSet (mkModel (TfValue req_ID) TfNull TfNull TfNull TfNull TfNull TfNull
                    TfNull TfNull TfNull TfNull TfNull).

(** [convertMapToStringValues]: a fresh map that receives every entry of
    the argument. *)
Definition convertMapToStringValues (m : gmap string tfString)
  : gmap string tfString :=
  map_fold (λ k v result, <[k := v]> result) ∅ m.

(** The headers Create and Read store for a response that carries some:
    [headersMap[k] = types.StringValue(v)] for each response header, then
    [types.MapValueMust(types.StringType, convertMapToStringValues(headersMap))]. *)
Definition headersValue (headers : gmap string string) : tfMap :=
  TfValue (convertMapToStringValues
             (map_fold (λ k v headersMap, <[k := TfValue v]> headersMap) ∅ headers)).

End WithPlatform.
End MCPEndpoint.

(* ===================================================================== *)
(** ** devgraph_model ([model_resource.go]) *)
(* ===================================================================== *)

Module Model.
Section WithPlatform.
Context `{Platform}.

Record ResourceModel := mkModel {
  ID : tfString;
  Name : tfString;
  Description : tfString;
  ProviderID : tfString;
  Default : tfBool
}.

Record ModelCreate := mkCreate {
  c_Name : string;
  c_ProviderID : UUID;
  c_Default : Opt bool;
  c_Description : OptNil string
}.

(** The fields of [v1.ModelUpdate] the resource assigns. *)
Record ModelUpdate := mkUpdate {
  u_Description : OptNil string;
  u_ProviderID : OptNil UUID;
  u_Default : OptNil bool
}.

Record ModelResponse := mkResponse {
  r_ID : UUID;
  r_Name : string;
  r_Description : OptNil string;
  r_ProviderID : UUID;
  r_Default : Opt bool
}.

Inductive CreateModelRes :=
| Create_ModelResponse (r : ModelResponse)
| Create_Other (goType : string).

Inductive GetModelRes :=
| Get_NotFound
| Get_ModelResponse (r : ModelResponse)
| Get_Other (goType : string).

Inductive UpdateModelRes :=
| Update_ModelResponse (r : ModelResponse)
| Update_Other (goType : string).

Inductive Call :=
| CallCreateModel (req : ModelCreate)
| CallGetModel (ModelName : string)
| CallUpdateModel (req : ModelUpdate) (ModelName : string)
| CallDeleteModel (ModelName : string).

Record Client := mkClient {
  CreateModel : ModelCreate → GoResult CreateModelRes;
  GetModel : string → GoResult GetModelRes;
  UpdateModel : ModelUpdate → string → GoResult UpdateModelRes;
  DeleteModel : string → GoResult unit
}.

Definition M := Op ResourceModel Call.

(** The assignments Create, Read and Update all make from the response. *)
Definition mergeResponse (m : ResourceModel) (result : ModelResponse)
  : ResourceModel :=
  {| ID := TfValue (uuid_String (r_ID result));
     Name := TfValue (r_Name result);
     Description :=
       if on_Set (r_Description result)
       then TfValue (on_Value (r_Description result))
       else Description m;
     ProviderID := TfValue (uuid_String (r_ProviderID result));
     Default :=
       if opt_Set (r_Default result)
       then TfValue (opt_Value (r_Default result))
       else Default m |}.

Definition Create (client : Client) (plan : ResourceModel) : M unit :=
  returnIfError ;;;
  providerID <- parseUUID "Invalid Provider ID" "" (ValueOf (ProviderID plan)) ;;
  let createReq :=
    {| c_Name := ValueOf (Name plan);
       c_ProviderID := providerID;
       c_Default := NewOpt (ValueOf (Default plan));
       c_Description :=
         if negb (IsNull (Description plan))
         then NewOptNil (ValueOf (Description plan)) else zero |} in
  resultInterface <- remote (CallCreateModel createReq) (CreateModel client createReq) ;;
  match resultInterface with
  | Err e => fail "Error creating model" ("Could not create model: " ++ e)
  | Ok (Create_Other _) => fail "Unexpected response type" "Expected ModelResponse"
  | Ok (Create_ModelResponse result) => StateSet (mergeResponse plan result)
  end.

Definition Read (client : Client) (state : ResourceModel) : M unit :=
  returnIfError ;;;
  let modelName := ValueOf (Name state) in
  resultInterface <- remote (CallGetModel modelName) (GetModel client modelName) ;;
  match resultInterface with
  | Err e =>
    fail "Error reading model" ("Could not read model " ++ modelName ++ ": " ++ e)
  | Ok Get_NotFound => RemoveResource ;;; halt
  | Ok (Get_Other goType) =>
    fail "Unexpected response type" ("Expected *v1.ModelResponse, got: " ++ goType)
  | Ok (Get_ModelResponse result) => StateSet (mergeResponse state result)
  end.

(** The update request: only the fields that have changed.  The name is
    not among them. *)
Definition updateReqOf (plan state : ResourceModel) : M ModelUpdate :=
  let description :=
    if negb (Equal (Description plan) (Description state)) then
      if IsNull (Description plan) then NewOptNil ""
      else NewOptNil (ValueOf (Description plan))
    else zero in
  providerID <-
    (if negb (Equal (ProviderID plan) (ProviderID state)) then
       providerID <- parseUUID "Invalid Provider ID" "" (ValueOf (ProviderID plan)) ;;
       op_ret (NewOptNil providerID)
     else op_ret zero) ;;
  let default :=
    if negb (Equal (Default plan) (Default state))
    then NewOptNil (ValueOf (Default plan)) else zero in
  op_ret {| u_Description := description;
            u_ProviderID := providerID;
            u_Default := default |}.

Definition Update (client : Client) (plan state : ResourceModel) : M unit :=
  returnIfError ;;;
  returnIfError ;;;
  updateReq <- updateReqOf plan state ;;
  let modelName := ValueOf (Name state) in
  resultInterface <-
    remote (CallUpdateModel updateReq modelName)
           (UpdateModel client updateReq modelName) ;;
  match resultInterface with
  | Err e => fail "Error updating model" ("Could not update model: " ++ e)
  | Ok (Update_Other _) => fail "Unexpected response type" "Expected ModelResponse"
  | Ok (Update_ModelResponse result) => StateSet (mergeResponse plan result)
  end.

Definition Delete (client : Client) (state : ResourceModel) : M unit :=
  returnIfError ;;;
  let modelName := ValueOf (Name state) in
  res <- remote (CallDeleteModel modelName) (DeleteModel client modelName) ;;
  match res with
  | Err e => fail "Error deleting model" ("Could not delete model: " ++ e)
  | Ok _ => op_ret tt
  end.

(** [resource.ImportStatePassthroughID(ctx, path.Root("name"), req, resp)]:
    models are imported by name, not by identifier. *)
Definition ImportState (req_ID : string) : M unit :=
  StateSet (mkModel TfNull (TfValue req_ID) TfNull TfNull TfNull).

End WithPlatform.
End Model.

(* ===================================================================== *)
(** ** devgraph_discovery_provider ([discovery_provider_resource.go]) *)
(* ===================================================================== *)

Module DiscoveryProvider.
Section WithPlatform.
Context `{Platform}.

Record ResourceModel := mkModel {
  ID : tfString;
  Name : tfString;
  ProviderType : tfString;
  Enabled : tfBool;
  Interval : tfInt64;
  Config : tfString
}.

(** [Config] maps each key to the raw JSON text of its value.  [Interval]
    is a Go [int]; with 64-bit [int] the conversions [int(...)] and
    [int64(...)] between it and the model's [Int64] are the identity. *)
Record ConfiguredProviderCreate := mkCreate {
  c_Name : string;
  c_ProviderType : string;
  c_Config : gmap string string;
  c_Enabled : Opt bool;
  c_Interval : Opt Z
}.

Record ConfiguredProviderUpdate := mkUpdate {
  u_Name : OptNil string;
  u_Enabled : OptNil bool;
  u_Interval : OptNil Z;
  u_Config : OptNil (gmap string string)
}.

Record ConfiguredProviderResponse := mkResponse {
  r_ID : UUID;
  r_Name : string;
  r_ProviderType : string;
  r_Enabled : bool;
  r_Interval : Z
}.

Inductive CreateConfiguredProviderRes :=
| Create_ConfiguredProviderResponse (r : ConfiguredProviderResponse)
| Create_NotFound
| Create_Other (goType : string).

Inductive GetConfiguredProviderRes :=
| Get_ConfiguredProviderResponse (r : ConfiguredProviderResponse)
| Get_NotFound
| Get_Other (goType : string).

Inductive UpdateConfiguredProviderRes :=
| Update_ConfiguredProviderResponse (r : ConfiguredProviderResponse)
| Update_Other (goType : string).

Inductive Call :=
| CallCreateConfiguredProvider (req : ConfiguredProviderCreate)
| CallGetConfiguredProvider (ProviderID : UUID)
| CallUpdateConfiguredProvider (req : ConfiguredProviderUpdate) (ProviderID : UUID)
| CallDeleteConfiguredProvider (ProviderID : UUID).

Record Client := mkClient {
  CreateConfiguredProvider :
    ConfiguredProviderCreate → GoResult CreateConfiguredProviderRes;
  GetConfiguredProvider : UUID → GoResult GetConfiguredProviderRes;
  UpdateConfiguredProvider :
    ConfiguredProviderUpdate → UUID → GoResult UpdateConfiguredProviderRes;
  DeleteConfiguredProvider : UUID → GoResult unit
}.

Definition M := Op ResourceModel Call.

(** [json.Unmarshal(configJSON, &validateMap)] with its error branch. *)
Definition validateConfig (config : string) : M (list (string * JsonAny)) :=
  match json_Unmarshal_map config with
  | Ok validateMap => op_ret validateMap
  | Err e =>
    fail "Invalid Config JSON" ("Could not parse config as JSON: " ++ e)
  end.

(** [for key, value := range validateMap { json.Marshal(value) ... }],
    visiting the members in the order of the list. *)
Fixpoint encodeConfig (validateMap : list (string * JsonAny))
  (configMap : gmap string string) : M (gmap string string) :=
  match validateMap with
  | [] => op_ret configMap
  | (key, value) :: rest =>
    match json_Marshal value with
    | Ok valueJSON => encodeConfig rest (<[key := valueJSON]> configMap)
    | Err e =>
      fail "Error encoding config value"
           ("Could not encode value for key " ++ key ++ ": " ++ e)
    end
  end.

(** The five assignments Create and Update make; [Config] is kept. *)
Definition mergeWithID (plan : ResourceModel) (result : ConfiguredProviderResponse)
  : ResourceModel :=
  {| ID := TfValue (uuid_String (r_ID result));
     Name := TfValue (r_Name result);
     ProviderType := TfValue (r_ProviderType result);
     Enabled := TfValue (r_Enabled result);
     Interval := TfValue (r_Interval result);
     Config := Config plan |}.

(** The four assignments Read makes; [ID] and [Config] are kept. *)
Definition mergeRead (state : ResourceModel) (result : ConfiguredProviderResponse)
  : ResourceModel :=
  {| ID := ID state;
     Name := TfValue (r_Name result);
     ProviderType := TfValue (r_ProviderType result);
     Enabled := TfValue (r_Enabled result);
     Interval := TfValue (r_Interval result);
     Config := Config state |}.

Definition Create (client : Client) (plan : ResourceModel) : M unit :=
  returnIfError ;;;
  validateMap <- validateConfig (ValueOf (Config plan)) ;;
  configMap <- encodeConfig validateMap ∅ ;;
  let createReq :=
    {| c_Name := ValueOf (Name plan);
       c_ProviderType := ValueOf (ProviderType plan);
       c_Config := configMap;
       c_Enabled :=
         if negb (IsNull (Enabled plan)) then NewOpt (ValueOf (Enabled plan))
         else zero;
       c_Interval :=
         if negb (IsNull (Interval plan)) then NewOpt (ValueOf (Interval plan))
         else zero |} in
  res <-
    remote (CallCreateConfiguredProvider createReq)
           (CreateConfiguredProvider client createReq) ;;
  match res with
  | Err e =>
    fail "Error creating discovery provider"
         ("Could not create discovery provider: " ++ e)
  | Ok (Create_ConfiguredProviderResponse result) =>
    StateSet (mergeWithID plan result)
  | Ok Create_NotFound =>
    fail "Provider type not found"
         ("The provider type '" ++ ValueOf (ProviderType plan)
            ++ "' was not found. Check that it's a valid provider type (github, gitlab, argo, vercel, docker, file, fossa).")
  | Ok (Create_Other goType) =>
    fail "Unexpected response type"
         ("Expected *v1.ConfiguredProviderResponse, got: " ++ goType)
  end.

Definition Read (client : Client) (state : ResourceModel) : M unit :=
  returnIfError ;;;
  providerID <-
    parseUUID "Invalid provider ID" "Could not parse provider ID as UUID: "
              (ValueOf (ID state)) ;;
  res <-
    remote (CallGetConfiguredProvider providerID)
           (GetConfiguredProvider client providerID) ;;
  match res with
  | Err e =>
    fail "Error reading discovery provider"
         ("Could not read discovery provider: " ++ e)
  | Ok (Get_ConfiguredProviderResponse result) =>
    StateSet (mergeRead state result)
  | Ok Get_NotFound => RemoveResource ;;; halt
  | Ok (Get_Other goType) =>
    fail "Unexpected response type"
         ("Expected *v1.ConfiguredProviderResponse, got: " ++ goType)
  end.

(** The update request: only the fields that have changed. *)
Definition updateReqOf (plan state : ResourceModel) : M ConfiguredProviderUpdate :=
  let name :=
    if negb (Equal (Name plan) (Name state))
    then NewOptNil (ValueOf (Name plan)) else zero in
  let enabled :=
    if negb (Equal (Enabled plan) (Enabled state))
    then NewOptNil (ValueOf (Enabled plan)) else zero in
  let interval :=
    if negb (Equal (Interval plan) (Interval state))
    then NewOptNil (ValueOf (Interval plan)) else zero in
  config <-
    (if negb (Equal (Config plan) (Config state)) then
       validateMap <- validateConfig (ValueOf (Config plan)) ;;
       configMap <- encodeConfig validateMap ∅ ;;
       op_ret (NewOptNil configMap)
     else op_ret zero) ;;
  op_ret {| u_Name := name;
            u_Enabled := enabled;
            u_Interval := interval;
            u_Config := config |}.

Definition Update (client : Client) (plan state : ResourceModel) : M unit :=
  returnIfError ;;;
  returnIfError ;;;
  providerID <-
    parseUUID "Invalid provider ID" "Could not parse provider ID as UUID: "
              (ValueOf (ID state)) ;;
  updateReq <- updateReqOf plan state ;;
  res <-
    remote (CallUpdateConfiguredProvider updateReq providerID)
           (UpdateConfiguredProvider client updateReq providerID) ;;
  match res with
  | Err e =>
    fail "Error updating discovery provider"
         ("Could not update discovery provider: " ++ e)
  | Ok (Update_Other goType) =>
    fail "Unexpected response type"
         ("Expected *v1.ConfiguredProviderResponse, got: " ++ goType)
  | Ok (Update_ConfiguredProviderResponse result) =>
    StateSet (mergeWithID plan result)
  end.

Definition Delete (client : Client) (state : ResourceModel) : M unit :=
  returnIfError ;;;
  providerID <-
    parseUUID "Invalid provider ID" "Could not parse provider ID as UUID: "
              (ValueOf (ID state)) ;;
  res <- remote (CallDeleteConfiguredProvider providerID)
                (DeleteConfiguredProvider client providerID) ;;
  match res with
  | Err e =>
    fail "Error deleting discovery provider"
         ("Could not delete discovery provider: " ++ e)
  | Ok _ => op_ret tt
  end.

(** [resource.ImportStatePassthroughID(ctx, path.Root("id"), req, resp)] *)
Definition ImportState (req_ID : string) : M unit :=
  StateSet (mkModel (TfValue req_ID) TfNull TfNull TfNull TfNull TfNull).

End WithPlatform.
End DiscoveryProvider.

(* ===================================================================== *)
(** ** devgraph_environment *)
(* ===================================================================== *)

Module Environment.
Section WithPlatform.
Context `{Platform}.

Record ResourceModel := mkModel {
  ID : tfString;
  Name : tfString;
  Slug : tfString;
  ClerkOrganizationID : tfString;
  CustomerID : tfString;
  SubscriptionID : tfString;
  InvitedUsers : tfList;
  StripeSubscriptionID : tfString;
  InstanceURL : tfString
}.

Record EnvironmentCreate := mkCreate {
  c_Name : string;
  c_StripeSubscriptionID : string;
  c_InstanceURL : string;
  c_InvitedUsers : list string
}.

Record EnvironmentResponse := mkResponse {
  r_ID : UUID;
  r_Name : string;
  r_Slug : string;
  r_ClerkOrganizationID : string;
  r_CustomerID : string;
  r_SubscriptionID : UUID
}.

Inductive CreateEnvironmentRes :=
| Create_EnvironmentResponse (r : EnvironmentResponse)
| Create_Other (goType : string).

Inductive GetEnvironmentsRes :=
| Get_OKApplicationJSON (environments : list EnvironmentResponse)
| Get_Other (goType : string).

Inductive Call :=
| CallCreateEnvironment (req : EnvironmentCreate)
| CallGetEnvironments.

Record Client := mkClient {
  CreateEnvironment : EnvironmentCreate → GoResult CreateEnvironmentRes;
  GetEnvironments : GoResult GetEnvironmentsRes
}.

Definition M := Op ResourceModel Call.

(** Create: the identifier and the five computed attributes. *)
Definition mergeCreate (plan : ResourceModel) (result : EnvironmentResponse)
  : ResourceModel :=
  {| ID := TfValue (uuid_String (r_ID result));
     Name := TfValue (r_Name result);
     Slug := TfValue (r_Slug result);
     ClerkOrganizationID := TfValue (r_ClerkOrganizationID result);
     CustomerID := TfValue (r_CustomerID result);
     SubscriptionID := TfValue (uuid_String (r_SubscriptionID result));
     InvitedUsers := InvitedUsers plan;
     StripeSubscriptionID := StripeSubscriptionID plan;
     InstanceURL := InstanceURL plan |}.

(** The body of the [if] inside Read's loop. *)
Definition assignRead (state : ResourceModel) (env : EnvironmentResponse)
  : ResourceModel :=
  {| ID := ID state;
     Name := TfValue (r_Name env);
     Slug := TfValue (r_Slug env);
     ClerkOrganizationID := TfValue (r_ClerkOrganizationID env);
     CustomerID := TfValue (r_CustomerID env);
     SubscriptionID := TfValue (uuid_String (r_SubscriptionID env));
     InvitedUsers := InvitedUsers state;
     StripeSubscriptionID := StripeSubscriptionID state;
     InstanceURL := InstanceURL state |}.

(** [for _, env := range environments { if env.ID.String() ==
    state.ID.ValueString() { ...; found = true; break } }]: the state after
    the loop and the [found] flag. *)
Fixpoint scanEnvironments (environments : list EnvironmentResponse)
  (state : ResourceModel) : ResourceModel * bool :=
  match environments with
  | [] => (state, false)
  | env :: rest =>
    if String.eqb (uuid_String (r_ID env)) (ValueOf (ID state))
    then (assignRead state env, true)
    else scanEnvironments rest state
  end.

Definition Create (client : Client) (plan : ResourceModel) : M unit :=
  returnIfError ;;;
  invitedUsers <-
    (if negb (IsNull (InvitedUsers plan)) then elementsAs_list (InvitedUsers plan)
     else op_ret []) ;;
  let createReq :=
    {| c_Name := ValueOf (Name plan);
       c_StripeSubscriptionID := ValueOf (StripeSubscriptionID plan);
       c_InstanceURL := ValueOf (InstanceURL plan);
       c_InvitedUsers := invitedUsers |} in
  res <- remote (CallCreateEnvironment createReq) (CreateEnvironment client createReq) ;;
  match res with
  | Err e => fail "Error creating environment" ("Could not create environment: " ++ e)
  | Ok (Create_Other goType) =>
    fail "Unexpected response type"
         ("Expected *v1.EnvironmentResponse, got: " ++ goType)
  | Ok (Create_EnvironmentResponse result) => StateSet (mergeCreate plan result)
  end.

Definition Read (client : Client) (state : ResourceModel) : M unit :=
  returnIfError ;;;
  res <- remote CallGetEnvironments (GetEnvironments client) ;;
  match res with
  | Err e => fail "Error reading environments" ("Could not read environments: " ++ e)
  | Ok (Get_Other goType) =>
    fail "Unexpected response type"
         ("Expected *v1.GetEnvironmentsOKApplicationJSON, got: " ++ goType)
  | Ok (Get_OKApplicationJSON environments) =>
    let '(state', found) := scanEnvironments environments state in
    if negb found then RemoveResource ;;; halt
    else StateSet state'
  end.

(** No update endpoint: the method only reports an error. *)
Definition Update (client : Client) (plan state : ResourceModel) : M unit :=
  AddError "Update not supported"
           "Environments cannot be updated after creation. Please destroy and recreate the resource.".

(** No delete endpoint: the method only reports an error. *)
Definition Delete (client : Client) (state : ResourceModel) : M unit :=
  AddError "Delete not supported"
           "Environments cannot be deleted through the API. Please manage environment deletion through the Devgraph console.".

(** [resource.ImportStatePassthroughID(ctx, path.Root("id"), req, resp)] *)
Definition ImportState (req_ID : string) : M unit :=
  StateSet (mkModel (TfValue req_ID) TfNull TfNull TfNull TfNull TfNull TfNull
                    TfNull TfNull).

End WithPlatform.
End Environment.

(* ===================================================================== *)
(** ** devgraph_chat_suggestion *)
(* ===================================================================== *)

Module ChatSuggestion.
Section WithPlatform.
Context `{Platform}.

Record ResourceModel := mkModel {
  ID : tfString;
  Title : tfString;
  Label : tfString;
  Action : tfString;
  Active : tfBool
}.

Record ChatSuggestionCreate := mkCreate {
  c_Title : string;
  c_Label : string;
  c_Action : string;
  c_Active : Opt bool
}.

Record ChatSuggestionResponse := mkResponse {
  r_ID : UUID;
  r_Title : string;
  r_Label : string;
  r_Action : string;
  r_Active : Opt bool
}.

Inductive CreateChatSuggestionRes :=
| Create_ChatSuggestionResponse (r : ChatSuggestionResponse)
| Create_Other (goType : string).

Inductive ListChatSuggestionsRes :=
| List_OKApplicationJSON (suggestions : list ChatSuggestionResponse)
| List_Other (goType : string).

Inductive Call :=
| CallCreateChatSuggestion (req : ChatSuggestionCreate)
| CallListChatSuggestions
| CallDeleteChatSuggestion (SuggestionID : UUID).

Record Client := mkClient {
  CreateChatSuggestion : ChatSuggestionCreate → GoResult CreateChatSuggestionRes;
  ListChatSuggestions : GoResult ListChatSuggestionsRes;
  DeleteChatSuggestion : UUID → GoResult unit
}.

Definition M := Op ResourceModel Call.

Definition mergeCreate (plan : ResourceModel) (result : ChatSuggestionResponse)
  : ResourceModel :=
  {| ID := TfValue (uuid_String (r_ID result));
     Title := TfValue (r_Title result);
     Label := TfValue (r_Label result);
     Action := TfValue (r_Action result);
     Active := if opt_Set (r_Active result)
               then TfValue (opt_Value (r_Active result))
               else Active plan |}.

(** The body of the [if] inside Read's loop. *)
Definition assignRead (state : ResourceModel) (suggestion : ChatSuggestionResponse)
  : ResourceModel :=
  {| ID := ID state;
     Title := TfValue (r_Title suggestion);
     Label := TfValue (r_Label suggestion);
     Action := TfValue (r_Action suggestion);
     Active := if opt_Set (r_Active suggestion)
               then TfValue (opt_Value (r_Active suggestion))
               else Active state |}.

(** [for _, suggestion := range suggestions { if suggestion.ID ==
    suggestionID { ...; found = true; break } }] *)
Fixpoint scanSuggestions (suggestions : list ChatSuggestionResponse)
  (suggestionID : UUID) (state : ResourceModel) : ResourceModel * bool :=
  match suggestions with
  | [] => (state, false)
  | suggestion :: rest =>
    if bool_decide (r_ID suggestion = suggestionID)
    then (assignRead state suggestion, true)
    else scanSuggestions rest suggestionID state
  end.

Definition Create (client : Client) (plan : ResourceModel) : M unit :=
  returnIfError ;;;
  let createReq :=
    {| c_Title := ValueOf (Title plan);
       c_Label := ValueOf (Label plan);
       c_Action := ValueOf (Action plan);
       c_Active :=
         if negb (IsNull (Active plan)) then NewOpt (ValueOf (Active plan))
         else zero |} in
  res <-
    remote (CallCreateChatSuggestion createReq)
           (CreateChatSuggestion client createReq) ;;
  match res with
  | Err e =>
    fail "Error creating chat suggestion" ("Could not create chat suggestion: " ++ e)
  | Ok (Create_Other goType) =>
    fail "Unexpected response type"
         ("Expected *v1.ChatSuggestionResponse, got: " ++ goType)
  | Ok (Create_ChatSuggestionResponse result) => StateSet (mergeCreate plan result)
  end.

Definition Read (client : Client) (state : ResourceModel) : M unit :=
  returnIfError ;;;
  suggestionID <-
    parseUUID "Invalid suggestion ID" "Could not parse suggestion ID as UUID: "
              (ValueOf (ID state)) ;;
  res <- remote CallListChatSuggestions (ListChatSuggestions client) ;;
  match res with
  | Err e =>
    fail "Error reading chat suggestions" ("Could not read chat suggestions: " ++ e)
  | Ok (List_Other goType) =>
    fail "Unexpected response type"
         ("Expected *v1.ListChatSuggestionsOKApplicationJSON, got: " ++ goType)
  | Ok (List_OKApplicationJSON suggestions) =>
    let '(state', found) := scanSuggestions suggestions suggestionID state in
    if negb found then RemoveResource ;;; halt
    else StateSet state'
  end.

(** No update endpoint: the method only reports an error. *)
Definition Update (client : Client) (plan state : ResourceModel) : M unit :=
  AddError "Update not supported"
           "Chat suggestions cannot be updated. Please destroy and recreate the resource to make changes.".

Definition Delete (client : Client) (state : ResourceModel) : M unit :=
  returnIfError ;;;
  suggestionID <-
    parseUUID "Invalid suggestion ID" "Could not parse suggestion ID as UUID: "
              (ValueOf (ID state)) ;;
  res <- remote (CallDeleteChatSuggestion suggestionID)
                (DeleteChatSuggestion client suggestionID) ;;
  match res with
  | Err e =>
    fail "Error deleting chat suggestion" ("Could not delete chat suggestion: " ++ e)
  | Ok _ => op_ret tt
  end.

(** [resource.ImportStatePassthroughID(ctx, path.Root("id"), req, resp)] *)
Definition ImportState (req_ID : string) : M unit :=
  StateSet (mkModel (TfValue req_ID) TfNull TfNull TfNull TfNull).

End WithPlatform.
End ChatSuggestion.

(* ===================================================================== *)
(** ** Schema declarations *)
(* ===================================================================== *)

Module Schema.

Inductive AttributeType :=
| StringAttribute
| BoolAttribute
| Int64Attribute
| ListAttribute
| MapAttribute.

Inductive PlanModifier := UseStateForUnknown | RequiresReplace.

#[global] Instance PlanModifier_eq_dec : EqDecision PlanModifier.
Proof. solve_decision. Defined.

Inductive Validator := OneOf (values : list string).

Inductive DefaultValue :=
| StaticBool (b : bool)
| StaticInt64 (z : Z)
| StaticEmptyList
| StaticEmptyMap.

(** One entry of [schema.Schema.Attributes], descriptions left out. *)
Record Attribute := mkAttribute {
  a_Type : AttributeType;
  a_Required : bool;
  a_Optional : bool;
  a_Computed : bool;
  a_Sensitive : bool;
  a_PlanModifiers : list PlanModifier;
  a_Validators : list Validator;
  a_Default : option DefaultValue
}.

Definition required (ty : AttributeType) : Attribute :=
  mkAttribute ty true false false false [] [] None.
Definition optional (ty : AttributeType) : Attribute :=
  mkAttribute ty false true false false [] [] None.
Definition computed (ty : AttributeType) : Attribute :=
  mkAttribute ty false false true false [] [] None.
Definition optionalComputed (ty : AttributeType) (d : DefaultValue) : Attribute :=
  mkAttribute ty false true true false [] [] (Some d).
Definition sensitive (a : Attribute) : Attribute :=
  mkAttribute (a_Type a) (a_Required a) (a_Optional a) (a_Computed a) true
              (a_PlanModifiers a) (a_Validators a) (a_Default a).
Definition withPlanModifiers (a : Attribute) (ms : list PlanModifier) : Attribute :=
  mkAttribute (a_Type a) (a_Required a) (a_Optional a) (a_Computed a)
              (a_Sensitive a) ms (a_Validators a) (a_Default a).
Definition withValidators (a : Attribute) (vs : list Validator) : Attribute :=
  mkAttribute (a_Type a) (a_Required a) (a_Optional a) (a_Computed a)
              (a_Sensitive a) (a_PlanModifiers a) vs (a_Default a).

(** [ModelProviderResource.Schema] *)
Definition ModelProvider : gmap string Attribute :=
  list_to_map [
    ("id", withPlanModifiers (computed StringAttribute) [UseStateForUnknown]);
    ("type", withValidators (required StringAttribute)
                            [OneOf ["openai"; "anthropic"; "xai"]]);
    ("name", required StringAttribute);
    ("api_key", sensitive (required StringAttribute));
    ("default", optionalComputed BoolAttribute (StaticBool false))
  ].

(** [OAuthServiceResource.Schema] *)
Definition OAuthService : gmap string Attribute :=
  list_to_map [
    ("id", withPlanModifiers (computed StringAttribute) [UseStateForUnknown]);
    ("name", withPlanModifiers (required StringAttribute) [RequiresReplace]);
    ("display_name", required StringAttribute);
    ("description", optional StringAttribute);
    ("client_id", required StringAttribute);
    ("client_secret", sensitive (required StringAttribute));
    ("authorization_url", required StringAttribute);
    ("token_url", required StringAttribute);
    ("userinfo_url", optional StringAttribute);
    ("default_scopes", optionalComputed ListAttribute StaticEmptyList);
    ("supported_grant_types", optionalComputed ListAttribute StaticEmptyList);
    ("is_active", optionalComputed BoolAttribute (StaticBool true));
    ("icon_url", optional StringAttribute);
    ("homepage_url", optional StringAttribute);
    ("created_at", withPlanModifiers (computed StringAttribute) [UseStateForUnknown]);
    ("updated_at", computed StringAttribute)
  ].

(** [DiscoveryProviderResource.Schema] *)
Definition DiscoveryProvider : gmap string Attribute :=
  list_to_map [
    ("id", withPlanModifiers (computed StringAttribute) [UseStateForUnknown]);
    ("name", required StringAttribute);
    ("provider_type", withPlanModifiers (required StringAttribute) [RequiresReplace]);
    ("enabled", optionalComputed BoolAttribute (StaticBool true));
    ("interval", optionalComputed Int64Attribute (StaticInt64 300));
    ("config", sensitive (required StringAttribute))
  ].

(** [ModelResource.Schema] *)
Definition Model : gmap string Attribute :=
  list_to_map [
    ("id", withPlanModifiers (computed StringAttribute) [UseStateForUnknown]);
    ("name", required StringAttribute);
    ("description", optional StringAttribute);
    ("provider_id", required StringAttribute);
    ("default", optionalComputed BoolAttribute (StaticBool false))
  ].

(** Whether the attribute [name] of a schema carries the modifier [m]. *)
Definition hasPlanModifier (s : gmap string Attribute) (name : string)
  (m : PlanModifier) : bool :=
  match s !! name with
  | Some a => bool_decide (m ∈ a_PlanModifiers a)
  | None => false
  end.

(** The framework's [RequiresReplace] modifier on an update: replacement
    is required when the planned value differs from the state value.
    Without the modifier a changed attribute goes to Update. *)
Definition forcesReplacement (s : gmap string Attribute) (name : string)
  (plan state : tfString) : bool :=
  hasPlanModifier s name RequiresReplace && negb (Equal plan state).

(** [MCPEndpointResource.Schema] *)
Definition MCPEndpoint : gmap string Attribute :=
  list_to_map [
    ("id", withPlanModifiers (computed StringAttribute) [UseStateForUnknown]);
    ("name", required StringAttribute);
    ("url", required StringAttribute);
    ("description", optional StringAttribute);
    ("headers", optionalComputed MapAttribute StaticEmptyMap);
    ("devgraph_auth", optionalComputed BoolAttribute (StaticBool false));
    ("supports_resources", optionalComputed BoolAttribute (StaticBool false));
    ("oauth_service_id", optional StringAttribute);
    ("immutable", optionalComputed BoolAttribute (StaticBool false));
    ("active", optionalComputed BoolAttribute (StaticBool true));
    ("allowed_tools", optional ListAttribute);
    ("denied_tools", optional ListAttribute)
  ].

(** [EnvironmentResource.Schema] *)
Definition Environment : gmap string Attribute :=
  list_to_map [
    ("id", withPlanModifiers (computed StringAttribute) [UseStateForUnknown]);
    ("name", required StringAttribute);
    ("slug", computed StringAttribute);
    ("clerk_organization_id", computed StringAttribute);
    ("customer_id", computed StringAttribute);
    ("subscription_id", computed StringAttribute);
    ("invited_users", optionalComputed ListAttribute StaticEmptyList);
    ("stripe_subscription_id", required StringAttribute);
    ("instance_url", required StringAttribute)
  ].

(** [ChatSuggestionResource.Schema] *)
Definition ChatSuggestion : gmap string Attribute :=
  list_to_map [
    ("id", withPlanModifiers (computed StringAttribute) [UseStateForUnknown]);
    ("title", required StringAttribute);
    ("label", required StringAttribute);
    ("action", required StringAttribute);
    ("active", optionalComputed BoolAttribute (StaticBool true))
  ].

(** [DevgraphProvider.Schema] *)
Definition Provider : gmap string Attribute :=
  list_to_map [
    ("host", optional StringAttribute);
    ("access_token", sensitive (optional StringAttribute));
    ("environment", optional StringAttribute)
  ].

(** The [tfsdk] tags of the model structs, in declaration order, with the
    type of each field. *)
Definition ModelProviderResourceModel : list (string * AttributeType) :=
  [("id", StringAttribute); ("type", StringAttribute); ("name", StringAttribute);
   ("api_key", StringAttribute); ("default", BoolAttribute)].

Definition OAuthServiceResourceModel : list (string * AttributeType) :=
  [("id", StringAttribute); ("name", StringAttribute);
   ("display_name", StringAttribute); ("description", StringAttribute);
   ("client_id", StringAttribute); ("client_secret", StringAttribute);
   ("authorization_url", StringAttribute); ("token_url", StringAttribute);
   ("userinfo_url", StringAttribute); ("default_scopes", ListAttribute);
   ("supported_grant_types", ListAttribute); ("is_active", BoolAttribute);
   ("icon_url", StringAttribute); ("homepage_url", StringAttribute);
   ("created_at", StringAttribute); ("updated_at", StringAttribute)].

Definition MCPEndpointResourceModel : list (string * AttributeType) :=
  [("id", StringAttribute); ("name", StringAttribute); ("url", StringAttribute);
   ("description", StringAttribute); ("headers", MapAttribute);
   ("devgraph_auth", BoolAttribute); ("supports_resources", BoolAttribute);
   ("oauth_service_id", StringAttribute); ("immutable", BoolAttribute);
   ("active", BoolAttribute); ("allowed_tools", ListAttribute);
   ("denied_tools", ListAttribute)].

Definition ModelResourceModel : list (string * AttributeType) :=
  [("id", StringAttribute); ("name", StringAttribute);
   ("description", StringAttribute); ("provider_id", StringAttribute);
   ("default", BoolAttribute)].

Definition DiscoveryProviderResourceModel : list (string * AttributeType) :=
  [("id", StringAttribute); ("name", StringAttribute);
   ("provider_type", StringAttribute); ("enabled", BoolAttribute);
   ("interval", Int64Attribute); ("config", StringAttribute)].

Definition EnvironmentResourceModel : list (string * AttributeType) :=
  [("id", StringAttribute); ("name", StringAttribute); ("slug", StringAttribute);
   ("clerk_organization_id", StringAttribute); ("customer_id", StringAttribute);
   ("subscription_id", StringAttribute); ("invited_users", ListAttribute);
   ("stripe_subscription_id", StringAttribute); ("instance_url", StringAttribute)].

Definition ChatSuggestionResourceModel : list (string * AttributeType) :=
  [("id", StringAttribute); ("title", StringAttribute); ("label", StringAttribute);
   ("action", StringAttribute); ("active", BoolAttribute)].

Definition DevgraphProviderModel : list (string * AttributeType) :=
  [("host", StringAttribute); ("access_token", StringAttribute);
   ("environment", StringAttribute)].

(** Every schema with the model struct decoded from it. *)
Definition declarations
  : list (gmap string Attribute * list (string * AttributeType)) :=
  [(ModelProvider, ModelProviderResourceModel);
   (OAuthService, OAuthServiceResourceModel);
   (MCPEndpoint, MCPEndpointResourceModel);
   (Model, ModelResourceModel);
   (DiscoveryProvider, DiscoveryProviderResourceModel);
   (Environment, EnvironmentResourceModel);
   (ChatSuggestion, ChatSuggestionResourceModel);
   (Provider, DevgraphProviderModel)].

End Schema.

(* ===================================================================== *)
(** ** The provider ([provider.go]) *)
(* ===================================================================== *)

Module Provider.

Record DevgraphProviderModel := mkConfig {
  Host : tfString;
  AccessToken : tfString;
  Environment : tfString
}.

(** [oauth2.Token] *)
Record Token := mkToken { AccessToken_ : string; TokenType : string }.

Record devgraphSecuritySource := mkSecuritySource { token : string }.

(** The transport of the HTTP client handed to the API client: the one
    [oauthConfig.Client(ctx, token)] installs, or an [environmentTransport]
    around another transport. *)
Inductive Transport :=
| OAuth2Transport (token : Token)
| environmentTransport (base : Transport) (environment : string).

(** What [ProviderData], [ResourceData] and [DataSourceData] (of type
    [any]) can hold. *)
Inductive Any (Cl : Type) :=
| AnyNil
| AnyClient (client : Cl)
| AnyOther (goType : string).
Arguments AnyNil {Cl}.
Arguments AnyClient {Cl} client.
Arguments AnyOther {Cl} goType.

(** A diagnostic together with the attribute path it is attached to, if
    any ([AddAttributeError(path.Root(p), ...)] against [AddError]). *)
Record PathDiagnostic := mkPathDiag {
  pd_Path : option string;
  pd_Diagnostic : Diagnostic
}.

#[global] Instance PathDiagnostic_eq_dec : EqDecision PathDiagnostic.
Proof. solve_decision. Defined.

Definition Append (ds : list PathDiagnostic) (d : PathDiagnostic)
  : list PathDiagnostic :=
  if bool_decide (d ∈ ds) then ds else (ds ++ [d])%list.

Definition HasError (ds : list PathDiagnostic) : bool :=
  existsb (λ d, bool_decide (diag_Severity (pd_Diagnostic d) = SeverityError)) ds.

Record ConfigureResponse (Cl : Type) := mkConfigureResponse {
  cr_Diagnostics : list PathDiagnostic;
  DataSourceData : Any Cl;
  ResourceData : Any Cl
}.
Arguments mkConfigureResponse {Cl}.
Arguments cr_Diagnostics {Cl}.
Arguments DataSourceData {Cl}.
Arguments ResourceData {Cl}.

Definition newline : string := String "010"%char EmptyString.

Definition MissingHost : PathDiagnostic :=
  mkPathDiag (Some "host")
    (ErrorDiagnostic "Missing Devgraph API Host"
       ("The provider cannot create the Devgraph API client as there is a missing or empty value for the host. "
          ++ "Set the host value in the configuration or use the DEVGRAPH_HOST environment variable. ")).

Definition MissingAccessToken : PathDiagnostic :=
  mkPathDiag (Some "access_token")
    (ErrorDiagnostic "Missing Devgraph Access Token"
       ("The provider cannot create the Devgraph API client as there is a missing or empty value for the access token. "
          ++ "Set the access_token value in the configuration or use the DEVGRAPH_ACCESS_TOKEN environment variable. ")).

Definition ClientError (e : string) : PathDiagnostic :=
  mkPathDiag None
    (ErrorDiagnostic "Unable to Create Devgraph API Client"
       ("An unexpected error occurred when creating the Devgraph API client. "
          ++ "If the error is not clear, please contact the provider developers."
          ++ newline ++ newline ++ "Devgraph Client Error: " ++ e)).

Section WithEnvironment.
(** [*v1.Client], [os.Getenv] and
    [v1.NewClient(host, securitySource, v1.WithClient(httpClient))]. *)
Context {Cl : Type}.
Variable Getenv : string → string.
Variable NewClient : string → devgraphSecuritySource → Transport → GoResult Cl.

(** [x := os.Getenv(name); if !v.IsNull() { x = v.ValueString() }] *)
Definition setting (name : string) (v : tfString) : string :=
  if negb (IsNull v) then ValueOf v else Getenv name.

(** The transport of [httpClient] after the optional wrapping. *)
Definition clientTransport (accessToken environment : string) : Transport :=
  let transport := OAuth2Transport (mkToken accessToken "Bearer") in
  if negb (String.eqb environment "")
  then environmentTransport transport environment
  else transport.

Definition Configure (config : DevgraphProviderModel)
  (resp : ConfigureResponse Cl) : ConfigureResponse Cl :=
  if HasError (cr_Diagnostics resp) then resp
  else
    let host := setting "DEVGRAPH_HOST" (Host config) in
    let accessToken := setting "DEVGRAPH_ACCESS_TOKEN" (AccessToken config) in
    let environment := setting "DEVGRAPH_ENVIRONMENT" (Environment config) in
    let diags1 :=
      if String.eqb host "" then Append (cr_Diagnostics resp) MissingHost
      else cr_Diagnostics resp in
    let diags2 :=
      if String.eqb accessToken "" then Append diags1 MissingAccessToken
      else diags1 in
    if HasError diags2
    then mkConfigureResponse diags2 (DataSourceData resp) (ResourceData resp)
    else
      let securitySource := mkSecuritySource accessToken in
      match NewClient host securitySource
                      (clientTransport accessToken environment) with
      | Err e =>
        mkConfigureResponse (Append diags2 (ClientError e))
                            (DataSourceData resp) (ResourceData resp)
      | Ok client =>
        mkConfigureResponse diags2 (AnyClient client) (AnyClient client)
      end.

(** The [Configure] method every resource has: [r.client] and the
    diagnostics after the call. *)
Definition ResourceConfigure (ProviderData : Any Cl)
  (r_client : option Cl) (diags : list Diagnostic)
  : option Cl * list Diagnostic :=
  match ProviderData with
  | AnyNil => (r_client, diags)
  | AnyOther goType =>
    (r_client,
     diags_Append diags
       (ErrorDiagnostic "Unexpected Resource Configure Type"
          ("Expected *v1.Client, got: " ++ goType
             ++ ". Please report this issue to the provider developers.")))
  | AnyClient client => (Some client, diags)
  end.

End WithEnvironment.

(** [http.Request]: its header, a map from canonical keys to values, and
    everything else. *)
Record Request (Rest : Type) := mkRequest {
  Header : gmap string (list string);
  rest : Rest
}.
Arguments mkRequest {Rest}.
Arguments Header {Rest}.
Arguments rest {Rest}.

(** [h.Set(key, value)] for a key in canonical form. *)
Definition Header_Set (h : gmap string (list string)) (key value : string)
  : gmap string (list string) :=
  <[key := [value]]> h.

Section RoundTrip.
(** The rest of a request, [http.Response], and the round trip of the
    transport that [oauth2] provides. *)
Context {Rest Response : Type}.
Variable oauth2RoundTrip : Token → Request Rest → GoResult Response.

(** [environmentTransport.RoundTrip], down to the OAuth2 transport. *)
Fixpoint RoundTrip (t : Transport) (req : Request Rest) : GoResult Response :=
  match t with
  | OAuth2Transport token => oauth2RoundTrip token req
  | environmentTransport base environment =>
    let req :=
      if negb (String.eqb environment "")
      then mkRequest (Header_Set (Header req) "Devgraph-Environment" environment)
                     (rest req)
      else req in
    RoundTrip base req
  end.

End RoundTrip.

(** The resource constructors of [Resources], and [Metadata] of each. *)
Inductive Resource :=
| EnvironmentResource
| MCPEndpointResource
| ModelProviderResource
| ModelResource
| OAuthServiceResource
| DiscoveryProviderResource
| ChatSuggestionResource.

#[global] Instance Resource_eq_dec : EqDecision Resource.
Proof. solve_decision. Defined.

Definition Resources : list Resource :=
  [EnvironmentResource; MCPEndpointResource; ModelProviderResource;
   ModelResource; OAuthServiceResource; DiscoveryProviderResource;
   ChatSuggestionResource].

(** [resp.TypeName = req.ProviderTypeName + "_..."] *)
Definition Metadata (r : Resource) (ProviderTypeName : string) : string :=
  match r with
  | EnvironmentResource => ProviderTypeName ++ "_environment"
  | MCPEndpointResource => ProviderTypeName ++ "_mcp_endpoint"
  | ModelProviderResource => ProviderTypeName ++ "_model_provider"
  | ModelResource => ProviderTypeName ++ "_model"
  | OAuthServiceResource => ProviderTypeName ++ "_oauth_service"
  | DiscoveryProviderResource => ProviderTypeName ++ "_discovery_provider"
  | ChatSuggestionResource => ProviderTypeName ++ "_chat_suggestion"
  end.

(** [DevgraphProvider.Metadata]: the provider's type name. *)
Definition TypeName : string := "devgraph".

End Provider.

(* ===================================================================== *)
(** ** A small platform for running the operations on concrete inputs *)
(* ===================================================================== *)

(** The canonical text of a UUID: 36 characters, hyphens at positions 8,
    13, 18 and 23, lower-case hexadecimal digits elsewhere. *)
Fixpoint canonicalUUIDFrom (pos : nat) (s : string) : bool :=
  match s with
  | EmptyString => (pos =? 36)%nat
  | String c s' =>
    (if (pos =? 8)%nat || (pos =? 13)%nat || (pos =? 18)%nat || (pos =? 23)%nat
     then Ascii.eqb c "-"%char
     else Json.inRange "0"%char "9"%char c || Json.inRange "a"%char "f"%char c)
    && canonicalUUIDFrom (S pos) s'
  end.

(** The sample configuration of the specification's scenario. *)
Definition token_config : string :=
  "{" ++ dquote ++ "token" ++ dquote ++ ":" ++ dquote ++ "t" ++ dquote ++ "}".

(** An object whose one member is a number beyond the [float64] range. *)
Definition range_config : string :=
  "{" ++ dquote ++ "a" ++ dquote ++ ":1e999}".

(** An instance with canned answers.  A UUID is its canonical text, which
    is the only form [uuid_Parse] accepts here and the form
    [UUID.String()] prints; URLs and times are their own text; a decoded
    JSON value is its own JSON text, and the decoder knows the members of
    [token_config] and the number of [range_config] only. *)
Definition TestPlatform : Platform := {|
  UUID := string;
  uuid_Parse := λ s,
    if canonicalUUIDFrom 0 s then Ok s
    else if String.eqb s "" then Err "invalid UUID length: 0"
    else Err "invalid UUID format";
  uuid_String := λ u, u;
  uuid_Nil := "00000000-0000-0000-0000-000000000000";
  URL := string;
  url_Parse := λ s, Ok s;
  url_zero := "";
  Time := string;
  time_String := λ t, t;
  JsonAny := string;
  json_members := λ s,
    if String.eqb s token_config then [("token", dquote ++ "t" ++ dquote)] else [];
  json_Marshal := λ v, Ok v;
  json_error := λ s,
    if String.eqb s "{bad"
    then "invalid character 'b' looking for beginning of object key string"
    else "unexpected end of JSON input";
  json_decode_error := λ s,
    if String.eqb s range_config
    then Some "json: cannot unmarshal number 1e999 into Go value of type float64"
    else None;
  conversion_error_detail := "cannot convert the value"
|}.

(* ===================================================================== *)
(** ** Predicates used to state the properties *)
(* ===================================================================== *)

(** A computation that issues no call and leaves the state alone.  When
    it does not return early it leaves the whole world alone; when it
    does, the diagnostics hold an error. *)
Definition quiet {M C A} (m : Op M C A) : Prop :=
  ∀ w, match m w with
       | (Some _, w') => w' = w
       | (None, w') =>
         w_State w' = w_State w ∧ w_Calls w' = w_Calls w
         ∧ diags_HasError (w_Diagnostics w') = true
       end.

(** [wp m w Q]: the world in which [m], started in [w], stops satisfies
    [Q]. *)
Definition wp {M C A} (m : Op M C A) (w : World M C) (Q : World M C → Prop) : Prop :=
  Q (m w).2.

(** A world in which the resource has been dropped from the state, with
    no diagnostic. *)
Definition removed_silently {M C} (w : World M C) : Prop :=
  w_State w = None ∧ w_Diagnostics w = [].

(** How an optional-nilable request field goes on the wire: when
    [included], as a value [v] with [R v]; otherwise it is omitted. *)
Definition sent {B} (included : bool) (R : B → Prop) (o : OptNil B) : Prop :=
  if included then ∃ v, encode o = SentValue v ∧ R v
  else encode o = Omitted.

(** The diagnostics of the unsupported operations. *)
Definition EnvironmentUpdateError : Diagnostic :=
  ErrorDiagnostic "Update not supported"
    "Environments cannot be updated after creation. Please destroy and recreate the resource.".

Definition EnvironmentDeleteError : Diagnostic :=
  ErrorDiagnostic "Delete not supported"
    "Environments cannot be deleted through the API. Please manage environment deletion through the Devgraph console.".

Definition ChatSuggestionUpdateError : Diagnostic :=
  ErrorDiagnostic "Update not supported"
    "Chat suggestions cannot be updated. Please destroy and recreate the resource to make changes.".

(** The variant payload selected by the discriminator of a model-provider
    response, if the discriminator is one of the three declared tags. *)
Definition activeProvider `{Platform} (result : ModelProvider.ModelProviderResponse)
  : option ModelProvider.ProviderResponse :=
  match ModelProvider.r_Type result with
  | ModelProvider.OpenAIModelProviderResponseModelProviderResponse =>
    Some (ModelProvider.OpenAIModelProviderResponse result)
  | ModelProvider.AnthropicModelProviderResponseModelProviderResponse =>
    Some (ModelProvider.AnthropicModelProviderResponse result)
  | ModelProvider.XAIModelProviderResponseModelProviderResponse =>
    Some (ModelProvider.XAIModelProviderResponse result)
  | ModelProvider.OtherModelProviderResponseType _ => None
  end.

(** What an update request built from the plan alone carries: a field is
    sent exactly when the planned attribute is not null (for the list
    attributes of the OAuth service: neither null nor unknown), as a value
    and never as [null]. *)
Definition OAuthService_sends_plan `{Platform}
  (plan : OAuthService.ResourceModel) (req : OAuthService.OAuthServiceUpdate) : Prop :=
  let nonNull {A} (v : tfval A) := negb (IsNull v) in
  let known {A} (v : tfval A) := negb (IsNull v) && negb (IsUnknown v) in
  let text (v : tfString) := λ s, s = ValueOf v in
  let url (v : tfString) := λ u, url_Parse (ValueOf v) = Ok u in
  let strings (v : tfList) := λ xs, ElementsAs_list v = Some xs in
  sent (nonNull (OAuthService.DisplayName plan))
       (text (OAuthService.DisplayName plan)) (OAuthService.u_DisplayName req)
  ∧ sent (nonNull (OAuthService.ClientID plan))
         (text (OAuthService.ClientID plan)) (OAuthService.u_ClientID req)
  ∧ sent (nonNull (OAuthService.ClientSecret plan))
         (text (OAuthService.ClientSecret plan)) (OAuthService.u_ClientSecret req)
  ∧ sent (nonNull (OAuthService.AuthorizationURL plan))
         (url (OAuthService.AuthorizationURL plan)) (OAuthService.u_AuthorizationURL req)
  ∧ sent (nonNull (OAuthService.TokenURL plan))
         (url (OAuthService.TokenURL plan)) (OAuthService.u_TokenURL req)
  ∧ sent (nonNull (OAuthService.Description plan))
         (text (OAuthService.Description plan)) (OAuthService.u_Description req)
  ∧ sent (known (OAuthService.DefaultScopes plan))
         (strings (OAuthService.DefaultScopes plan)) (OAuthService.u_DefaultScopes req)
  ∧ sent (known (OAuthService.SupportedGrantTypes plan))
         (strings (OAuthService.SupportedGrantTypes plan))
         (OAuthService.u_SupportedGrantTypes req)
  ∧ sent (nonNull (OAuthService.UserinfoURL plan))
         (url (OAuthService.UserinfoURL plan)) (OAuthService.u_UserinfoURL req)
  ∧ sent (nonNull (OAuthService.IsActive plan))
         (λ b, b = ValueOf (OAuthService.IsActive plan)) (OAuthService.u_IsActive req)
  ∧ sent (nonNull (OAuthService.IconURL plan))
         (url (OAuthService.IconURL plan)) (OAuthService.u_IconURL req)
  ∧ sent (nonNull (OAuthService.HomepageURL plan))
         (url (OAuthService.HomepageURL plan)) (OAuthService.u_HomepageURL req).

Definition MCPEndpoint_sends_plan `{Platform}
  (plan : MCPEndpoint.ResourceModel) (req : MCPEndpoint.MCPEndpointUpdate) : Prop :=
  let nonNull {A} (v : tfval A) := negb (IsNull v) in
  let text (v : tfString) := λ s, s = ValueOf v in
  let flag (v : tfBool) := λ b, b = ValueOf v in
  let strings (v : tfList) := λ xs, ElementsAs_list v = Some xs in
  sent (nonNull (MCPEndpoint.Name plan))
       (text (MCPEndpoint.Name plan)) (MCPEndpoint.u_Name req)
  ∧ sent (nonNull (MCPEndpoint.URL_ plan))
         (text (MCPEndpoint.URL_ plan)) (MCPEndpoint.u_URL req)
  ∧ sent (nonNull (MCPEndpoint.Description plan))
         (text (MCPEndpoint.Description plan)) (MCPEndpoint.u_Description req)
  ∧ sent (nonNull (MCPEndpoint.Headers plan))
         (λ hs, ElementsAs_map (MCPEndpoint.Headers plan) = Some hs)
         (MCPEndpoint.u_Headers req)
  ∧ sent (nonNull (MCPEndpoint.DevgraphAuth plan))
         (flag (MCPEndpoint.DevgraphAuth plan)) (MCPEndpoint.u_DevgraphAuth req)
  ∧ sent (nonNull (MCPEndpoint.SupportsResources plan))
         (flag (MCPEndpoint.SupportsResources plan)) (MCPEndpoint.u_SupportsResources req)
  ∧ sent (nonNull (MCPEndpoint.Immutable plan))
         (flag (MCPEndpoint.Immutable plan)) (MCPEndpoint.u_Immutable req)
  ∧ sent (nonNull (MCPEndpoint.Active plan))
         (flag (MCPEndpoint.Active plan)) (MCPEndpoint.u_Active req)
  ∧ sent (nonNull (MCPEndpoint.OAuthServiceID plan))
         (λ u, uuid_Parse (ValueOf (MCPEndpoint.OAuthServiceID plan)) = Ok u)
         (MCPEndpoint.u_OAuthServiceID req)
  ∧ sent (nonNull (MCPEndpoint.AllowedTools plan))
         (strings (MCPEndpoint.AllowedTools plan)) (MCPEndpoint.u_AllowedTools req)
  ∧ sent (nonNull (MCPEndpoint.DeniedTools plan))
         (strings (MCPEndpoint.DeniedTools plan)) (MCPEndpoint.u_DeniedTools req).

(** What an update request built by comparing plan and state carries: a
    field is sent exactly when the planned attribute differs from the
    state's, as the planned value and never as [null]. *)
Definition ModelProvider_sends_diff `{Platform}
  (plan state : ModelProvider.ResourceModel)
  (req : ModelProvider.ModelProviderUpdate) : Prop :=
  sent (negb (Equal (ModelProvider.Name plan) (ModelProvider.Name state)))
       (λ s, s = ValueOf (ModelProvider.Name plan)) (ModelProvider.u_Name req)
  ∧ sent (negb (Equal (ModelProvider.APIKey plan) (ModelProvider.APIKey state)))
         (λ s, s = ValueOf (ModelProvider.APIKey plan)) (ModelProvider.u_APIKey req)
  ∧ sent (negb (Equal (ModelProvider.Default plan) (ModelProvider.Default state)))
         (λ b, b = ValueOf (ModelProvider.Default plan)) (ModelProvider.u_Default req).

Definition Model_sends_diff `{Platform}
  (plan state : Model.ResourceModel) (req : Model.ModelUpdate) : Prop :=
  sent (negb (Equal (Model.Description plan) (Model.Description state)))
       (λ s, s = ValueOf (Model.Description plan)) (Model.u_Description req)
  ∧ sent (negb (Equal (Model.ProviderID plan) (Model.ProviderID state)))
         (λ u, uuid_Parse (ValueOf (Model.ProviderID plan)) = Ok u)
         (Model.u_ProviderID req)
  ∧ sent (negb (Equal (Model.Default plan) (Model.Default state)))
         (λ b, b = ValueOf (Model.Default plan)) (Model.u_Default req).

(** The config map a request carries for the decoded [members]: under
    each key the marshalled JSON of the member stored under that key (of
    two members with one key the later), and nothing under other keys. *)
Definition sentConfig `{Platform} (members : list (string * JsonAny))
  (config : gmap string string) : Prop :=
  ∀ key,
    config !! key
    = match (list_to_map (reverse members) : gmap string JsonAny) !! key with
      | Some value =>
        match json_Marshal value with
        | Ok valueJSON => Some valueJSON
        | Err _ => None
        end
      | None => None
      end.

Definition DiscoveryProvider_sends_diff `{Platform}
  (plan state : DiscoveryProvider.ResourceModel)
  (req : DiscoveryProvider.ConfiguredProviderUpdate) : Prop :=
  sent (negb (Equal (DiscoveryProvider.Name plan) (DiscoveryProvider.Name state)))
       (λ s, s = ValueOf (DiscoveryProvider.Name plan)) (DiscoveryProvider.u_Name req)
  ∧ sent (negb (Equal (DiscoveryProvider.Enabled plan) (DiscoveryProvider.Enabled state)))
         (λ b, b = ValueOf (DiscoveryProvider.Enabled plan))
         (DiscoveryProvider.u_Enabled req)
  ∧ sent (negb (Equal (DiscoveryProvider.Interval plan) (DiscoveryProvider.Interval state)))
         (λ z, z = ValueOf (DiscoveryProvider.Interval plan))
         (DiscoveryProvider.u_Interval req)
  ∧ sent (negb (Equal (DiscoveryProvider.Config plan) (DiscoveryProvider.Config state)))
         (λ config,
            ∃ members,
              json_Unmarshal_map (ValueOf (DiscoveryProvider.Config plan))
              = Ok members
              ∧ sentConfig members config)
         (DiscoveryProvider.u_Config req).

(** The operation ended without an error diagnostic and the record [s] is
    what it left in the state. *)
Definition succeeded {M C} (w : World M C) (s : M) : Prop :=
  diags_HasError (w_Diagnostics w) = false ∧ w_State w = Some s.

(* ===================================================================== *)
(** ** Concrete inputs *)
(* ===================================================================== *)

(** An MCP endpoint whose description alone changes between state and
    plan, and a client that accepts the update. *)
Definition mcp_state : MCPEndpoint.ResourceModel :=
  MCPEndpoint.mkModel (TfValue "6f1c2a3b-0d4e-4f5a-8b6c-7d8e9f0a1b2c") (TfValue "search")
    (TfValue "https://mcp.example.com/v1") (TfValue "old") (TfValue ∅)
    (TfValue false) (TfValue false) TfNull (TfValue false) (TfValue true)
    TfNull TfNull.

Definition mcp_plan : MCPEndpoint.ResourceModel :=
  MCPEndpoint.mkModel (TfValue "6f1c2a3b-0d4e-4f5a-8b6c-7d8e9f0a1b2c") (TfValue "search")
    (TfValue "https://mcp.example.com/v1") (TfValue "new") (TfValue ∅)
    (TfValue false) (TfValue false) TfNull (TfValue false) (TfValue true)
    TfNull TfNull.

Definition mcp_response : @MCPEndpoint.MCPEndpointResponse TestPlatform :=
  MCPEndpoint.mkResponse ("6f1c2a3b-0d4e-4f5a-8b6c-7d8e9f0a1b2c" : @UUID TestPlatform) "search"
    "https://mcp.example.com/v1" (NewOptNil "new") zero zero zero zero zero zero.

Definition mcp_client : @MCPEndpoint.Client TestPlatform :=
  MCPEndpoint.mkClient
    (λ _, Ok (MCPEndpoint.Create_MCPEndpointResponse mcp_response))
    (λ _, Ok (MCPEndpoint.Get_MCPEndpointResponse mcp_response))
    (λ _ _, Ok (MCPEndpoint.Update_MCPEndpointResponse mcp_response))
    (λ _, Ok tt).

(** The model provider of the specification's scenario, and a server that
    answers with the anthropic variant and a masked key. *)
Definition mp_plan : ModelProvider.ResourceModel :=
  ModelProvider.mkModel TfUnknown (TfValue "anthropic") (TfValue "p1")
    (TfValue "k1") (TfValue false).

Definition mp_masked : @ModelProvider.ProviderResponse TestPlatform :=
  ModelProvider.mkProviderResponse ("0a1b2c3d-4e5f-4a6b-8c7d-8e9f0a1b2c3d" : @UUID TestPlatform) "anthropic" "p1"
    "****" (NewOpt false).

Definition mp_empty : @ModelProvider.ProviderResponse TestPlatform :=
  ModelProvider.mkProviderResponse (@uuid_Nil TestPlatform) "" "" "" zero.

Definition mp_response : @ModelProvider.ModelProviderResponse TestPlatform :=
  ModelProvider.mkResponse
    ModelProvider.AnthropicModelProviderResponseModelProviderResponse
    mp_empty mp_masked mp_empty.

Definition mp_client : @ModelProvider.Client TestPlatform :=
  ModelProvider.mkClient
    (λ _, Ok (ModelProvider.Create_ModelProviderResponse mp_response))
    (λ _, Ok (ModelProvider.Get_ModelProviderResponse mp_response))
    (λ _ _, Ok (ModelProvider.Update_ModelProviderResponse mp_response))
    (λ _, Ok tt).

(** The state Create leaves for [mp_plan], and a plan that renames it. *)
Definition mp_state : ModelProvider.ResourceModel :=
  ModelProvider.mkModel (TfValue "0a1b2c3d-4e5f-4a6b-8c7d-8e9f0a1b2c3d") (TfValue "anthropic") (TfValue "p1")
    (TfValue "****") (TfValue false).

Definition mp_renamed : ModelProvider.ResourceModel :=
  ModelProvider.mkModel (TfValue "0a1b2c3d-4e5f-4a6b-8c7d-8e9f0a1b2c3d") (TfValue "anthropic") (TfValue "p2")
    (TfValue "****") (TfValue false).

(** The request Update sends for [mcp_plan]. *)
Definition mcp_request : @MCPEndpoint.MCPEndpointUpdate TestPlatform :=
  @MCPEndpoint.mkUpdate TestPlatform
    (NewOptNil "search") (NewOptNil "https://mcp.example.com/v1")
    (NewOptNil "new") (NewOptNil ∅) (NewOptNil false) (NewOptNil false)
    (NewOptNil false) (NewOptNil true)
    (mkOptNil (@uuid_Nil TestPlatform) false false)
    (mkOptNil [] false false) (mkOptNil [] false false).

(** An OAuth service plan and a response that echoes it. *)
Definition oauth_plan : OAuthService.ResourceModel :=
  OAuthService.mkModel TfUnknown (TfValue "github") (TfValue "GitHub") TfNull
    (TfValue "client-1") (TfValue "s3cret") (TfValue "https://a.example/auth")
    (TfValue "https://a.example/token") TfNull (TfValue []) (TfValue [])
    (TfValue true) TfNull TfNull TfUnknown TfUnknown.

Definition oauth_response : @OAuthService.OAuthServiceResponse TestPlatform :=
  @OAuthService.mkResponse TestPlatform "1b2c3d4e-5f6a-4b7c-8d8e-9f0a1b2c3d4e" "GitHub" "https://a.example/auth"
    "https://a.example/token" true "2025-01-01 00:00:00 +0000 UTC" "2025-01-01 00:00:00 +0000 UTC"
    (mkNil "" true) (mkNil "" true) (mkNil "" true) (mkNil "" true) [] [].

Definition oauth_client : @OAuthService.Client TestPlatform :=
  OAuthService.mkClient
    (λ _, Ok (OAuthService.Create_OAuthServiceResponse oauth_response))
    (λ _, Ok (OAuthService.Get_OAuthServiceResponse oauth_response))
    (λ _ _, Ok (OAuthService.Update_OAuthServiceResponse oauth_response))
    (λ _, Ok tt).

(** A discovery provider with a given configuration text. *)
Definition discovery_plan (config : string) : DiscoveryProvider.ResourceModel :=
  DiscoveryProvider.mkModel TfUnknown (TfValue "GitHub Production")
    (TfValue "github") (TfValue true) (TfValue 300%Z) (TfValue config).

Definition discovery_response : @DiscoveryProvider.ConfiguredProviderResponse TestPlatform :=
  @DiscoveryProvider.mkResponse TestPlatform "2c3d4e5f-6a7b-4c8d-8e9f-0a1b2c3d4e5f" "GitHub Production" "github"
    true 300%Z.

Definition discovery_client : @DiscoveryProvider.Client TestPlatform :=
  DiscoveryProvider.mkClient
    (λ _, Ok (DiscoveryProvider.Create_ConfiguredProviderResponse discovery_response))
    (λ _, Ok (DiscoveryProvider.Get_ConfiguredProviderResponse discovery_response))
    (λ _ _, Ok (DiscoveryProvider.Update_ConfiguredProviderResponse discovery_response))
    (λ _, Ok tt).

(** A discovery provider in the state with an empty config object, and a
    plan that changes the config alone. *)
Definition discovery_state : DiscoveryProvider.ResourceModel :=
  DiscoveryProvider.mkModel (TfValue "2c3d4e5f-6a7b-4c8d-8e9f-0a1b2c3d4e5f")
    (TfValue "GitHub Production") (TfValue "github") (TfValue true)
    (TfValue 300%Z) (TfValue "{}").

Definition discovery_changed : DiscoveryProvider.ResourceModel :=
  DiscoveryProvider.mkModel (TfValue "2c3d4e5f-6a7b-4c8d-8e9f-0a1b2c3d4e5f")
    (TfValue "GitHub Production") (TfValue "github") (TfValue true)
    (TfValue 300%Z) (TfValue token_config).

(** A model-provider response whose discriminator is none of the three
    declared tags. *)
Definition mp_untagged : @ModelProvider.ModelProviderResponse TestPlatform :=
  ModelProvider.mkResponse (ModelProvider.OtherModelProviderResponseType "")
    mp_empty mp_empty mp_empty.

Definition mp_untagged_client : @ModelProvider.Client TestPlatform :=
  ModelProvider.mkClient
    (λ _, Ok (ModelProvider.Create_ModelProviderResponse mp_untagged))
    (λ _, Ok (ModelProvider.Get_ModelProviderResponse mp_untagged))
    (λ _ _, Ok (ModelProvider.Update_ModelProviderResponse mp_untagged))
    (λ _, Ok tt).

(** A model, a plan that only renames it, and a response that leaves the
    optional fields unset. *)
Definition model_state : Model.ResourceModel :=
  Model.mkModel (TfValue "3d4e5f6a-7b8c-4d9e-8f0a-1b2c3d4e5f6a") (TfValue "gpt-4") (TfValue "general purpose")
    (TfValue "0a1b2c3d-4e5f-4a6b-8c7d-8e9f0a1b2c3d") (TfValue false).

Definition model_renamed : Model.ResourceModel :=
  Model.mkModel (TfValue "3d4e5f6a-7b8c-4d9e-8f0a-1b2c3d4e5f6a") (TfValue "gpt-4o") (TfValue "general purpose")
    (TfValue "0a1b2c3d-4e5f-4a6b-8c7d-8e9f0a1b2c3d") (TfValue false).

Definition model_response : @Model.ModelResponse TestPlatform :=
  @Model.mkResponse TestPlatform "3d4e5f6a-7b8c-4d9e-8f0a-1b2c3d4e5f6a" "gpt-4" (mkOptNil "" false false) "0a1b2c3d-4e5f-4a6b-8c7d-8e9f0a1b2c3d"
    (mkOpt false false).

Definition model_client : @Model.Client TestPlatform :=
  Model.mkClient
    (λ _, Ok (Model.Create_ModelResponse model_response))
    (λ _, Ok (Model.Get_ModelResponse model_response))
    (λ _ _, Ok (Model.Update_ModelResponse model_response))
    (λ _, Ok tt).

(** The update request that sets no field. *)
Definition Model_emptyUpdate `{Platform} : Model.ModelUpdate :=
  Model.mkUpdate zero zero zero.

(** Environments: a state whose identifier is not in the list the remote
    returns. *)
Definition env_state : Environment.ResourceModel :=
  Environment.mkModel (TfValue "4e5f6a7b-8c9d-4e0f-8a1b-2c3d4e5f6a7b") (TfValue "prod") (TfValue "prod")
    (TfValue "org_1") (TfValue "cus_1") (TfValue "6a7b8c9d-0e1f-4a2b-8c3d-4e5f6a7b8c9d") (TfValue [])
    (TfValue "stripe_1") (TfValue "https://prod.example.com").

Definition env_other : @Environment.EnvironmentResponse TestPlatform :=
  @Environment.mkResponse TestPlatform "5f6a7b8c-9d0e-4f1a-8b2c-3d4e5f6a7b8c" "staging" "staging" "org_2"
    "cus_2" "7b8c9d0e-1f2a-4b3c-8d4e-5f6a7b8c9d0e".

Definition env_client : @Environment.Client TestPlatform :=
  Environment.mkClient
    (λ _, Err "unused")
    (Ok (Environment.Get_OKApplicationJSON [env_other])).

(* ===================================================================== *)
(** ** Further predicates *)
(* ===================================================================== *)

(** What every run of an operation from the framework's response looks
    like, [st] being the state the response starts with. *)
Definition tidy {M C} (st : option M) (w : World M C) : Prop :=
  (length (w_Calls w) ≤ 1)%nat
  ∧ (diags_HasError (w_Diagnostics w) = true → w_State w = st)
  ∧ (diags_HasError (w_Diagnostics w) = false →
     w_Diagnostics w = [] ∧ length (w_Calls w) = 1%nat).

(** [P st w] for every lifecycle operation of every resource that talks to
    the remote API, run on the response the framework provides: [w] is the
    world the operation leaves and [st] the state the response started
    with (none for Create, the prior state otherwise). *)
Definition every_operation `{Platform}
  (P : ∀ M C : Type, option M → World M C → Prop) : Prop :=
  (∀ client plan,
     P _ _ None (exec (ModelProvider.Create client plan) (fresh None)))
  ∧ (∀ client state,
     P _ _ (Some state) (exec (ModelProvider.Read client state) (fresh (Some state))))
  ∧ (∀ client plan state,
     P _ _ (Some state)
       (exec (ModelProvider.Update client plan state) (fresh (Some state))))
  ∧ (∀ client state,
     P _ _ (Some state) (exec (ModelProvider.Delete client state) (fresh (Some state))))
  ∧ (∀ client plan,
     P _ _ None (exec (OAuthService.Create client plan) (fresh None)))
  ∧ (∀ client state,
     P _ _ (Some state) (exec (OAuthService.Read client state) (fresh (Some state))))
  ∧ (∀ client plan state,
     P _ _ (Some state)
       (exec (OAuthService.Update client plan state) (fresh (Some state))))
  ∧ (∀ client state,
     P _ _ (Some state) (exec (OAuthService.Delete client state) (fresh (Some state))))
  ∧ (∀ client plan,
     P _ _ None (exec (MCPEndpoint.Create client plan) (fresh None)))
  ∧ (∀ client state,
     P _ _ (Some state) (exec (MCPEndpoint.Read client state) (fresh (Some state))))
  ∧ (∀ client plan state,
     P _ _ (Some state)
       (exec (MCPEndpoint.Update client plan state) (fresh (Some state))))
  ∧ (∀ client state,
     P _ _ (Some state) (exec (MCPEndpoint.Delete client state) (fresh (Some state))))
  ∧ (∀ client plan,
     P _ _ None (exec (Model.Create client plan) (fresh None)))
  ∧ (∀ client state,
     P _ _ (Some state) (exec (Model.Read client state) (fresh (Some state))))
  ∧ (∀ client plan state,
     P _ _ (Some state) (exec (Model.Update client plan state) (fresh (Some state))))
  ∧ (∀ client state,
     P _ _ (Some state) (exec (Model.Delete client state) (fresh (Some state))))
  ∧ (∀ client plan,
     P _ _ None (exec (DiscoveryProvider.Create client plan) (fresh None)))
  ∧ (∀ client state,
     P _ _ (Some state)
       (exec (DiscoveryProvider.Read client state) (fresh (Some state))))
  ∧ (∀ client plan state,
     P _ _ (Some state)
       (exec (DiscoveryProvider.Update client plan state) (fresh (Some state))))
  ∧ (∀ client state,
     P _ _ (Some state)
       (exec (DiscoveryProvider.Delete client state) (fresh (Some state))))
  ∧ (∀ client plan,
     P _ _ None (exec (Environment.Create client plan) (fresh None)))
  ∧ (∀ client state,
     P _ _ (Some state) (exec (Environment.Read client state) (fresh (Some state))))
  ∧ (∀ client plan,
     P _ _ None (exec (ChatSuggestion.Create client plan) (fresh None)))
  ∧ (∀ client state,
     P _ _ (Some state) (exec (ChatSuggestion.Read client state) (fresh (Some state))))
  ∧ (∀ client state,
     P _ _ (Some state)
       (exec (ChatSuggestion.Delete client state) (fresh (Some state)))).

(** A state whose identifier does not parse, and a client whose lookup
    fails. *)
Definition mp_bad_state : ModelProvider.ResourceModel :=
  ModelProvider.mkModel (TfValue "not-a-uuid") (TfValue "anthropic") (TfValue "p1")
    (TfValue "k1") (TfValue false).

Definition mp_failing_client : @ModelProvider.Client TestPlatform :=
  ModelProvider.mkClient (λ _, Err "connection refused") (λ _, Err "connection refused")
    (λ _ _, Err "connection refused") (λ _, Err "connection refused").

(** The response the framework hands to the provider's Configure. *)
Definition freshConfigure {Cl} : Provider.ConfigureResponse Cl :=
  Provider.mkConfigureResponse [] Provider.AnyNil Provider.AnyNil.

(** A provider configuration that names the host only, an environment that
    supplies the rest, and a client constructor that records what it is
    given. *)
Definition sample_config : Provider.DevgraphProviderModel :=
  Provider.mkConfig (TfValue "https://api.devgraph.ai") TfNull TfNull.

Definition sample_Getenv (name : string) : string :=
  if String.eqb name "DEVGRAPH_ACCESS_TOKEN" then "tok-123"
  else if String.eqb name "DEVGRAPH_ENVIRONMENT" then "acme"
  else "".

Definition sample_NewClient (host : string)
  (securitySource : Provider.devgraphSecuritySource)
  (transport : Provider.Transport)
  : GoResult (string * Provider.Transport) :=
  Ok (host, transport).

(** A request with two headers, one of them an environment set by the
    caller, and an OAuth2 round trip that answers with what it was given. *)
Definition sample_request : Provider.Request string :=
  Provider.mkRequest
    (<["Accept" := ["application/json"]]>
       (<["Devgraph-Environment" := ["stale"]]> ∅))
    "GET /api/v1/models".

Definition sample_oauth2RoundTrip (token : Provider.Token)
  (req : Provider.Request string)
  : GoResult (Provider.Token * Provider.Request string) :=
  Ok (token, req).

#[global] Instance AttributeType_eq_dec : EqDecision Schema.AttributeType.
Proof. solve_decision. Defined.

(** The rules the framework checks on an attribute declaration: a required
    attribute is neither optional nor computed and has no default; every
    attribute is required, optional or computed; a default or a
    [UseStateForUnknown] modifier needs a computed attribute. *)
Definition wellDeclared (a : Schema.Attribute) : Prop :=
  (Schema.a_Required a = true →
   Schema.a_Optional a = false ∧ Schema.a_Computed a = false
   ∧ Schema.a_Default a = None)
  ∧ (Schema.a_Required a || Schema.a_Optional a || Schema.a_Computed a = true)
  ∧ (is_Some (Schema.a_Default a) → Schema.a_Computed a = true)
  ∧ (Schema.UseStateForUnknown ∈ Schema.a_PlanModifiers a →
     Schema.a_Computed a = true).

#[global] Instance wellDeclared_dec a : Decision (wellDeclared a).
Proof. unfold wellDeclared. apply _. Defined.

(* ===================================================================== *)
(** ** Unknown values *)
(* ===================================================================== *)

(** Which attributes of a record are unknown, by the tfsdk tag of the
    field. *)
Definition ModelProvider_unknowns (m : ModelProvider.ResourceModel)
  : list (string * bool) :=
  [("id", IsUnknown (ModelProvider.ID m));
   ("type", IsUnknown (ModelProvider.Type_ m));
   ("name", IsUnknown (ModelProvider.Name m));
   ("api_key", IsUnknown (ModelProvider.APIKey m));
   ("default", IsUnknown (ModelProvider.Default m))].

Definition OAuthService_unknowns (m : OAuthService.ResourceModel)
  : list (string * bool) :=
  [("id", IsUnknown (OAuthService.ID m));
   ("name", IsUnknown (OAuthService.Name m));
   ("display_name", IsUnknown (OAuthService.DisplayName m));
   ("description", IsUnknown (OAuthService.Description m));
   ("client_id", IsUnknown (OAuthService.ClientID m));
   ("client_secret", IsUnknown (OAuthService.ClientSecret m));
   ("authorization_url", IsUnknown (OAuthService.AuthorizationURL m));
   ("token_url", IsUnknown (OAuthService.TokenURL m));
   ("userinfo_url", IsUnknown (OAuthService.UserinfoURL m));
   ("default_scopes", IsUnknown (OAuthService.DefaultScopes m));
   ("supported_grant_types", IsUnknown (OAuthService.SupportedGrantTypes m));
   ("is_active", IsUnknown (OAuthService.IsActive m));
   ("icon_url", IsUnknown (OAuthService.IconURL m));
   ("homepage_url", IsUnknown (OAuthService.HomepageURL m));
   ("created_at", IsUnknown (OAuthService.CreatedAt m));
   ("updated_at", IsUnknown (OAuthService.UpdatedAt m))].

Definition MCPEndpoint_unknowns (m : MCPEndpoint.ResourceModel)
  : list (string * bool) :=
  [("id", IsUnknown (MCPEndpoint.ID m));
   ("name", IsUnknown (MCPEndpoint.Name m));
   ("url", IsUnknown (MCPEndpoint.URL_ m));
   ("description", IsUnknown (MCPEndpoint.Description m));
   ("headers", IsUnknown (MCPEndpoint.Headers m));
   ("devgraph_auth", IsUnknown (MCPEndpoint.DevgraphAuth m));
   ("supports_resources", IsUnknown (MCPEndpoint.SupportsResources m));
   ("oauth_service_id", IsUnknown (MCPEndpoint.OAuthServiceID m));
   ("immutable", IsUnknown (MCPEndpoint.Immutable m));
   ("active", IsUnknown (MCPEndpoint.Active m));
   ("allowed_tools", IsUnknown (MCPEndpoint.AllowedTools m));
   ("denied_tools", IsUnknown (MCPEndpoint.DeniedTools m))].

Definition Model_unknowns (m : Model.ResourceModel) : list (string * bool) :=
  [("id", IsUnknown (Model.ID m));
   ("name", IsUnknown (Model.Name m));
   ("description", IsUnknown (Model.Description m));
   ("provider_id", IsUnknown (Model.ProviderID m));
   ("default", IsUnknown (Model.Default m))].

Definition DiscoveryProvider_unknowns (m : DiscoveryProvider.ResourceModel)
  : list (string * bool) :=
  [("id", IsUnknown (DiscoveryProvider.ID m));
   ("name", IsUnknown (DiscoveryProvider.Name m));
   ("provider_type", IsUnknown (DiscoveryProvider.ProviderType m));
   ("enabled", IsUnknown (DiscoveryProvider.Enabled m));
   ("interval", IsUnknown (DiscoveryProvider.Interval m));
   ("config", IsUnknown (DiscoveryProvider.Config m))].

Definition Environment_unknowns (m : Environment.ResourceModel)
  : list (string * bool) :=
  [("id", IsUnknown (Environment.ID m));
   ("name", IsUnknown (Environment.Name m));
   ("slug", IsUnknown (Environment.Slug m));
   ("clerk_organization_id", IsUnknown (Environment.ClerkOrganizationID m));
   ("customer_id", IsUnknown (Environment.CustomerID m));
   ("subscription_id", IsUnknown (Environment.SubscriptionID m));
   ("invited_users", IsUnknown (Environment.InvitedUsers m));
   ("stripe_subscription_id", IsUnknown (Environment.StripeSubscriptionID m));
   ("instance_url", IsUnknown (Environment.InstanceURL m))].

Definition ChatSuggestion_unknowns (m : ChatSuggestion.ResourceModel)
  : list (string * bool) :=
  [("id", IsUnknown (ChatSuggestion.ID m));
   ("title", IsUnknown (ChatSuggestion.Title m));
   ("label", IsUnknown (ChatSuggestion.Label m));
   ("action", IsUnknown (ChatSuggestion.Action m));
   ("active", IsUnknown (ChatSuggestion.Active m))].

(** The attributes whose planned value can be unknown when the plan is
    applied: on create, the computed attributes without a default; on
    update, those of them that do not carry [UseStateForUnknown]. *)
Definition unknownOnCreate (a : Schema.Attribute) : bool :=
  Schema.a_Computed a
  && match Schema.a_Default a with None => true | Some _ => false end.

Definition unknownOnUpdate (a : Schema.Attribute) : bool :=
  unknownOnCreate a
  && negb (bool_decide (Schema.UseStateForUnknown ∈ Schema.a_PlanModifiers a)).

(** A plan in which only attributes that [mayBeUnknown] admits are
    unknown, and a record without unknown attributes. *)
Definition planned (schema : gmap string Schema.Attribute)
  (mayBeUnknown : Schema.Attribute → bool) (unknowns : list (string * bool))
  : Prop :=
  Forall (λ entry : string * bool,
            entry.2 = true → mayBeUnknown <$> schema !! entry.1 = Some true)
         unknowns.

Definition resolved (unknowns : list (string * bool)) : Prop :=
  Forall (λ entry : string * bool, entry.2 = false) unknowns.

(** The response carries one of the three declared discriminators. *)
Definition ModelProvider_recognised `{Platform}
  (result : ModelProvider.ModelProviderResponse) : Prop :=
  match ModelProvider.r_Type result with
  | ModelProvider.OtherModelProviderResponseType _ => False
  | _ => True
  end.

(* ===================================================================== *)
(** ** Deleting *)
(* ===================================================================== *)

(** What a Delete leaves behind, for a resource addressed by [key] (the
    parsed identifier, or the name): the state is as it was; when the key
    is available exactly the delete request for it has been sent and the
    run is free of diagnostics exactly when the client reported no error;
    otherwise nothing has been sent and an error is reported. *)
Definition deletes {M C K} (state : M) (key : GoResult K) (request : K → C)
  (answer : K → GoResult unit) (w : World M C) : Prop :=
  w_State w = Some state
  ∧ match key with
    | Ok k =>
      w_Calls w = [request k] ∧ (w_Diagnostics w = [] ↔ answer k = Ok tt)
    | Err _ =>
      w_Calls w = [] ∧ diags_HasError (w_Diagnostics w) = true
    end.

(* ===================================================================== *)
(** ** What Create sends *)
(* ===================================================================== *)

(** How an optional request field goes on the wire: when [included], set
    to a value [v] with [R v]; otherwise not set. *)
Definition sentOpt {B} (included : bool) (R : B → Prop) (o : Opt B) : Prop :=
  opt_Set o = included ∧ (included = true → R (opt_Value o)).

(** The strings of a planned list or map attribute as Create reads them:
    none for a null attribute, its elements otherwise. *)
Definition plannedStrings (v : tfList) (xs : list string) : Prop :=
  if IsNull v then xs = [] else ElementsAs_list v = Some xs.

Definition plannedHeaders (v : tfMap) (hs : gmap string string) : Prop :=
  if IsNull v then hs = ∅ else ElementsAs_map v = Some hs.

Definition OAuthService_create_sends `{Platform}
  (plan : OAuthService.ResourceModel) (req : OAuthService.OAuthServiceCreate) : Prop :=
  let nonNull {A} (v : tfval A) := negb (IsNull v) in
  let known {A} (v : tfval A) := negb (IsNull v) && negb (IsUnknown v) in
  let url (v : tfString) := λ u, url_Parse (ValueOf v) = Ok u in
  OAuthService.c_Name req = ValueOf (OAuthService.Name plan)
  ∧ OAuthService.c_DisplayName req = ValueOf (OAuthService.DisplayName plan)
  ∧ OAuthService.c_ClientID req = ValueOf (OAuthService.ClientID plan)
  ∧ OAuthService.c_ClientSecret req = ValueOf (OAuthService.ClientSecret plan)
  ∧ url (OAuthService.AuthorizationURL plan) (OAuthService.c_AuthorizationURL req)
  ∧ url (OAuthService.TokenURL plan) (OAuthService.c_TokenURL req)
  ∧ (if known (OAuthService.SupportedGrantTypes plan)
     then ElementsAs_list (OAuthService.SupportedGrantTypes plan)
          = Some (OAuthService.c_SupportedGrantTypes req)
     else OAuthService.c_SupportedGrantTypes req = [])
  ∧ sent (nonNull (OAuthService.Description plan))
         (λ s, s = ValueOf (OAuthService.Description plan))
         (OAuthService.c_Description req)
  ∧ sent (known (OAuthService.DefaultScopes plan))
         (λ xs, ElementsAs_list (OAuthService.DefaultScopes plan) = Some xs)
         (OAuthService.c_DefaultScopes req)
  ∧ sent (nonNull (OAuthService.UserinfoURL plan))
         (url (OAuthService.UserinfoURL plan)) (OAuthService.c_UserinfoURL req)
  ∧ sentOpt (nonNull (OAuthService.IsActive plan))
            (λ b, b = ValueOf (OAuthService.IsActive plan))
            (OAuthService.c_IsActive req)
  ∧ sent (nonNull (OAuthService.IconURL plan))
         (url (OAuthService.IconURL plan)) (OAuthService.c_IconURL req)
  ∧ sent (nonNull (OAuthService.HomepageURL plan))
         (url (OAuthService.HomepageURL plan)) (OAuthService.c_HomepageURL req).

Definition MCPEndpoint_create_sends `{Platform}
  (plan : MCPEndpoint.ResourceModel) (req : MCPEndpoint.MCPEndpointCreate) : Prop :=
  let nonNull {A} (v : tfval A) := negb (IsNull v) in
  let flag (v : tfBool) := λ b, b = ValueOf v in
  MCPEndpoint.c_Name req = ValueOf (MCPEndpoint.Name plan)
  ∧ MCPEndpoint.c_URL req = ValueOf (MCPEndpoint.URL_ plan)
  ∧ sent (nonNull (MCPEndpoint.Description plan))
         (λ s, s = ValueOf (MCPEndpoint.Description plan))
         (MCPEndpoint.c_Description req)
  ∧ (∃ headers,
       plannedHeaders (MCPEndpoint.Headers plan) headers
       ∧ sentOpt (0 <? size headers)%nat (λ hs, hs = headers)
                 (MCPEndpoint.c_Headers req))
  ∧ sentOpt true (flag (MCPEndpoint.DevgraphAuth plan)) (MCPEndpoint.c_DevgraphAuth req)
  ∧ sentOpt true (flag (MCPEndpoint.SupportsResources plan))
            (MCPEndpoint.c_SupportsResources req)
  ∧ sentOpt true (flag (MCPEndpoint.Immutable plan)) (MCPEndpoint.c_Immutable req)
  ∧ sentOpt true (flag (MCPEndpoint.Active plan)) (MCPEndpoint.c_Active req)
  ∧ sent (nonNull (MCPEndpoint.OAuthServiceID plan))
         (λ u, uuid_Parse (ValueOf (MCPEndpoint.OAuthServiceID plan)) = Ok u)
         (MCPEndpoint.c_OAuthServiceID req)
  ∧ (∃ allowedTools,
       plannedStrings (MCPEndpoint.AllowedTools plan) allowedTools
       ∧ sent (0 <? length allowedTools)%nat (λ xs, xs = allowedTools)
              (MCPEndpoint.c_AllowedTools req))
  ∧ (∃ deniedTools,
       plannedStrings (MCPEndpoint.DeniedTools plan) deniedTools
       ∧ sent (0 <? length deniedTools)%nat (λ xs, xs = deniedTools)
              (MCPEndpoint.c_DeniedTools req)).

Definition Model_create_sends `{Platform}
  (plan : Model.ResourceModel) (req : Model.ModelCreate) : Prop :=
  Model.c_Name req = ValueOf (Model.Name plan)
  ∧ uuid_Parse (ValueOf (Model.ProviderID plan)) = Ok (Model.c_ProviderID req)
  ∧ sentOpt true (λ b, b = ValueOf (Model.Default plan)) (Model.c_Default req)
  ∧ sent (negb (IsNull (Model.Description plan)))
         (λ s, s = ValueOf (Model.Description plan)) (Model.c_Description req).

Definition DiscoveryProvider_create_sends `{Platform}
  (plan : DiscoveryProvider.ResourceModel)
  (req : DiscoveryProvider.ConfiguredProviderCreate) : Prop :=
  DiscoveryProvider.c_Name req = ValueOf (DiscoveryProvider.Name plan)
  ∧ DiscoveryProvider.c_ProviderType req
    = ValueOf (DiscoveryProvider.ProviderType plan)
  ∧ sentOpt (negb (IsNull (DiscoveryProvider.Enabled plan)))
            (λ b, b = ValueOf (DiscoveryProvider.Enabled plan))
            (DiscoveryProvider.c_Enabled req)
  ∧ sentOpt (negb (IsNull (DiscoveryProvider.Interval plan)))
            (λ z, z = ValueOf (DiscoveryProvider.Interval plan))
            (DiscoveryProvider.c_Interval req)
  ∧ (∃ members,
       json_Unmarshal_map (ValueOf (DiscoveryProvider.Config plan)) = Ok members
       ∧ sentConfig members (DiscoveryProvider.c_Config req)).

Definition Environment_create_sends `{Platform}
  (plan : Environment.ResourceModel) (req : Environment.EnvironmentCreate) : Prop :=
  Environment.c_Name req = ValueOf (Environment.Name plan)
  ∧ Environment.c_StripeSubscriptionID req
    = ValueOf (Environment.StripeSubscriptionID plan)
  ∧ Environment.c_InstanceURL req = ValueOf (Environment.InstanceURL plan)
  ∧ plannedStrings (Environment.InvitedUsers plan) (Environment.c_InvitedUsers req).

Definition ChatSuggestion_create_sends `{Platform}
  (plan : ChatSuggestion.ResourceModel)
  (req : ChatSuggestion.ChatSuggestionCreate) : Prop :=
  ChatSuggestion.c_Title req = ValueOf (ChatSuggestion.Title plan)
  ∧ ChatSuggestion.c_Label req = ValueOf (ChatSuggestion.Label plan)
  ∧ ChatSuggestion.c_Action req = ValueOf (ChatSuggestion.Action plan)
  ∧ sentOpt (negb (IsNull (ChatSuggestion.Active plan)))
            (λ b, b = ValueOf (ChatSuggestion.Active plan))
            (ChatSuggestion.c_Active req).

(* ===================================================================== *)
(** * Properties *)
(* ===================================================================== *)

(** ** The JSON scanner on sample texts *)

Example json_scan_object : Json.isObject token_config = true.
Proof. vm_compute. reflexivity. Qed.

Example json_scan_bad : Json.checkValid "{bad" = false.
Proof. vm_compute. reflexivity. Qed.

Example json_scan_nested :
  Json.isObject ("{ " ++ dquote ++ "k" ++ dquote ++ " : [1, -2.5e+3, true, null, {}] }") = true.
Proof. vm_compute. reflexivity. Qed.

Example json_scan_trailing : Json.checkValid "{} x" = false.
Proof. vm_compute. reflexivity. Qed.

Example json_scan_number : Json.checkValid "012" = false ∧ Json.checkValid " 12 " = true.
Proof. vm_compute. auto. Qed.

Example json_scan_empty : Json.checkValid "" = false.
Proof. vm_compute. reflexivity. Qed.

Example json_scan_null : Json.isNull " null" = true ∧ Json.isObject "[]" = false.
Proof. vm_compute. auto. Qed.

(** ** Diagnostics and the computation monad *)

Lemma diags_HasError_Append ds summary detail :
  diags_HasError (diags_Append ds (ErrorDiagnostic summary detail)) = true.
Proof.
  unfold diags_Append, diags_HasError. case_bool_decide as Hin.
  - apply existsb_exists. exists (ErrorDiagnostic summary detail).
    split; [by apply list_elem_of_In|done].
  - rewrite existsb_app. simpl. by rewrite orb_true_r.
Qed.

Section OpLemmas.
Context {M C : Type}.
Implicit Types w : World M C.

Lemma op_bind_Some {A B} (m : Op M C A) (k : A → Op M C B) w b w' :
  op_bind m k w = (Some b, w') →
  ∃ a w1, m w = (Some a, w1) ∧ k a w1 = (Some b, w').
Proof.
  unfold op_bind. destruct (m w) as [[a|] w1]; [|discriminate].
  intros Hk. by exists a, w1.
Qed.

Lemma returnIfError_Some w u w' :
  @returnIfError M C w = (Some u, w') →
  w' = w ∧ diags_HasError (w_Diagnostics w) = false.
Proof.
  unfold returnIfError. destruct (diags_HasError _); [discriminate|].
  by intros [= _ <-].
Qed.

End OpLemmas.

Section Builders.
Context `{Platform} {M C : Type}.
Implicit Types w : World M C.

Lemma parseUUID_Some summary prefix s w u w' :
  parseUUID (M:=M) (C:=C) summary prefix s w = (Some u, w') →
  w' = w ∧ uuid_Parse s = Ok u.
Proof.
  unfold parseUUID. destruct (uuid_Parse s); [|discriminate].
  by intros [= <- <-].
Qed.

Lemma parseURL_Some summary s w u w' :
  parseURL (M:=M) (C:=C) summary s w = (Some u, w') →
  w' = w ∧ url_Parse s = Ok u.
Proof.
  unfold parseURL. destruct (url_Parse s); [|discriminate].
  by intros [= <- <-].
Qed.

Lemma elementsAs_list_Some l w xs w' :
  elementsAs_list (M:=M) (C:=C) l w = (Some xs, w') →
  w' = w ∧ ElementsAs_list l = Some xs.
Proof.
  unfold elementsAs_list. destruct (ElementsAs_list l); [|discriminate].
  intros (u & w1 & [-> _]%returnIfError_Some & [= <- <-])%op_bind_Some. done.
Qed.

Lemma elementsAs_map_Some m w xs w' :
  elementsAs_map (M:=M) (C:=C) m w = (Some xs, w') →
  w' = w ∧ ElementsAs_map m = Some xs.
Proof.
  unfold elementsAs_map. destruct (ElementsAs_map m); [|discriminate].
  intros (u & w1 & [-> _]%returnIfError_Some & [= <- <-])%op_bind_Some. done.
Qed.

End Builders.

(** ** Reasoning about lifecycle computations *)

Section Reasoning.
Context {M C : Type}.
Implicit Types w : World M C.

Lemma quiet_ret {A} (a : A) : quiet (@op_ret M C A a).
Proof. by intros w. Qed.

Lemma quiet_fail {A} summary detail : quiet (@fail M C A summary detail).
Proof. intros w. simpl. split_and!; [done..|]. apply diags_HasError_Append. Qed.

Lemma quiet_returnIfError : quiet (@returnIfError M C).
Proof.
  intros w. unfold returnIfError.
  by destruct (diags_HasError (w_Diagnostics w)) eqn:Herr.
Qed.

Lemma quiet_bind {A B} (m : Op M C A) (k : A → Op M C B) :
  quiet m → (∀ a, quiet (k a)) → quiet (op_bind m k).
Proof.
  intros Hm Hk w. unfold op_bind. specialize (Hm w).
  destruct (m w) as [[a|] w1]; [|done].
  subst w1. apply Hk.
Qed.

Lemma quiet_if {A} (b : bool) (m1 m2 : Op M C A) :
  quiet m1 → quiet m2 → quiet (if b then m1 else m2).
Proof. by destruct b. Qed.

Lemma wp_exec (m : Op M C unit) w Q : wp m w Q ↔ Q (exec m w).
Proof. done. Qed.

Lemma wp_bind {A B} (m : Op M C A) (k : A → Op M C B) w Q :
  match m w with
  | (Some a, w1) => wp (k a) w1 Q
  | (None, w1) => Q w1
  end → wp (op_bind m k) w Q.
Proof. unfold wp, op_bind. by destruct (m w) as [[a|] w1]. Qed.

Lemma wp_bind_quiet {A B} (m : Op M C A) (k : A → Op M C B) w Q :
  quiet m →
  (∀ a, m w = (Some a, w) → wp (k a) w Q) →
  (∀ w', w_State w' = w_State w → w_Calls w' = w_Calls w →
         diags_HasError (w_Diagnostics w') = true → Q w') →
  wp (op_bind m k) w Q.
Proof.
  intros Hm Hk Hfail. apply wp_bind. specialize (Hm w).
  destruct (m w) as [[a|] w1] eqn:Hrun.
  - subst w1. by apply Hk.
  - destruct Hm as (? & ? & ?). by apply Hfail.
Qed.

Lemma wp_bind_remote {A B} (c : C) (answer : A) (k : A → Op M C B) w Q :
  wp (k answer) (mkWorld (w_Diagnostics w) (w_State w) (w_Calls w ++ [c])) Q →
  wp (op_bind (remote c answer) k) w Q.
Proof. intros Hk. by apply wp_bind. Qed.

Lemma wp_fail {A} summary detail w Q :
  Q (mkWorld (diags_Append (w_Diagnostics w) (ErrorDiagnostic summary detail))
             (w_State w) (w_Calls w)) →
  wp (@fail M C A summary detail) w Q.
Proof. done. Qed.

Lemma wp_StateSet (m : M) w Q :
  Q (mkWorld (w_Diagnostics w) (Some m) (w_Calls w)) → wp (StateSet m) w Q.
Proof. done. Qed.

Lemma wp_removed {A} w Q :
  Q (mkWorld (w_Diagnostics w) None (w_Calls w)) →
  wp (op_bind RemoveResource (λ _, @halt M C A)) w Q.
Proof. done. Qed.

End Reasoning.

Section BuildersQuiet.
Context `{Platform} {M C : Type}.

Lemma quiet_parseUUID summary prefix s :
  quiet (parseUUID (M:=M) (C:=C) summary prefix s).
Proof. unfold parseUUID. destruct (uuid_Parse s); [apply quiet_ret|apply quiet_fail]. Qed.

Lemma quiet_parseURL summary s : quiet (parseURL (M:=M) (C:=C) summary s).
Proof. unfold parseURL. destruct (url_Parse s); [apply quiet_ret|apply quiet_fail]. Qed.

Lemma quiet_elementsAs_list l : quiet (elementsAs_list (M:=M) (C:=C) l).
Proof.
  unfold elementsAs_list. destruct (ElementsAs_list l); [|apply quiet_fail].
  apply quiet_bind; [apply quiet_returnIfError|intros; apply quiet_ret].
Qed.

Lemma quiet_elementsAs_map m : quiet (elementsAs_map (M:=M) (C:=C) m).
Proof.
  unfold elementsAs_map. destruct (ElementsAs_map m); [|apply quiet_fail].
  apply quiet_bind; [apply quiet_returnIfError|intros; apply quiet_ret].
Qed.

End BuildersQuiet.

Create HintDb quiet discriminated.
#[global] Hint Resolve quiet_ret quiet_fail quiet_returnIfError
  quiet_parseUUID quiet_parseURL quiet_elementsAs_list quiet_elementsAs_map : quiet.
#[global] Hint Extern 2 (quiet (op_bind _ _)) => apply quiet_bind; [|intros] : quiet.
#[global] Hint Extern 2 (quiet (if _ then _ else _)) => apply quiet_if : quiet.

(** ** Unsupported operations *)

Section Unsupported.
Context `{Platform}.

(** C3. The unsupported operations (Update and Delete of
    devgraph_environment, Update of devgraph_chat_suggestion), run on the
    response the framework provides, leave exactly one diagnostic: a fixed
    error that does not depend on the plan, the state or the client.  They
    issue no remote call and leave the state as it was.  On a response
    that already carries diagnostics they add that same error (once) and
    change nothing else. *)
Theorem unsupported_operations_fixed_error :
  (∀ client plan state st,
      exec (Environment.Update client plan state) (fresh st)
      = mkWorld [EnvironmentUpdateError] st [])
  ∧ (∀ client state st,
      exec (Environment.Delete client state) (fresh st)
      = mkWorld [EnvironmentDeleteError] st [])
  ∧ (∀ client plan state st,
      exec (ChatSuggestion.Update client plan state) (fresh st)
      = mkWorld [ChatSuggestionUpdateError] st [])
  ∧ (∀ client plan state w,
      exec (Environment.Update client plan state) w
      = mkWorld (diags_Append (w_Diagnostics w) EnvironmentUpdateError)
                (w_State w) (w_Calls w))
  ∧ (∀ client state w,
      exec (Environment.Delete client state) w
      = mkWorld (diags_Append (w_Diagnostics w) EnvironmentDeleteError)
                (w_State w) (w_Calls w))
  ∧ (∀ client plan state w,
      exec (ChatSuggestion.Update client plan state) w
      = mkWorld (diags_Append (w_Diagnostics w) ChatSuggestionUpdateError)
                (w_State w) (w_Calls w)).
Proof. repeat split; reflexivity. Qed.

End Unsupported.

(** ** Read of an identifier the remote no longer has *)

Section ReadNotFound.
Context `{Platform}.

Lemma scanEnvironments_none environments state :
  (∀ env, env ∈ environments →
     uuid_String (Environment.r_ID env) ≠ ValueOf (Environment.ID state)) →
  Environment.scanEnvironments environments state = (state, false).
Proof.
  induction environments as [|env rest IH]; intros Hno; [done|].
  simpl. destruct (String.eqb_spec (uuid_String (Environment.r_ID env))
                                   (ValueOf (Environment.ID state))) as [Heq|_].
  - exfalso. apply (Hno env); [left|done].
  - apply IH. intros e He. apply Hno. by right.
Qed.

Lemma scanSuggestions_none suggestions suggestionID state :
  (∀ s, s ∈ suggestions → ChatSuggestion.r_ID s ≠ suggestionID) →
  ChatSuggestion.scanSuggestions suggestions suggestionID state = (state, false).
Proof.
  induction suggestions as [|s rest IH]; intros Hno; [done|].
  simpl. rewrite bool_decide_eq_false_2.
  - apply IH. intros e He. apply Hno. by right.
  - apply Hno. left.
Qed.

(** C4. Read of a resource whose stored identifier the remote does not
    know: for the resources read by identifier (or, for the model, by
    name) the client answers the lookup with its not-found response; for
    the resources read by scanning a list, no element of the list carries
    the stored identifier.  In each case Read drops the resource from the
    state and reports no diagnostic. *)
Theorem read_not_found_removes_resource :
  (∀ client state id,
      uuid_Parse (ValueOf (ModelProvider.ID state)) = Ok id →
      ModelProvider.GetModelprovider client id = Ok ModelProvider.Get_NotFound →
      removed_silently (exec (ModelProvider.Read client state) (fresh (Some state))))
  ∧ (∀ client state id,
      uuid_Parse (ValueOf (OAuthService.ID state)) = Ok id →
      OAuthService.GetOAuthService client id = Ok OAuthService.Get_NotFound →
      removed_silently (exec (OAuthService.Read client state) (fresh (Some state))))
  ∧ (∀ client state id,
      uuid_Parse (ValueOf (MCPEndpoint.ID state)) = Ok id →
      MCPEndpoint.GetMcpendpoint client id = Ok MCPEndpoint.Get_NotFound →
      removed_silently (exec (MCPEndpoint.Read client state) (fresh (Some state))))
  ∧ (∀ client state id,
      uuid_Parse (ValueOf (DiscoveryProvider.ID state)) = Ok id →
      DiscoveryProvider.GetConfiguredProvider client id
        = Ok DiscoveryProvider.Get_NotFound →
      removed_silently (exec (DiscoveryProvider.Read client state) (fresh (Some state))))
  ∧ (∀ client state,
      Model.GetModel client (ValueOf (Model.Name state)) = Ok Model.Get_NotFound →
      removed_silently (exec (Model.Read client state) (fresh (Some state))))
  ∧ (∀ client state environments,
      Environment.GetEnvironments client
        = Ok (Environment.Get_OKApplicationJSON environments) →
      (∀ env, env ∈ environments →
         uuid_String (Environment.r_ID env) ≠ ValueOf (Environment.ID state)) →
      removed_silently (exec (Environment.Read client state) (fresh (Some state))))
  ∧ (∀ client state id suggestions,
      uuid_Parse (ValueOf (ChatSuggestion.ID state)) = Ok id →
      ChatSuggestion.ListChatSuggestions client
        = Ok (ChatSuggestion.List_OKApplicationJSON suggestions) →
      (∀ s, s ∈ suggestions → ChatSuggestion.r_ID s ≠ id) →
      removed_silently (exec (ChatSuggestion.Read client state) (fresh (Some state)))).
Proof.
  split_and!.
  - intros client state id Hid Hget.
    unfold exec, ModelProvider.Read, op_bind, parseUUID; simpl.
    rewrite Hid; simpl. by rewrite Hget.
  - intros client state id Hid Hget.
    unfold exec, OAuthService.Read, op_bind, parseUUID; simpl.
    rewrite Hid; simpl. by rewrite Hget.
  - intros client state id Hid Hget.
    unfold exec, MCPEndpoint.Read, op_bind, parseUUID; simpl.
    rewrite Hid; simpl. by rewrite Hget.
  - intros client state id Hid Hget.
    unfold exec, DiscoveryProvider.Read, op_bind, parseUUID; simpl.
    rewrite Hid; simpl. by rewrite Hget.
  - intros client state Hget.
    unfold exec, Model.Read, op_bind; simpl. by rewrite Hget.
  - intros client state environments Hget Hno.
    unfold exec, Environment.Read, op_bind; simpl. rewrite Hget.
    by rewrite (scanEnvironments_none _ _ Hno).
  - intros client state id suggestions Hid Hget Hno.
    unfold exec, ChatSuggestion.Read, op_bind, parseUUID; simpl.
    rewrite Hid; simpl. rewrite Hget.
    by rewrite (scanSuggestions_none _ _ _ Hno).
Qed.

End ReadNotFound.

Section ReadNotFoundOnInputs.
#[local] Existing Instance TestPlatform.

(** The scenario of the specification: the stored environment identifier
    is absent from the list response. *)
Lemma read_not_found_witness :
  removed_silently (exec (Environment.Read env_client env_state)
                         (fresh (Some env_state)))
  ∧ removed_silently
      (exec (ModelProvider.Read
               (ModelProvider.mkClient (λ _, Err "unused")
                  (λ _, Ok ModelProvider.Get_NotFound)
                  (λ _ _, Err "unused") (λ _, Ok tt))
               mp_state)
            (fresh (Some mp_state))).
Proof.
  destruct (@read_not_found_removes_resource TestPlatform)
    as (Hmp & _ & _ & _ & _ & Henv & _).
  split.
  - apply (Henv env_client env_state [env_other]); [reflexivity|].
    intros env ->%list_elem_of_singleton. vm_compute. discriminate.
  - apply (Hmp _ mp_state "0a1b2c3d-4e5f-4a6b-8c7d-8e9f0a1b2c3d"); reflexivity.
Defined.

End ReadNotFoundOnInputs.

(** ** Outcomes of the operations, resource by resource *)

(** One step through a quiet prefix of a method body. *)
Ltac wp_quiet := apply wp_bind_quiet; [solve [auto 8 with quiet] | |].

(** Closes the goal for a run that stopped with an error. *)
Ltac failed :=
  intros; simpl in *;
  repeat match goal with
         | |- _ ∧ _ => split
         | |- diags_HasError _ = true =>
           first [assumption | apply diags_HasError_Append]
         | |- _ ∨ _ => left
         | |- _ => done
         end.

Section ModelProviderFacts.
Context `{Platform}.
Import ModelProvider.

(** Create either persists nothing or persists the plan merged with the
    response to the one request it sent. *)
Lemma ModelProvider_Create_outcome client plan :
  let w := exec (Create client plan) (fresh None) in
  (w_State w = None ∧ diags_HasError (w_Diagnostics w) = true)
  ∨ ∃ req result,
      createReqOf plan = Some req
      ∧ CreateModelprovider client req = Ok (Create_ModelProviderResponse result)
      ∧ w = mkWorld [] (Some (mergeWithID plan result)) [CallCreateModelprovider req].
Proof.
  apply wp_exec. unfold Create.
  wp_quiet; [intros _ _|failed].
  apply wp_bind_quiet; [destruct (createReqOf plan); auto with quiet| |failed].
  intros req Hreq. destruct (createReqOf plan) as [req'|] eqn:Hp; [|done].
  injection Hreq as ->.
  apply wp_bind_remote.
  destruct (CreateModelprovider client req) as [[result|goType]|e] eqn:Hcall.
  - apply wp_StateSet. right. by exists req, result.
  - apply wp_fail. failed.
  - apply wp_fail. failed.
Qed.

(** Read keeps the state, drops it, or replaces it by the state merged
    with the response to the one lookup it made. *)
Lemma ModelProvider_Read_outcome client state :
  let w := exec (Read client state) (fresh (Some state)) in
  (w_State w = Some state ∧ diags_HasError (w_Diagnostics w) = true)
  ∨ (w_State w = None ∧ w_Diagnostics w = [])
  ∨ ∃ id result,
      uuid_Parse (ValueOf (ID state)) = Ok id
      ∧ GetModelprovider client id = Ok (Get_ModelProviderResponse result)
      ∧ w = mkWorld [] (Some (mergeRead state result)) [CallGetModelprovider id].
Proof.
  apply wp_exec. unfold Read.
  wp_quiet; [intros _ _|failed].
  wp_quiet; [intros id [_ Hid]%parseUUID_Some|failed].
  apply wp_bind_remote.
  destruct (GetModelprovider client id) as [[|result|goType]|e] eqn:Hcall.
  - apply wp_removed. by right; left.
  - apply wp_StateSet. right; right. by exists id, result.
  - apply wp_fail. failed.
  - apply wp_fail. failed.
Qed.

(** Update sends at most one request, the one [updateReqOf] builds from
    plan and state, addressed by the identifier in the state; it keeps the
    state or replaces it by the plan merged with the response. *)
Lemma ModelProvider_Update_outcome client plan state :
  let w := exec (Update client plan state) (fresh (Some state)) in
  (w_Calls w = [] ∧ w_State w = Some state
   ∧ diags_HasError (w_Diagnostics w) = true)
  ∨ ∃ id,
      uuid_Parse (ValueOf (ID state)) = Ok id
      ∧ w_Calls w = [CallUpdateModelprovider (updateReqOf plan state) id]
      ∧ ((w_State w = Some state ∧ diags_HasError (w_Diagnostics w) = true)
         ∨ ∃ result,
             UpdateModelprovider client (updateReqOf plan state) id
               = Ok (Update_ModelProviderResponse result)
             ∧ w_Diagnostics w = []
             ∧ w_State w = Some (mergeWithID plan result)).
Proof.
  apply wp_exec. unfold Update.
  wp_quiet; [intros _ _|failed].
  wp_quiet; [intros _ _|failed].
  wp_quiet; [intros id [_ Hid]%parseUUID_Some|failed].
  apply wp_bind_remote. right. exists id. split; [done|].
  destruct (UpdateModelprovider client _ id) as [[result|goType]|e] eqn:Hcall.
  - apply wp_StateSet. simpl. split; [done|]. right. by exists result.
  - apply wp_fail. simpl. split; [done|]. failed.
  - apply wp_fail. simpl. split; [done|]. failed.
Qed.

End ModelProviderFacts.

Section SentFacts.
Context {B : Type}.

Lemma sent_value (R : B → Prop) (v : B) : R v → sent true R (NewOptNil v).
Proof. intros HR. by exists v. Qed.

Lemma sent_set (included : bool) (R : B → Prop) (o : OptNil B) :
  sent included R o → on_Set o = included ∧ (included = true → on_Null o = false).
Proof.
  unfold sent, encode.
  destruct included, (on_Set o), (on_Null o); simpl; intros Hs;
    try done; by destruct Hs as (? & ? & ?).
Qed.

End SentFacts.

Section OAuthServiceFacts.
Context `{Platform}.
Import OAuthService.

Lemma OAuthService_sent_optString (v : tfString) :
  sent (negb (IsNull v)) (λ s, s = ValueOf v) (optString v).
Proof. unfold optString. destruct (IsNull v); [done|]. by apply sent_value. Qed.

Lemma OAuthService_quiet_optURL summary v : quiet (optURL summary v).
Proof. unfold optURL. auto 8 with quiet. Qed.

Lemma OAuthService_quiet_optStringArray v : quiet (optStringArray v).
Proof. unfold optStringArray. auto 8 with quiet. Qed.

Lemma OAuthService_optURL_Some summary v w o w' :
  optURL summary v w = (Some o, w') →
  w' = w ∧ sent (negb (IsNull v)) (λ u, url_Parse (ValueOf v) = Ok u) o.
Proof.
  unfold optURL. destruct (IsNull v); simpl.
  - by intros [= <- <-].
  - intros (u & w1 & [-> Hu]%parseURL_Some & [= <- <-])%op_bind_Some.
    split; [done|]. by apply sent_value.
Qed.

Lemma OAuthService_optStringArray_Some v w o w' :
  optStringArray v w = (Some o, w') →
  w' = w
  ∧ sent (negb (IsNull v) && negb (IsUnknown v))
         (λ xs, ElementsAs_list v = Some xs) o.
Proof.
  unfold optStringArray. destruct (negb (IsNull v) && negb (IsUnknown v)).
  - intros (xs & w1 & [-> Hxs]%elementsAs_list_Some & [= <- <-])%op_bind_Some.
    split; [done|]. by apply sent_value.
  - by intros [= <- <-].
Qed.

Lemma OAuthService_quiet_updateReqOf plan : quiet (updateReqOf plan).
Proof.
  unfold updateReqOf.
  auto 20 using OAuthService_quiet_optURL, OAuthService_quiet_optStringArray
    with quiet.
Qed.

Lemma OAuthService_updateReqOf_Some plan w req w' :
  updateReqOf plan w = (Some req, w') → OAuthService_sends_plan plan req.
Proof.
  unfold updateReqOf. intros Hrun.
  apply op_bind_Some in Hrun as (a1 & w1 & [-> H1]%OAuthService_optURL_Some & Hrun).
  apply op_bind_Some in Hrun as (a2 & w2 & [-> H2]%OAuthService_optURL_Some & Hrun).
  apply op_bind_Some in Hrun as (a3 & w3 & [-> H3]%OAuthService_optStringArray_Some & Hrun).
  apply op_bind_Some in Hrun as (a4 & w4 & [-> H4]%OAuthService_optStringArray_Some & Hrun).
  apply op_bind_Some in Hrun as (a5 & w5 & [-> H5]%OAuthService_optURL_Some & Hrun).
  apply op_bind_Some in Hrun as (a6 & w6 & [-> H6]%OAuthService_optURL_Some & Hrun).
  apply op_bind_Some in Hrun as (a7 & w7 & [-> H7]%OAuthService_optURL_Some & Hrun).
  injection Hrun as <- <-.
  unfold OAuthService_sends_plan; simpl.
  split_and!; try done; try apply OAuthService_sent_optString.
  destruct (IsNull (IsActive plan)); [done|]. by apply sent_value.
Qed.

Lemma OAuthService_Create_outcome client plan :
  let w := exec (Create client plan) (fresh None) in
  (w_State w = None ∧ diags_HasError (w_Diagnostics w) = true)
  ∨ ∃ req result,
      CreateOAuthService client req = Ok (Create_OAuthServiceResponse result)
      ∧ w = mkWorld [] (Some (mergeCreate plan result)) [CallCreateOAuthService req].
Proof.
  apply wp_exec. unfold Create.
  wp_quiet; [intros _ _|failed].
  wp_quiet; [intros authURL _|failed].
  wp_quiet; [intros tokenURL _|failed].
  wp_quiet; [intros supportedGrantTypes _|failed].
  apply wp_bind_quiet; [apply OAuthService_quiet_optStringArray| |failed].
  intros defaultScopes _.
  apply wp_bind_quiet; [apply OAuthService_quiet_optURL| |failed].
  intros userinfoURL _.
  apply wp_bind_quiet; [apply OAuthService_quiet_optURL| |failed].
  intros iconURL _.
  apply wp_bind_quiet; [apply OAuthService_quiet_optURL| |failed].
  intros homepageURL _.
  apply wp_bind_remote.
  match goal with |- wp (match CreateOAuthService client ?r with _ => _ end) _ _ =>
    set (req := r) end.
  destruct (CreateOAuthService client req) as [[result|goType]|e] eqn:Hcall.
  - apply wp_StateSet. right. by exists req, result.
  - apply wp_fail. failed.
  - apply wp_fail. failed.
Qed.

Lemma OAuthService_Read_outcome client state :
  let w := exec (Read client state) (fresh (Some state)) in
  (w_State w = Some state ∧ diags_HasError (w_Diagnostics w) = true)
  ∨ (w_State w = None ∧ w_Diagnostics w = [])
  ∨ ∃ id result,
      uuid_Parse (ValueOf (ID state)) = Ok id
      ∧ GetOAuthService client id = Ok (Get_OAuthServiceResponse result)
      ∧ w = mkWorld [] (Some (mergeRead state result)) [CallGetOAuthService id].
Proof.
  apply wp_exec. unfold Read.
  wp_quiet; [intros _ _|failed].
  wp_quiet; [intros id [_ Hid]%parseUUID_Some|failed].
  apply wp_bind_remote.
  destruct (GetOAuthService client id) as [[|result|goType]|e] eqn:Hcall.
  - apply wp_removed. by right; left.
  - apply wp_StateSet. right; right. by exists id, result.
  - apply wp_fail. failed.
  - apply wp_fail. failed.
Qed.

(** Update sends at most one request, built from the plan alone and
    addressed by the identifier in the plan. *)
Lemma OAuthService_Update_outcome client plan state :
  let w := exec (Update client plan state) (fresh (Some state)) in
  (w_Calls w = [] ∧ w_State w = Some state
   ∧ diags_HasError (w_Diagnostics w) = true)
  ∨ ∃ id req,
      uuid_Parse (ValueOf (ID plan)) = Ok id
      ∧ OAuthService_sends_plan plan req
      ∧ w_Calls w = [CallUpdateOAuthService req id]
      ∧ ((w_State w = Some state ∧ diags_HasError (w_Diagnostics w) = true)
         ∨ ∃ result,
             UpdateOAuthService client req id = Ok (Update_OAuthServiceResponse result)
             ∧ w_Diagnostics w = []
             ∧ w_State w = Some (mergeUpdate plan result)).
Proof.
  apply wp_exec. unfold Update.
  wp_quiet; [intros _ _|failed].
  wp_quiet; [intros id [_ Hid]%parseUUID_Some|failed].
  apply wp_bind_quiet; [apply OAuthService_quiet_updateReqOf| |failed].
  intros req Hreq%OAuthService_updateReqOf_Some.
  apply wp_bind_remote. right. exists id, req.
  split; [done|]. split; [done|].
  destruct (UpdateOAuthService client req id) as [[result|goType]|e] eqn:Hcall.
  - apply wp_StateSet. simpl. split; [done|]. right. by exists result.
  - apply wp_fail. simpl. split; [done|]. failed.
  - apply wp_fail. simpl. split; [done|]. failed.
Qed.

End OAuthServiceFacts.

Section MCPEndpointFacts.
Context `{Platform}.
Import MCPEndpoint.

Lemma MCPEndpoint_sent_optString (v : tfString) :
  sent (negb (IsNull v)) (λ s, s = ValueOf v) (optString v).
Proof. unfold optString. destruct (IsNull v); [done|]. by apply sent_value. Qed.

Lemma MCPEndpoint_sent_optBool (v : tfBool) :
  sent (negb (IsNull v)) (λ b, b = ValueOf v) (optBool v).
Proof. unfold optBool. destruct (IsNull v); [done|]. by apply sent_value. Qed.

Lemma MCPEndpoint_quiet_optUUID v : quiet (optUUID v).
Proof. unfold optUUID. auto 8 with quiet. Qed.

Lemma MCPEndpoint_quiet_optStringArray v : quiet (optStringArray v).
Proof. unfold optStringArray. auto 8 with quiet. Qed.

Lemma MCPEndpoint_optUUID_Some v w o w' :
  optUUID v w = (Some o, w') →
  w' = w ∧ sent (negb (IsNull v)) (λ u, uuid_Parse (ValueOf v) = Ok u) o.
Proof.
  unfold optUUID. destruct (IsNull v); simpl.
  - by intros [= <- <-].
  - intros (u & w1 & [-> Hu]%parseUUID_Some & [= <- <-])%op_bind_Some.
    split; [done|]. by apply sent_value.
Qed.

Lemma MCPEndpoint_optStringArray_Some v w o w' :
  optStringArray v w = (Some o, w') →
  w' = w ∧ sent (negb (IsNull v)) (λ xs, ElementsAs_list v = Some xs) o.
Proof.
  unfold optStringArray. destruct (IsNull v); simpl.
  - by intros [= <- <-].
  - intros (xs & w1 & [-> Hxs]%elementsAs_list_Some & [= <- <-])%op_bind_Some.
    split; [done|]. by apply sent_value.
Qed.

Lemma MCPEndpoint_quiet_updateReqOf plan : quiet (updateReqOf plan).
Proof.
  unfold updateReqOf.
  auto 20 using MCPEndpoint_quiet_optUUID, MCPEndpoint_quiet_optStringArray
    with quiet.
Qed.

Lemma MCPEndpoint_updateReqOf_Some plan w req w' :
  updateReqOf plan w = (Some req, w') → MCPEndpoint_sends_plan plan req.
Proof.
  unfold updateReqOf. intros Hrun.
  apply op_bind_Some in Hrun as (a1 & w1 & H1 & Hrun).
  apply op_bind_Some in Hrun as (a2 & w2 & [-> H2]%MCPEndpoint_optUUID_Some & Hrun).
  apply op_bind_Some in Hrun as (a3 & w3 & [-> H3]%MCPEndpoint_optStringArray_Some & Hrun).
  apply op_bind_Some in Hrun as (a4 & w4 & [-> H4]%MCPEndpoint_optStringArray_Some & Hrun).
  injection Hrun as <- <-.
  unfold MCPEndpoint_sends_plan; simpl.
  split_and!; try done;
    try apply MCPEndpoint_sent_optString; try apply MCPEndpoint_sent_optBool.
  destruct (IsNull (Headers plan)); simpl in *.
  - by injection H1 as <- <-.
  - apply op_bind_Some in H1 as (hs & w0 & [-> Hhs]%elementsAs_map_Some & [= <- <-]).
    by apply sent_value.
Qed.

Lemma MCPEndpoint_Create_outcome client plan :
  let w := exec (Create client plan) (fresh None) in
  (w_State w = None ∧ diags_HasError (w_Diagnostics w) = true)
  ∨ ∃ req result,
      CreateMcpendpoint client req = Ok (Create_MCPEndpointResponse result)
      ∧ w = mkWorld [] (Some (mergeCreate plan result)) [CallCreateMcpendpoint req].
Proof.
  apply wp_exec. unfold Create.
  wp_quiet; [intros _ _|failed].
  wp_quiet; [intros headers _|failed].
  wp_quiet; [intros allowedTools _|failed].
  wp_quiet; [intros deniedTools _|failed].
  apply wp_bind_quiet; [apply MCPEndpoint_quiet_optUUID| |failed].
  intros oauthServiceID _.
  apply wp_bind_remote.
  match goal with |- wp (match CreateMcpendpoint client ?r with _ => _ end) _ _ =>
    set (req := r) end.
  destruct (CreateMcpendpoint client req) as [[result|goType]|e] eqn:Hcall.
  - apply wp_StateSet. right. by exists req, result.
  - apply wp_fail. failed.
  - apply wp_fail. failed.
Qed.

(** Update sends at most one request, built from the plan alone and
    addressed by the identifier in the plan. *)
Lemma MCPEndpoint_Update_outcome client plan state :
  let w := exec (Update client plan state) (fresh (Some state)) in
  (w_Calls w = [] ∧ w_State w = Some state
   ∧ diags_HasError (w_Diagnostics w) = true)
  ∨ ∃ id req,
      uuid_Parse (ValueOf (ID plan)) = Ok id
      ∧ MCPEndpoint_sends_plan plan req
      ∧ w_Calls w = [CallUpdateMcpendpoint req id]
      ∧ ((w_State w = Some state ∧ diags_HasError (w_Diagnostics w) = true)
         ∨ ∃ result,
             UpdateMcpendpoint client req id = Ok (Update_MCPEndpointResponse result)
             ∧ w_Diagnostics w = []
             ∧ w_State w = Some (mergeUpdate plan result)).
Proof.
  apply wp_exec. unfold Update.
  wp_quiet; [intros _ _|failed].
  wp_quiet; [intros id [_ Hid]%parseUUID_Some|failed].
  apply wp_bind_quiet; [apply MCPEndpoint_quiet_updateReqOf| |failed].
  intros req Hreq%MCPEndpoint_updateReqOf_Some.
  apply wp_bind_remote. right. exists id, req.
  split; [done|]. split; [done|].
  destruct (UpdateMcpendpoint client req id) as [[result|goType]|e] eqn:Hcall.
  - apply wp_StateSet. simpl. split; [done|]. right. by exists result.
  - apply wp_fail. simpl. split; [done|]. failed.
  - apply wp_fail. simpl. split; [done|]. failed.
Qed.

End MCPEndpointFacts.

Section ModelFacts.
Context `{Platform}.
Import Model.

Lemma Model_quiet_updateReqOf plan state : quiet (updateReqOf plan state).
Proof. unfold updateReqOf. auto 20 with quiet. Qed.

Lemma Model_updateReqOf_Some plan state w req w' :
  updateReqOf plan state w = (Some req, w') → Model_sends_diff plan state req.
Proof.
  unfold updateReqOf. intros Hrun.
  apply op_bind_Some in Hrun as (a1 & w1 & H1 & Hrun).
  injection Hrun as <- <-.
  unfold Model_sends_diff; simpl. split_and!.
  - destruct (Equal (Description plan) (Description state)); [done|]. simpl.
    destruct (Description plan); by apply sent_value.
  - destruct (Equal (ProviderID plan) (ProviderID state)); simpl in *.
    + by injection H1 as <- <-.
    + apply op_bind_Some in H1 as (u & w0 & [-> Hu]%parseUUID_Some & [= <- <-]).
      by apply sent_value.
  - destruct (Equal (Default plan) (Default state)); [done|]. by apply sent_value.
Qed.

Lemma Model_Create_outcome client plan :
  let w := exec (Create client plan) (fresh None) in
  (w_State w = None ∧ diags_HasError (w_Diagnostics w) = true)
  ∨ ∃ req result,
      CreateModel client req = Ok (Create_ModelResponse result)
      ∧ w = mkWorld [] (Some (mergeResponse plan result)) [CallCreateModel req].
Proof.
  apply wp_exec. unfold Create.
  wp_quiet; [intros _ _|failed].
  wp_quiet; [intros providerID _|failed].
  apply wp_bind_remote.
  match goal with |- wp (match CreateModel client ?r with _ => _ end) _ _ =>
    set (req := r) end.
  destruct (CreateModel client req) as [[result|goType]|e] eqn:Hcall.
  - apply wp_StateSet. right. by exists req, result.
  - apply wp_fail. failed.
  - apply wp_fail. failed.
Qed.

(** Update sends at most one request, built by comparing plan and state
    and addressed by the name in the state. *)
Lemma Model_Update_outcome client plan state :
  let w := exec (Update client plan state) (fresh (Some state)) in
  (w_Calls w = [] ∧ w_State w = Some state
   ∧ diags_HasError (w_Diagnostics w) = true)
  ∨ ∃ req,
      updateReqOf plan state (fresh (Some state)) = (Some req, fresh (Some state))
      ∧ w_Calls w = [CallUpdateModel req (ValueOf (Name state))]
      ∧ ((w_State w = Some state ∧ diags_HasError (w_Diagnostics w) = true)
         ∨ ∃ result,
             UpdateModel client req (ValueOf (Name state))
               = Ok (Update_ModelResponse result)
             ∧ w_Diagnostics w = []
             ∧ w_State w = Some (mergeResponse plan result)).
Proof.
  apply wp_exec. unfold Update.
  wp_quiet; [intros _ _|failed].
  wp_quiet; [intros _ _|failed].
  apply wp_bind_quiet; [apply Model_quiet_updateReqOf| |failed].
  intros req Hreq.
  apply wp_bind_remote. right. exists req. split; [done|].
  destruct (UpdateModel client req _) as [[result|goType]|e] eqn:Hcall.
  - apply wp_StateSet. simpl. split; [done|]. right. by exists result.
  - apply wp_fail. simpl. split; [done|]. failed.
  - apply wp_fail. simpl. split; [done|]. failed.
Qed.

End ModelFacts.

Section DiscoveryProviderFacts.
Context `{Platform}.
Import DiscoveryProvider.

Lemma json_Unmarshal_map_Ok config validateMap :
  json_Unmarshal_map config = Ok validateMap →
  Json.isObject config = true ∨ Json.isNull config = true.
Proof.
  unfold json_Unmarshal_map.
  destruct (Json.isObject config); [by left|].
  destruct (Json.isNull config); [by right|done].
Qed.

Lemma json_Unmarshal_map_range config e :
  Json.isObject config = true → json_decode_error config = Some e →
  json_Unmarshal_map config = Err e.
Proof. intros Hobj He. unfold json_Unmarshal_map. by rewrite Hobj, He. Qed.

Lemma json_Unmarshal_map_invalid config :
  Json.checkValid config = false →
  json_Unmarshal_map config = Err (json_error config).
Proof.
  intros Hbad. unfold json_Unmarshal_map, Json.isObject, Json.isNull.
  by rewrite Hbad.
Qed.

Lemma json_Unmarshal_map_object config :
  Json.isObject config = true → json_decode_error config = None →
  json_Unmarshal_map config = Ok (json_members config).
Proof. intros Hobj Hnone. unfold json_Unmarshal_map. by rewrite Hobj, Hnone. Qed.

Lemma DiscoveryProvider_quiet_validateConfig config : quiet (validateConfig config).
Proof. unfold validateConfig. destruct (json_Unmarshal_map config); auto with quiet. Qed.

Lemma DiscoveryProvider_validateConfig_Some config w validateMap w' :
  validateConfig config w = (Some validateMap, w') →
  w' = w ∧ json_Unmarshal_map config = Ok validateMap.
Proof.
  unfold validateConfig. destruct (json_Unmarshal_map config); [|done].
  by intros [= <- <-].
Qed.

Lemma DiscoveryProvider_quiet_encodeConfig validateMap configMap :
  quiet (encodeConfig validateMap configMap).
Proof.
  revert configMap. induction validateMap as [|[key value] rest IH]; intros configMap.
  - apply quiet_ret.
  - simpl. destruct (json_Marshal value); [apply IH|apply quiet_fail].
Qed.

(** What the loop over the decoded members leaves under each key. *)
Lemma encodeConfig_lookup validateMap configMap (w : World ResourceModel Call) m w' :
  encodeConfig validateMap configMap w = (Some m, w') →
  ∀ key,
    m !! key
    = match (list_to_map (reverse validateMap) : gmap string JsonAny) !! key with
      | Some value =>
        match json_Marshal value with
        | Ok valueJSON => Some valueJSON
        | Err _ => None
        end
      | None => configMap !! key
      end.
Proof.
  revert configMap.
  induction validateMap as [|[key0 value0] rest IH]; intros configMap; simpl.
  - intros [= <- <-] key. by rewrite lookup_empty.
  - destruct (json_Marshal value0) as [valueJSON0|e] eqn:Hvalue; [|done].
    intros Hrun key. rewrite (IH _ Hrun key).
    rewrite reverse_cons, list_to_map_app, lookup_union. simpl.
    destruct (list_to_map (reverse rest) !! key) as [value|] eqn:Hrest.
    + by destruct (<[key0:=value0]> ∅ !! key).
    + rewrite (left_id None _).
      destruct (decide (key0 = key)) as [->|Hne].
      * by rewrite !lookup_insert_eq, Hvalue.
      * by rewrite !lookup_insert_ne, lookup_empty by done.
Qed.

Lemma encodeConfig_sentConfig validateMap (w : World ResourceModel Call) m w' :
  encodeConfig validateMap ∅ w = (Some m, w') → sentConfig validateMap m.
Proof.
  intros Hrun key. rewrite (encodeConfig_lookup _ _ _ _ _ Hrun key).
  destruct (list_to_map (reverse validateMap) !! key); [done|].
  by rewrite lookup_empty.
Qed.

Lemma DiscoveryProvider_quiet_updateReqOf plan state : quiet (updateReqOf plan state).
Proof.
  unfold updateReqOf.
  auto 20 using DiscoveryProvider_quiet_validateConfig,
    DiscoveryProvider_quiet_encodeConfig with quiet.
Qed.

Lemma DiscoveryProvider_updateReqOf_Some plan state w req w' :
  updateReqOf plan state w = (Some req, w') →
  DiscoveryProvider_sends_diff plan state req.
Proof.
  unfold updateReqOf. intros Hrun.
  apply op_bind_Some in Hrun as (a1 & w1 & H1 & Hrun).
  injection Hrun as <- <-.
  unfold DiscoveryProvider_sends_diff; simpl. split_and!.
  - destruct (Equal (Name plan) (Name state)); [done|]. by apply sent_value.
  - destruct (Equal (Enabled plan) (Enabled state)); [done|]. by apply sent_value.
  - destruct (Equal (Interval plan) (Interval state)); [done|]. by apply sent_value.
  - destruct (Equal (Config plan) (Config state)); simpl in *.
    + by injection H1 as <- <-.
    + apply op_bind_Some in H1
        as (vm & w0 & [-> Hvm]%DiscoveryProvider_validateConfig_Some & H1).
      apply op_bind_Some in H1 as (cm & w2 & Hcm & [= <- <-]).
      apply sent_value. exists vm. split; [done|].
      by eapply encodeConfig_sentConfig.
Qed.

Lemma DiscoveryProvider_Create_outcome client plan :
  let w := exec (Create client plan) (fresh None) in
  (w_State w = None ∧ diags_HasError (w_Diagnostics w) = true)
  ∨ ∃ req result,
      CreateConfiguredProvider client req
        = Ok (Create_ConfiguredProviderResponse result)
      ∧ w = mkWorld [] (Some (mergeWithID plan result))
                    [CallCreateConfiguredProvider req].
Proof.
  apply wp_exec. unfold Create.
  wp_quiet; [intros _ _|failed].
  apply wp_bind_quiet; [apply DiscoveryProvider_quiet_validateConfig| |failed].
  intros validateMap _.
  apply wp_bind_quiet; [apply DiscoveryProvider_quiet_encodeConfig| |failed].
  intros configMap _.
  apply wp_bind_remote.
  match goal with
  | |- wp (match CreateConfiguredProvider client ?r with _ => _ end) _ _ =>
    set (req := r)
  end.
  destruct (CreateConfiguredProvider client req) as [[result| |goType]|e] eqn:Hcall.
  - apply wp_StateSet. right. by exists req, result.
  - apply wp_fail. failed.
  - apply wp_fail. failed.
  - apply wp_fail. failed.
Qed.

Lemma DiscoveryProvider_Read_outcome client state :
  let w := exec (Read client state) (fresh (Some state)) in
  (w_State w = Some state ∧ diags_HasError (w_Diagnostics w) = true)
  ∨ (w_State w = None ∧ w_Diagnostics w = [])
  ∨ ∃ id result,
      uuid_Parse (ValueOf (ID state)) = Ok id
      ∧ GetConfiguredProvider client id = Ok (Get_ConfiguredProviderResponse result)
      ∧ w = mkWorld [] (Some (mergeRead state result)) [CallGetConfiguredProvider id].
Proof.
  apply wp_exec. unfold Read.
  wp_quiet; [intros _ _|failed].
  wp_quiet; [intros id [_ Hid]%parseUUID_Some|failed].
  apply wp_bind_remote.
  destruct (GetConfiguredProvider client id) as [[result| |goType]|e] eqn:Hcall.
  - apply wp_StateSet. right; right. by exists id, result.
  - apply wp_removed. by right; left.
  - apply wp_fail. failed.
  - apply wp_fail. failed.
Qed.

(** Update sends at most one request, built by comparing plan and state
    and addressed by the identifier in the state. *)
Lemma DiscoveryProvider_Update_outcome client plan state :
  let w := exec (Update client plan state) (fresh (Some state)) in
  (w_Calls w = [] ∧ w_State w = Some state
   ∧ diags_HasError (w_Diagnostics w) = true)
  ∨ ∃ id req,
      uuid_Parse (ValueOf (ID state)) = Ok id
      ∧ DiscoveryProvider_sends_diff plan state req
      ∧ w_Calls w = [CallUpdateConfiguredProvider req id]
      ∧ ((w_State w = Some state ∧ diags_HasError (w_Diagnostics w) = true)
         ∨ ∃ result,
             UpdateConfiguredProvider client req id
               = Ok (Update_ConfiguredProviderResponse result)
             ∧ w_Diagnostics w = []
             ∧ w_State w = Some (mergeWithID plan result)).
Proof.
  apply wp_exec. unfold Update.
  wp_quiet; [intros _ _|failed].
  wp_quiet; [intros _ _|failed].
  wp_quiet; [intros id [_ Hid]%parseUUID_Some|failed].
  apply wp_bind_quiet; [apply DiscoveryProvider_quiet_updateReqOf| |failed].
  intros req Hreq%DiscoveryProvider_updateReqOf_Some.
  apply wp_bind_remote. right. exists id, req.
  split; [done|]. split; [done|].
  destruct (UpdateConfiguredProvider client req id) as [[result|goType]|e] eqn:Hcall.
  - apply wp_StateSet. simpl. split; [done|]. right. by exists result.
  - apply wp_fail. simpl. split; [done|]. failed.
  - apply wp_fail. simpl. split; [done|]. failed.
Qed.

End DiscoveryProviderFacts.

Section EnvironmentFacts.
Context `{Platform}.
Import Environment.

Lemma Environment_Create_outcome client plan :
  let w := exec (Create client plan) (fresh None) in
  (w_State w = None ∧ diags_HasError (w_Diagnostics w) = true)
  ∨ ∃ req result,
      CreateEnvironment client req = Ok (Create_EnvironmentResponse result)
      ∧ w = mkWorld [] (Some (mergeCreate plan result)) [CallCreateEnvironment req].
Proof.
  apply wp_exec. unfold Create.
  wp_quiet; [intros _ _|failed].
  wp_quiet; [intros invitedUsers _|failed].
  apply wp_bind_remote.
  match goal with |- wp (match CreateEnvironment client ?r with _ => _ end) _ _ =>
    set (req := r) end.
  destruct (CreateEnvironment client req) as [[result|goType]|e] eqn:Hcall.
  - apply wp_StateSet. right. by exists req, result.
  - apply wp_fail. failed.
  - apply wp_fail. failed.
Qed.

(** The loop stops at the first element that carries the stored
    identifier. *)
Lemma scanEnvironments_found pre env post state :
  (∀ e, e ∈ pre → uuid_String (r_ID e) ≠ ValueOf (ID state)) →
  uuid_String (r_ID env) = ValueOf (ID state) →
  scanEnvironments (pre ++ env :: post) state = (assignRead state env, true).
Proof.
  intros Hpre Henv. induction pre as [|e pre IH]; simpl.
  - rewrite Henv. by rewrite String.eqb_refl.
  - destruct (String.eqb_spec (uuid_String (r_ID e)) (ValueOf (ID state))) as [Heq|_].
    + exfalso. apply (Hpre e); [left|done].
    + apply IH. intros e' He'. apply Hpre. by right.
Qed.

End EnvironmentFacts.

Section ChatSuggestionFacts.
Context `{Platform}.
Import ChatSuggestion.

Lemma ChatSuggestion_Create_outcome client plan :
  let w := exec (Create client plan) (fresh None) in
  (w_State w = None ∧ diags_HasError (w_Diagnostics w) = true)
  ∨ ∃ req result,
      CreateChatSuggestion client req = Ok (Create_ChatSuggestionResponse result)
      ∧ w = mkWorld [] (Some (mergeCreate plan result)) [CallCreateChatSuggestion req].
Proof.
  apply wp_exec. unfold Create.
  wp_quiet; [intros _ _|failed].
  apply wp_bind_remote.
  match goal with |- wp (match CreateChatSuggestion client ?r with _ => _ end) _ _ =>
    set (req := r) end.
  destruct (CreateChatSuggestion client req) as [[result|goType]|e] eqn:Hcall.
  - apply wp_StateSet. right. by exists req, result.
  - apply wp_fail. failed.
  - apply wp_fail. failed.
Qed.

Lemma scanSuggestions_found pre suggestion post suggestionID state :
  (∀ s, s ∈ pre → r_ID s ≠ suggestionID) →
  r_ID suggestion = suggestionID →
  scanSuggestions (pre ++ suggestion :: post) suggestionID state
  = (assignRead state suggestion, true).
Proof.
  intros Hpre Hs. induction pre as [|s pre IH]; simpl.
  - by rewrite bool_decide_eq_true_2.
  - rewrite bool_decide_eq_false_2; [|apply Hpre; left].
    apply IH. intros s' Hs'. apply Hpre. by right.
Qed.

End ChatSuggestionFacts.

(** ** What Update sends *)

Section UpdateRequests.
Context `{Platform}.

Lemma ModelProvider_updateReqOf_sends plan state :
  ModelProvider_sends_diff plan state (ModelProvider.updateReqOf plan state).
Proof.
  unfold ModelProvider_sends_diff, ModelProvider.updateReqOf; simpl.
  split_and!.
  - destruct (Equal (ModelProvider.Name plan) (ModelProvider.Name state));
      [done|by apply sent_value].
  - destruct (Equal (ModelProvider.APIKey plan) (ModelProvider.APIKey state));
      [done|by apply sent_value].
  - destruct (Equal (ModelProvider.Default plan) (ModelProvider.Default state));
      [done|by apply sent_value].
Qed.

(** C1, amended.  For the five resources with an update endpoint, what the
    request sent by Update carries.  For the model provider, the model
    and the discovery provider a field is sent exactly when the planned
    attribute differs from the state's; for the MCP endpoint and the OAuth
    service the state plays no part and a field is sent exactly when the
    planned attribute is not null.  A field that is sent carries the
    planned value and is never [null]; a field that is not sent is
    omitted.  For the config of a discovery provider the planned value is
    the map of the members decoded from the planned text, each marshalled
    again. *)
Theorem update_request_contents :
  (∀ client plan state req id,
      ModelProvider.CallUpdateModelprovider req id
        ∈ w_Calls (exec (ModelProvider.Update client plan state) (fresh (Some state))) →
      ModelProvider_sends_diff plan state req)
  ∧ (∀ client plan state req name,
      Model.CallUpdateModel req name
        ∈ w_Calls (exec (Model.Update client plan state) (fresh (Some state))) →
      Model_sends_diff plan state req)
  ∧ (∀ client plan state req id,
      DiscoveryProvider.CallUpdateConfiguredProvider req id
        ∈ w_Calls (exec (DiscoveryProvider.Update client plan state)
                        (fresh (Some state))) →
      DiscoveryProvider_sends_diff plan state req)
  ∧ (∀ client plan state req id,
      MCPEndpoint.CallUpdateMcpendpoint req id
        ∈ w_Calls (exec (MCPEndpoint.Update client plan state) (fresh (Some state))) →
      MCPEndpoint_sends_plan plan req)
  ∧ (∀ client plan state req id,
      OAuthService.CallUpdateOAuthService req id
        ∈ w_Calls (exec (OAuthService.Update client plan state) (fresh (Some state))) →
      OAuthService_sends_plan plan req).
Proof.
  split_and!.
  - intros client plan state req id Hcall.
    destruct (ModelProvider_Update_outcome client plan state)
      as [(Hnone & _)|(id' & _ & Hcalls & _)]; rewrite ?Hnone, ?Hcalls in Hcall.
    + by apply elem_of_nil in Hcall.
    + apply list_elem_of_singleton in Hcall as [= -> ->].
      apply ModelProvider_updateReqOf_sends.
  - intros client plan state req name Hcall.
    destruct (Model_Update_outcome client plan state)
      as [(Hnone & _)|(req' & Hreq & Hcalls & _)]; rewrite ?Hnone, ?Hcalls in Hcall.
    + by apply elem_of_nil in Hcall.
    + apply list_elem_of_singleton in Hcall as [= -> ->].
      by eapply Model_updateReqOf_Some.
  - intros client plan state req id Hcall.
    destruct (DiscoveryProvider_Update_outcome client plan state)
      as [(Hnone & _)|(id' & req' & _ & Hreq & Hcalls & _)];
      rewrite ?Hnone, ?Hcalls in Hcall.
    + by apply elem_of_nil in Hcall.
    + by apply list_elem_of_singleton in Hcall as [= -> ->].
  - intros client plan state req id Hcall.
    destruct (MCPEndpoint_Update_outcome client plan state)
      as [(Hnone & _)|(id' & req' & _ & Hreq & Hcalls & _)];
      rewrite ?Hnone, ?Hcalls in Hcall.
    + by apply elem_of_nil in Hcall.
    + by apply list_elem_of_singleton in Hcall as [= -> ->].
  - intros client plan state req id Hcall.
    destruct (OAuthService_Update_outcome client plan state)
      as [(Hnone & _)|(id' & req' & _ & Hreq & Hcalls & _)];
      rewrite ?Hnone, ?Hcalls in Hcall.
    + by apply elem_of_nil in Hcall.
    + by apply list_elem_of_singleton in Hcall as [= -> ->].
Qed.

End UpdateRequests.

Section UpdateRequestsOnInputs.
#[local] Existing Instance TestPlatform.

(** C1 as stated fails for the MCP endpoint: the name is the same in plan
    and state, and the update request still carries it. *)
Lemma update_diffing_counterexample :
  MCPEndpoint.Name mcp_plan = MCPEndpoint.Name mcp_state
  ∧ match w_Calls (exec (MCPEndpoint.Update mcp_client mcp_plan mcp_state)
                        (fresh (Some mcp_state))) with
    | [MCPEndpoint.CallUpdateMcpendpoint req _] =>
      encode (MCPEndpoint.u_Name req) = SentValue "search"
    | _ => False
    end.
Proof. split; [reflexivity|]. vm_compute. reflexivity. Qed.

Lemma update_request_contents_witness :
  ModelProvider_sends_diff mp_renamed mp_state
    (ModelProvider.updateReqOf mp_renamed mp_state)
  ∧ MCPEndpoint_sends_plan mcp_plan mcp_request
  ∧ DiscoveryProvider_sends_diff discovery_changed discovery_state
      (DiscoveryProvider.mkUpdate zero zero zero
         (NewOptNil {[ "token" := dquote ++ "t" ++ dquote ]})).
Proof.
  destruct (@update_request_contents TestPlatform)
    as (Hmp & _ & Hdiscovery & Hmcp & _).
  split_and!.
  - apply (Hmp mp_client mp_renamed mp_state _ ("0a1b2c3d-4e5f-4a6b-8c7d-8e9f0a1b2c3d" : @UUID TestPlatform)).
    vm_compute. left.
  - apply (Hmcp mcp_client mcp_plan mcp_state _ ("6f1c2a3b-0d4e-4f5a-8b6c-7d8e9f0a1b2c" : @UUID TestPlatform)).
    vm_compute. left.
  - apply (Hdiscovery discovery_client discovery_changed discovery_state _
             ("2c3d4e5f-6a7b-4c8d-8e9f-0a1b2c3d4e5f" : @UUID TestPlatform)).
    vm_compute. left.
Defined.

End UpdateRequestsOnInputs.

(** ** Secret attributes *)

Section Secrets.
Context `{Platform}.

Lemma ModelProvider_mergeWithID_APIKey plan result :
  ModelProvider.APIKey (ModelProvider.mergeWithID plan result)
  = match activeProvider result with
    | Some provider => TfValue (ModelProvider.pr_APIKey provider)
    | None => ModelProvider.APIKey plan
    end.
Proof.
  unfold ModelProvider.mergeWithID, activeProvider.
  by destruct (ModelProvider.r_Type result).
Qed.

Lemma ModelProvider_mergeRead_APIKey state result :
  ModelProvider.APIKey (ModelProvider.mergeRead state result)
  = match activeProvider result with
    | Some provider => TfValue (ModelProvider.pr_APIKey provider)
    | None => ModelProvider.APIKey state
    end.
Proof.
  unfold ModelProvider.mergeRead, activeProvider.
  by destruct (ModelProvider.r_Type result).
Qed.

(** C2, amended.  After a successful Create, Read or Update the OAuth
    service's client_secret and the discovery provider's config are the
    locally supplied ones (the plan's for Create and Update, the state's
    for Read): the merge of the response never assigns them. *)
Theorem secret_fields_after_merge :
  (∀ client plan s,
      succeeded (exec (OAuthService.Create client plan) (fresh None)) s →
      OAuthService.ClientSecret s = OAuthService.ClientSecret plan)
  ∧ (∀ client state s,
      succeeded (exec (OAuthService.Read client state) (fresh (Some state))) s →
      OAuthService.ClientSecret s = OAuthService.ClientSecret state)
  ∧ (∀ client plan state s,
      succeeded (exec (OAuthService.Update client plan state) (fresh (Some state))) s →
      OAuthService.ClientSecret s = OAuthService.ClientSecret plan)
  ∧ (∀ client plan s,
      succeeded (exec (DiscoveryProvider.Create client plan) (fresh None)) s →
      DiscoveryProvider.Config s = DiscoveryProvider.Config plan)
  ∧ (∀ client state s,
      succeeded (exec (DiscoveryProvider.Read client state) (fresh (Some state))) s →
      DiscoveryProvider.Config s = DiscoveryProvider.Config state)
  ∧ (∀ client plan state s,
      succeeded (exec (DiscoveryProvider.Update client plan state)
                      (fresh (Some state))) s →
      DiscoveryProvider.Config s = DiscoveryProvider.Config plan).
Proof.
  unfold succeeded. split_and!.
  - intros client plan s [Hok Hs].
    destruct (OAuthService_Create_outcome client plan)
      as [[_ Herr]|(req & result & _ & Hw)]; [congruence|].
    rewrite Hw in Hs. by injection Hs as <-.
  - intros client state s [Hok Hs].
    destruct (OAuthService_Read_outcome client state)
      as [[_ Herr]|[[Hnone _]|(id & result & _ & _ & Hw)]]; [congruence..|].
    rewrite Hw in Hs. by injection Hs as <-.
  - intros client plan state s [Hok Hs].
    destruct (OAuthService_Update_outcome client plan state)
      as [(_ & _ & Herr)|(id & req & _ & _ & _ & [[_ Herr]|(result & _ & _ & Hw)])];
      [congruence..|].
    rewrite Hw in Hs. by injection Hs as <-.
  - intros client plan s [Hok Hs].
    destruct (DiscoveryProvider_Create_outcome client plan)
      as [[_ Herr]|(req & result & _ & Hw)]; [congruence|].
    rewrite Hw in Hs. by injection Hs as <-.
  - intros client state s [Hok Hs].
    destruct (DiscoveryProvider_Read_outcome client state)
      as [[_ Herr]|[[Hnone _]|(id & result & _ & _ & Hw)]]; [congruence..|].
    rewrite Hw in Hs. by injection Hs as <-.
  - intros client plan state s [Hok Hs].
    destruct (DiscoveryProvider_Update_outcome client plan state)
      as [(_ & _ & Herr)|(id & req & _ & _ & _ & [[_ Herr]|(result & _ & _ & Hw)])];
      [congruence..|].
    rewrite Hw in Hs. by injection Hs as <-.
Qed.

(** The model provider's api_key after a successful Create, Read or
    Update: whenever the response carries one of the three declared
    variants, it is the key in that variant's payload. *)
Lemma model_provider_api_key_from_response :
  (∀ client plan s,
      succeeded (exec (ModelProvider.Create client plan) (fresh None)) s →
      ∃ req result,
        ModelProvider.CreateModelprovider client req
          = Ok (ModelProvider.Create_ModelProviderResponse result)
        ∧ ModelProvider.APIKey s
          = match activeProvider result with
            | Some provider => TfValue (ModelProvider.pr_APIKey provider)
            | None => ModelProvider.APIKey plan
            end)
  ∧ (∀ client state s,
      succeeded (exec (ModelProvider.Read client state) (fresh (Some state))) s →
      ∃ id result,
        ModelProvider.GetModelprovider client id
          = Ok (ModelProvider.Get_ModelProviderResponse result)
        ∧ ModelProvider.APIKey s
          = match activeProvider result with
            | Some provider => TfValue (ModelProvider.pr_APIKey provider)
            | None => ModelProvider.APIKey state
            end)
  ∧ (∀ client plan state s,
      succeeded (exec (ModelProvider.Update client plan state) (fresh (Some state))) s →
      ∃ req id result,
        ModelProvider.UpdateModelprovider client req id
          = Ok (ModelProvider.Update_ModelProviderResponse result)
        ∧ ModelProvider.APIKey s
          = match activeProvider result with
            | Some provider => TfValue (ModelProvider.pr_APIKey provider)
            | None => ModelProvider.APIKey plan
            end).
Proof.
  unfold succeeded. split_and!.
  - intros client plan s [Hok Hs].
    destruct (ModelProvider_Create_outcome client plan)
      as [[_ Herr]|(req & result & _ & Hcall & Hw)]; [congruence|].
    rewrite Hw in Hs. injection Hs as <-.
    exists req, result. split; [done|]. apply ModelProvider_mergeWithID_APIKey.
  - intros client state s [Hok Hs].
    destruct (ModelProvider_Read_outcome client state)
      as [[_ Herr]|[[Hnone _]|(id & result & _ & Hcall & Hw)]]; [congruence..|].
    rewrite Hw in Hs. injection Hs as <-.
    exists id, result. split; [done|]. apply ModelProvider_mergeRead_APIKey.
  - intros client plan state s [Hok Hs].
    destruct (ModelProvider_Update_outcome client plan state)
      as [(_ & _ & Herr)|(id & _ & _ & [[_ Herr]|(result & Hcall & _ & Hw)])];
      [congruence..|].
    rewrite Hw in Hs. injection Hs as <-.
    eexists _, id, result. split; [done|]. apply ModelProvider_mergeWithID_APIKey.
Qed.

End Secrets.

Section SecretsOnInputs.
#[local] Existing Instance TestPlatform.

(** C2 as stated fails for the model provider: the plan supplies the key
    [k1], the server answers with a masked key, and the masked key is what
    Create persists. *)
Lemma secret_overwritten_counterexample :
  ModelProvider.APIKey mp_plan = TfValue "k1"
  ∧ exec (ModelProvider.Create mp_client mp_plan) (fresh None)
    = mkWorld []
        (Some (ModelProvider.mkModel (TfValue "0a1b2c3d-4e5f-4a6b-8c7d-8e9f0a1b2c3d") (TfValue "anthropic")
                 (TfValue "p1") (TfValue "****") (TfValue false)))
        [ModelProvider.CallCreateModelprovider
           (ModelProvider.mkCreate
              ModelProvider.AnthropicModelProviderCreateModelProviderCreateData
              (ModelProvider.mkProviderCreate "anthropic" "p1" "k1" (NewOpt false)))].
Proof. split; reflexivity. Qed.

Lemma secret_fields_after_merge_witness :
  OAuthService.ClientSecret
    (OAuthService.mergeCreate oauth_plan oauth_response) = TfValue "s3cret".
Proof.
  apply (proj1 (@secret_fields_after_merge TestPlatform) oauth_client oauth_plan).
  split; reflexivity.
Defined.

End SecretsOnInputs.

(** ** Create followed by Read *)

Section CreateThenRead.
Context `{Platform}.

Lemma ModelProvider_mergeRead_mergeWithID plan result :
  ModelProvider.mergeRead (ModelProvider.mergeWithID plan result) result
  = ModelProvider.mergeWithID plan result.
Proof.
  unfold ModelProvider.mergeRead, ModelProvider.mergeWithID,
    ModelProvider.assignRead, ModelProvider.assignWithID.
  destruct (ModelProvider.r_Type result); try done; simpl;
    by match goal with |- context [opt_Set ?o] => destruct (opt_Set o) end.
Qed.

Lemma MCPEndpoint_mergeRead_mergeCreate plan result :
  MCPEndpoint.mergeRead (MCPEndpoint.mergeCreate plan result) result
  = MCPEndpoint.mergeCreate plan result.
Proof.
  unfold MCPEndpoint.mergeRead, MCPEndpoint.mergeCreate, MCPEndpoint.mergeResponse,
    MCPEndpoint.with_ID, MCPEndpoint.ifSetBool; simpl.
  f_equal; by repeat case_match.
Qed.

Lemma Model_mergeResponse_idem plan result :
  Model.mergeResponse (Model.mergeResponse plan result) result
  = Model.mergeResponse plan result.
Proof. unfold Model.mergeResponse; simpl. f_equal; by repeat case_match. Qed.

Lemma ChatSuggestion_assignRead_mergeCreate plan result :
  ChatSuggestion.assignRead (ChatSuggestion.mergeCreate plan result) result
  = ChatSuggestion.mergeCreate plan result.
Proof.
  unfold ChatSuggestion.assignRead, ChatSuggestion.mergeCreate; simpl.
  f_equal; by repeat case_match.
Qed.

(** C5.  Create succeeds and persists [s1]; the response it received is
    [result].  Read is then run on [s1] and the remote answers the lookup
    of the stored identifier (the stored name for the model) with the same
    [result]; for the resources read by scanning a list, [result] is the
    first element of the list that carries the stored identifier.  Then
    Read succeeds and the record it persists is [s1] again: equal on
    every field, the secret ones included. *)
Theorem create_then_read_is_stable :
  (∀ client plan s1 req result id,
      exec (ModelProvider.Create client plan) (fresh None)
        = mkWorld [] (Some s1) [ModelProvider.CallCreateModelprovider req] →
      ModelProvider.CreateModelprovider client req
        = Ok (ModelProvider.Create_ModelProviderResponse result) →
      uuid_Parse (ValueOf (ModelProvider.ID s1)) = Ok id →
      ModelProvider.GetModelprovider client id
        = Ok (ModelProvider.Get_ModelProviderResponse result) →
      exec (ModelProvider.Read client s1) (fresh (Some s1))
        = mkWorld [] (Some s1) [ModelProvider.CallGetModelprovider id])
  ∧ (∀ client plan s1 req result id,
      exec (OAuthService.Create client plan) (fresh None)
        = mkWorld [] (Some s1) [OAuthService.CallCreateOAuthService req] →
      OAuthService.CreateOAuthService client req
        = Ok (OAuthService.Create_OAuthServiceResponse result) →
      uuid_Parse (ValueOf (OAuthService.ID s1)) = Ok id →
      OAuthService.GetOAuthService client id
        = Ok (OAuthService.Get_OAuthServiceResponse result) →
      exec (OAuthService.Read client s1) (fresh (Some s1))
        = mkWorld [] (Some s1) [OAuthService.CallGetOAuthService id])
  ∧ (∀ client plan s1 req result id,
      exec (MCPEndpoint.Create client plan) (fresh None)
        = mkWorld [] (Some s1) [MCPEndpoint.CallCreateMcpendpoint req] →
      MCPEndpoint.CreateMcpendpoint client req
        = Ok (MCPEndpoint.Create_MCPEndpointResponse result) →
      uuid_Parse (ValueOf (MCPEndpoint.ID s1)) = Ok id →
      MCPEndpoint.GetMcpendpoint client id
        = Ok (MCPEndpoint.Get_MCPEndpointResponse result) →
      exec (MCPEndpoint.Read client s1) (fresh (Some s1))
        = mkWorld [] (Some s1) [MCPEndpoint.CallGetMcpendpoint id])
  ∧ (∀ client plan s1 req result,
      exec (Model.Create client plan) (fresh None)
        = mkWorld [] (Some s1) [Model.CallCreateModel req] →
      Model.CreateModel client req = Ok (Model.Create_ModelResponse result) →
      Model.GetModel client (ValueOf (Model.Name s1))
        = Ok (Model.Get_ModelResponse result) →
      exec (Model.Read client s1) (fresh (Some s1))
        = mkWorld [] (Some s1) [Model.CallGetModel (ValueOf (Model.Name s1))])
  ∧ (∀ client plan s1 req result id,
      exec (DiscoveryProvider.Create client plan) (fresh None)
        = mkWorld [] (Some s1) [DiscoveryProvider.CallCreateConfiguredProvider req] →
      DiscoveryProvider.CreateConfiguredProvider client req
        = Ok (DiscoveryProvider.Create_ConfiguredProviderResponse result) →
      uuid_Parse (ValueOf (DiscoveryProvider.ID s1)) = Ok id →
      DiscoveryProvider.GetConfiguredProvider client id
        = Ok (DiscoveryProvider.Get_ConfiguredProviderResponse result) →
      exec (DiscoveryProvider.Read client s1) (fresh (Some s1))
        = mkWorld [] (Some s1) [DiscoveryProvider.CallGetConfiguredProvider id])
  ∧ (∀ client plan s1 req result pre post,
      exec (Environment.Create client plan) (fresh None)
        = mkWorld [] (Some s1) [Environment.CallCreateEnvironment req] →
      Environment.CreateEnvironment client req
        = Ok (Environment.Create_EnvironmentResponse result) →
      Environment.GetEnvironments client
        = Ok (Environment.Get_OKApplicationJSON (pre ++ result :: post)) →
      (∀ e, e ∈ pre →
         uuid_String (Environment.r_ID e) ≠ uuid_String (Environment.r_ID result)) →
      exec (Environment.Read client s1) (fresh (Some s1))
        = mkWorld [] (Some s1) [Environment.CallGetEnvironments])
  ∧ (∀ client plan s1 req result pre post,
      exec (ChatSuggestion.Create client plan) (fresh None)
        = mkWorld [] (Some s1) [ChatSuggestion.CallCreateChatSuggestion req] →
      ChatSuggestion.CreateChatSuggestion client req
        = Ok (ChatSuggestion.Create_ChatSuggestionResponse result) →
      uuid_Parse (uuid_String (ChatSuggestion.r_ID result))
        = Ok (ChatSuggestion.r_ID result) →
      ChatSuggestion.ListChatSuggestions client
        = Ok (ChatSuggestion.List_OKApplicationJSON (pre ++ result :: post)) →
      (∀ e, e ∈ pre → ChatSuggestion.r_ID e ≠ ChatSuggestion.r_ID result) →
      exec (ChatSuggestion.Read client s1) (fresh (Some s1))
        = mkWorld [] (Some s1) [ChatSuggestion.CallListChatSuggestions]).
Proof.
  split_and!.
  - intros client plan s1 req result id Hcreate Hresp Hid Hget.
    destruct (ModelProvider_Create_outcome client plan)
      as [[Hnone _]|(req' & result' & _ & Hresp' & Hw)];
      rewrite Hcreate in *; [done|].
    injection Hw as -> <-. rewrite Hresp in Hresp'. injection Hresp' as <-.
    unfold exec, ModelProvider.Read, op_bind, parseUUID; simpl.
    rewrite Hid; simpl. rewrite Hget; simpl.
    by rewrite ModelProvider_mergeRead_mergeWithID.
  - intros client plan s1 req result id Hcreate Hresp Hid Hget.
    destruct (OAuthService_Create_outcome client plan)
      as [[Hnone _]|(req' & result' & Hresp' & Hw)];
      rewrite Hcreate in *; [done|].
    injection Hw as -> <-. rewrite Hresp in Hresp'. injection Hresp' as <-.
    unfold exec, OAuthService.Read, op_bind, parseUUID; simpl in Hid |- *.
    rewrite Hid; simpl. by rewrite Hget.
  - intros client plan s1 req result id Hcreate Hresp Hid Hget.
    destruct (MCPEndpoint_Create_outcome client plan)
      as [[Hnone _]|(req' & result' & Hresp' & Hw)];
      rewrite Hcreate in *; [done|].
    injection Hw as -> <-. rewrite Hresp in Hresp'. injection Hresp' as <-.
    unfold exec, MCPEndpoint.Read, op_bind, parseUUID; simpl in Hid |- *.
    rewrite Hid; simpl. rewrite Hget; simpl.
    by rewrite MCPEndpoint_mergeRead_mergeCreate.
  - intros client plan s1 req result Hcreate Hresp Hget.
    destruct (Model_Create_outcome client plan)
      as [[Hnone _]|(req' & result' & Hresp' & Hw)];
      rewrite Hcreate in *; [done|].
    injection Hw as -> <-. rewrite Hresp in Hresp'. injection Hresp' as <-.
    unfold exec, Model.Read, op_bind; simpl. simpl in Hget.
    rewrite Hget; simpl.
    by rewrite Model_mergeResponse_idem.
  - intros client plan s1 req result id Hcreate Hresp Hid Hget.
    destruct (DiscoveryProvider_Create_outcome client plan)
      as [[Hnone _]|(req' & result' & Hresp' & Hw)];
      rewrite Hcreate in *; [done|].
    injection Hw as -> <-. rewrite Hresp in Hresp'. injection Hresp' as <-.
    unfold exec, DiscoveryProvider.Read, op_bind, parseUUID; simpl in Hid |- *.
    rewrite Hid; simpl. by rewrite Hget.
  - intros client plan s1 req result pre post Hcreate Hresp Hget Hpre.
    destruct (Environment_Create_outcome client plan)
      as [[Hnone _]|(req' & result' & Hresp' & Hw)];
      rewrite Hcreate in *; [done|].
    injection Hw as -> <-. rewrite Hresp in Hresp'. injection Hresp' as <-.
    unfold exec, Environment.Read, op_bind; simpl. rewrite Hget.
    by rewrite scanEnvironments_found.
  - intros client plan s1 req result pre post Hcreate Hresp Hid Hget Hpre.
    destruct (ChatSuggestion_Create_outcome client plan)
      as [[Hnone _]|(req' & result' & Hresp' & Hw)];
      rewrite Hcreate in *; [done|].
    injection Hw as -> <-. rewrite Hresp in Hresp'. injection Hresp' as <-.
    unfold exec, ChatSuggestion.Read, op_bind, parseUUID; simpl.
    rewrite Hid; simpl. rewrite Hget.
    rewrite scanSuggestions_found; [|done..]. simpl.
    by rewrite ChatSuggestion_assignRead_mergeCreate.
Qed.

End CreateThenRead.

Section CreateThenReadOnInputs.
#[local] Existing Instance TestPlatform.

(** The scenario of the specification: the anthropic provider. *)
Lemma create_then_read_witness :
  exec (ModelProvider.Read mp_client mp_state) (fresh (Some mp_state))
  = mkWorld [] (Some mp_state) [ModelProvider.CallGetModelprovider "0a1b2c3d-4e5f-4a6b-8c7d-8e9f0a1b2c3d"].
Proof.
  apply (proj1 (@create_then_read_is_stable TestPlatform)
               mp_client mp_plan mp_state
               (ModelProvider.mkCreate
                  ModelProvider.AnthropicModelProviderCreateModelProviderCreateData
                  (ModelProvider.mkProviderCreate "anthropic" "p1" "k1" (NewOpt false)))
               mp_response "0a1b2c3d-4e5f-4a6b-8c7d-8e9f0a1b2c3d"); reflexivity.
Defined.

End CreateThenReadOnInputs.

(** ** Validation of the discovery provider's configuration *)

Section ConfigValidation.
Context `{Platform}.
Import DiscoveryProvider.

Lemma encodeConfig_outcome validateMap configMap (w : World ResourceModel Call) :
  match encodeConfig validateMap configMap w with
  | (Some _, w') => w' = w
  | (None, w') =>
    ∃ detail,
      w' = mkWorld (diags_Append (w_Diagnostics w)
                      (ErrorDiagnostic "Error encoding config value" detail))
                   (w_State w) (w_Calls w)
  end.
Proof.
  revert configMap. induction validateMap as [|[key value] rest IH]; intros configMap.
  - done.
  - simpl. destruct (json_Marshal value) as [valueJSON|e]; [apply IH|].
    by eexists.
Qed.

(** C6, amended.  Create of devgraph_discovery_provider with a config
    text that is not valid JSON stops with the single diagnostic
    "Invalid Config JSON": no call has been made and no state is
    persisted.  The same happens for a valid JSON object in which the
    decoder saves an error (a number outside the float64 range); the
    diagnostic then quotes that error.  With a config text that is a valid
    JSON object and decodes without error, no "Invalid Config JSON"
    diagnostic is reported, whatever happens afterwards. *)
Theorem discovery_create_validates_config :
  (∀ client plan,
      Json.checkValid (ValueOf (Config plan)) = false →
      exec (Create client plan) (fresh None)
      = mkWorld [ErrorDiagnostic "Invalid Config JSON"
                   ("Could not parse config as JSON: "
                      ++ json_error (ValueOf (Config plan)))]
                None [])
  ∧ (∀ client plan e,
      Json.isObject (ValueOf (Config plan)) = true →
      json_decode_error (ValueOf (Config plan)) = Some e →
      exec (Create client plan) (fresh None)
      = mkWorld [ErrorDiagnostic "Invalid Config JSON"
                   ("Could not parse config as JSON: " ++ e)]
                None [])
  ∧ (∀ client plan,
      Json.isObject (ValueOf (Config plan)) = true →
      json_decode_error (ValueOf (Config plan)) = None →
      ∀ d, d ∈ w_Diagnostics (exec (Create client plan) (fresh None)) →
           diag_Summary d ≠ "Invalid Config JSON").
Proof.
  split_and!.
  - intros client plan Hbad.
    unfold exec, Create, op_bind, validateConfig; simpl.
    by rewrite json_Unmarshal_map_invalid.
  - intros client plan e Hobj He.
    unfold exec, Create, op_bind, validateConfig; simpl.
    by rewrite (json_Unmarshal_map_range _ e).
  - intros client plan Hobj Hdecoded. apply wp_exec. unfold Create.
    apply wp_bind; simpl. apply wp_bind. unfold validateConfig.
    rewrite json_Unmarshal_map_object by done. simpl.
    apply wp_bind.
    pose proof (encodeConfig_outcome (json_members (ValueOf (Config plan))) ∅
                                     (fresh None)) as Henc.
    destruct (encodeConfig _ _ _) as [[configMap|] w1].
    + subst w1. apply wp_bind_remote.
      match goal with
      | |- wp (match CreateConfiguredProvider client ?r with _ => _ end) _ _ =>
        destruct (CreateConfiguredProvider client r) as [[result| |goType]|e]
      end.
      * apply wp_StateSet. simpl. by intros d ?%elem_of_nil.
      * apply wp_fail. simpl. by intros d ->%list_elem_of_singleton.
      * apply wp_fail. simpl. by intros d ->%list_elem_of_singleton.
      * apply wp_fail. simpl. by intros d ->%list_elem_of_singleton.
    + destruct Henc as [detail ->]. simpl.
      by intros d ->%list_elem_of_singleton.
Qed.

End ConfigValidation.

Section ConfigValidationOnInputs.
#[local] Existing Instance TestPlatform.

(** C6 as stated fails: the text is a valid JSON object, and Create takes
    the validation branch, because decoding the number fails. *)
Lemma valid_object_rejected_counterexample :
  Json.isObject range_config = true
  ∧ exec (DiscoveryProvider.Create discovery_client (discovery_plan range_config))
         (fresh None)
    = mkWorld [ErrorDiagnostic "Invalid Config JSON"
                 "Could not parse config as JSON: json: cannot unmarshal number 1e999 into Go value of type float64"]
              None [].
Proof. split; vm_compute; reflexivity. Qed.

(** The scenario of the specification: the malformed text fails before any
    call; the token object is accepted and the record is persisted with
    the config as planned. *)
Lemma discovery_create_witness :
  exec (DiscoveryProvider.Create discovery_client (discovery_plan "{bad"))
       (fresh None)
  = mkWorld [ErrorDiagnostic "Invalid Config JSON"
               "Could not parse config as JSON: invalid character 'b' looking for beginning of object key string"]
            None []
  ∧ ∀ d, d ∈ w_Diagnostics
               (exec (DiscoveryProvider.Create discovery_client
                        (discovery_plan token_config)) (fresh None)) →
         diag_Summary d ≠ "Invalid Config JSON".
Proof.
  destruct (@discovery_create_validates_config TestPlatform) as (Hbad & _ & Hobj).
  split.
  - apply (Hbad discovery_client (discovery_plan "{bad")). vm_compute. reflexivity.
  - apply (Hobj discovery_client (discovery_plan token_config)).
    + vm_compute. reflexivity.
    + vm_compute. reflexivity.
Defined.

Example discovery_create_token :
  exec (DiscoveryProvider.Create discovery_client (discovery_plan token_config))
       (fresh None)
  = mkWorld []
      (Some (DiscoveryProvider.mkModel (TfValue "2c3d4e5f-6a7b-4c8d-8e9f-0a1b2c3d4e5f") (TfValue "GitHub Production")
               (TfValue "github") (TfValue true) (TfValue 300%Z)
               (TfValue token_config)))
      [DiscoveryProvider.CallCreateConfiguredProvider
         (DiscoveryProvider.mkCreate "GitHub Production" "github"
            {[ "token" := dquote ++ "t" ++ dquote ]}
            (NewOpt true) (NewOpt 300%Z))].
Proof. vm_compute. reflexivity. Qed.

End ConfigValidationOnInputs.

(** ** Unrecognised variant of a model-provider response *)

Section UnrecognisedVariant.
Context `{Platform}.

Lemma ModelProvider_merge_unrecognised plan result :
  activeProvider result = None →
  ModelProvider.mergeWithID plan result = plan
  ∧ ModelProvider.mergeRead plan result = plan.
Proof.
  unfold activeProvider, ModelProvider.mergeWithID, ModelProvider.mergeRead.
  by destruct (ModelProvider.r_Type result).
Qed.

End UnrecognisedVariant.

Section UnrecognisedVariantOnInputs.
#[local] Existing Instance TestPlatform.

(** C7, the code at the failing input.  The response carries a
    discriminator that is none of the three declared tags: Create, Read
    and Update report no diagnostic and persist the record they were
    given, with nothing merged into it (after Create the identifier is
    still unknown). *)
Theorem model_provider_unrecognised_tag_is_silent :
  exec (ModelProvider.Create mp_untagged_client mp_plan) (fresh None)
  = mkWorld [] (Some mp_plan)
      [ModelProvider.CallCreateModelprovider
         (ModelProvider.mkCreate
            ModelProvider.AnthropicModelProviderCreateModelProviderCreateData
            (ModelProvider.mkProviderCreate "anthropic" "p1" "k1" (NewOpt false)))]
  ∧ exec (ModelProvider.Read mp_untagged_client mp_state) (fresh (Some mp_state))
    = mkWorld [] (Some mp_state) [ModelProvider.CallGetModelprovider "0a1b2c3d-4e5f-4a6b-8c7d-8e9f0a1b2c3d"]
  ∧ exec (ModelProvider.Update mp_untagged_client mp_renamed mp_state)
         (fresh (Some mp_state))
    = mkWorld [] (Some mp_renamed)
        [ModelProvider.CallUpdateModelprovider
           (ModelProvider.mkUpdate (NewOptNil "p2") zero zero) "0a1b2c3d-4e5f-4a6b-8c7d-8e9f0a1b2c3d"].
Proof. split_and!; reflexivity. Qed.

End UnrecognisedVariantOnInputs.

(** ** Attributes that force replacement *)

(** C8, amended.  The OAuth service's name and the discovery provider's
    provider_type carry the RequiresReplace plan modifier, so a planned
    value that differs from the state's forces replacement. *)
Theorem immutable_attributes_require_replace :
  Schema.hasPlanModifier Schema.OAuthService "name" Schema.RequiresReplace = true
  ∧ Schema.hasPlanModifier Schema.DiscoveryProvider "provider_type"
      Schema.RequiresReplace = true
  ∧ (∀ plan state,
       Schema.forcesReplacement Schema.OAuthService "name" plan state
       = negb (Equal plan state))
  ∧ (∀ plan state,
       Schema.forcesReplacement Schema.DiscoveryProvider "provider_type" plan state
       = negb (Equal plan state)).
Proof.
  assert (Schema.hasPlanModifier Schema.OAuthService "name" Schema.RequiresReplace
          = true) as Ho by (vm_compute; reflexivity).
  assert (Schema.hasPlanModifier Schema.DiscoveryProvider "provider_type"
            Schema.RequiresReplace = true) as Hd by (vm_compute; reflexivity).
  split_and!; [done..| |]; intros plan state; unfold Schema.forcesReplacement.
  - by rewrite Ho.
  - by rewrite Hd.
Qed.

(** C8 as stated fails for the model provider: its type attribute has no
    plan modifier at all, and a changed type does not force replacement. *)
Lemma model_provider_type_counterexample :
  Schema.a_PlanModifiers <$> (Schema.ModelProvider !! "type") = Some []
  ∧ Schema.hasPlanModifier Schema.ModelProvider "type" Schema.RequiresReplace = false
  ∧ Schema.forcesReplacement Schema.ModelProvider "type"
      (TfValue "openai") (TfValue "anthropic") = false.
Proof. vm_compute. auto. Qed.

(** ** The records the operations persist are merges *)

Section PersistedRecords.
Context `{Platform}.

Lemma MCPEndpoint_Read_outcome client state :
  let w := exec (MCPEndpoint.Read client state) (fresh (Some state)) in
  (w_State w = Some state ∧ diags_HasError (w_Diagnostics w) = true)
  ∨ (w_State w = None ∧ w_Diagnostics w = [])
  ∨ ∃ id result,
      uuid_Parse (ValueOf (MCPEndpoint.ID state)) = Ok id
      ∧ MCPEndpoint.GetMcpendpoint client id
        = Ok (MCPEndpoint.Get_MCPEndpointResponse result)
      ∧ w = mkWorld [] (Some (MCPEndpoint.mergeRead state result))
                    [MCPEndpoint.CallGetMcpendpoint id].
Proof.
  apply wp_exec. unfold MCPEndpoint.Read.
  wp_quiet; [intros _ _|failed].
  wp_quiet; [intros id [_ Hid]%parseUUID_Some|failed].
  apply wp_bind_remote.
  destruct (MCPEndpoint.GetMcpendpoint client id) as [[|result|goType]|e] eqn:Hcall.
  - apply wp_removed. by right; left.
  - apply wp_StateSet. right; right. by exists id, result.
  - apply wp_fail. failed.
  - apply wp_fail. failed.
Qed.

Lemma Model_Read_outcome client state :
  let w := exec (Model.Read client state) (fresh (Some state)) in
  (w_State w = Some state ∧ diags_HasError (w_Diagnostics w) = true)
  ∨ (w_State w = None ∧ w_Diagnostics w = [])
  ∨ ∃ result,
      Model.GetModel client (ValueOf (Model.Name state))
        = Ok (Model.Get_ModelResponse result)
      ∧ w = mkWorld [] (Some (Model.mergeResponse state result))
                    [Model.CallGetModel (ValueOf (Model.Name state))].
Proof.
  apply wp_exec. unfold Model.Read.
  wp_quiet; [intros _ _|failed].
  apply wp_bind_remote.
  destruct (Model.GetModel client _) as [[|result|goType]|e] eqn:Hcall.
  - apply wp_removed. by right; left.
  - apply wp_StateSet. right; right. by exists result.
  - apply wp_fail. failed.
  - apply wp_fail. failed.
Qed.

Lemma scanSuggestions_outcome suggestions suggestionID state :
  match ChatSuggestion.scanSuggestions suggestions suggestionID state with
  | (state', true) =>
    ∃ suggestion,
      suggestion ∈ suggestions
      ∧ ChatSuggestion.r_ID suggestion = suggestionID
      ∧ state' = ChatSuggestion.assignRead state suggestion
  | (state', false) => state' = state
  end.
Proof.
  induction suggestions as [|s rest IH]; simpl; [done|].
  case_bool_decide as Hid.
  - exists s. split_and!; [left|done..].
  - destruct (ChatSuggestion.scanSuggestions rest suggestionID state)
      as [state' [|]]; [|done].
    destruct IH as (e & He & Hide & ->). exists e. split_and!; [by right|done..].
Qed.

Lemma ChatSuggestion_Read_outcome client state :
  let w := exec (ChatSuggestion.Read client state) (fresh (Some state)) in
  (w_State w = Some state ∧ diags_HasError (w_Diagnostics w) = true)
  ∨ (w_State w = None ∧ w_Diagnostics w = [])
  ∨ ∃ suggestions suggestion,
      ChatSuggestion.ListChatSuggestions client
        = Ok (ChatSuggestion.List_OKApplicationJSON suggestions)
      ∧ suggestion ∈ suggestions
      ∧ uuid_Parse (ValueOf (ChatSuggestion.ID state))
        = Ok (ChatSuggestion.r_ID suggestion)
      ∧ w = mkWorld [] (Some (ChatSuggestion.assignRead state suggestion))
                    [ChatSuggestion.CallListChatSuggestions].
Proof.
  apply wp_exec. unfold ChatSuggestion.Read.
  wp_quiet; [intros _ _|failed].
  wp_quiet; [intros id [_ Hid]%parseUUID_Some|failed].
  apply wp_bind_remote.
  destruct (ChatSuggestion.ListChatSuggestions client)
    as [[suggestions|goType]|e] eqn:Hcall.
  - pose proof (scanSuggestions_outcome suggestions id state) as Hscan.
    destruct (ChatSuggestion.scanSuggestions suggestions id state)
      as [state' [|]]; simpl.
    + destruct Hscan as (s & Hs & <- & ->).
      apply wp_StateSet. right; right. by exists suggestions, s.
    + apply wp_removed. by right; left.
  - apply wp_fail. failed.
  - apply wp_fail. failed.
Qed.

(** Whatever a successful Create, Read or Update of the model provider,
    the MCP endpoint, the model or the chat suggestion persists is the
    merge of the record it was given with a response the client
    returned. *)
Lemma persisted_records_are_merges :
  (∀ client plan s,
      succeeded (exec (ModelProvider.Create client plan) (fresh None)) s →
      ∃ req result,
        ModelProvider.CreateModelprovider client req
          = Ok (ModelProvider.Create_ModelProviderResponse result)
        ∧ s = ModelProvider.mergeWithID plan result)
  ∧ (∀ client state s,
      succeeded (exec (ModelProvider.Read client state) (fresh (Some state))) s →
      ∃ id result,
        ModelProvider.GetModelprovider client id
          = Ok (ModelProvider.Get_ModelProviderResponse result)
        ∧ s = ModelProvider.mergeRead state result)
  ∧ (∀ client plan state s,
      succeeded (exec (ModelProvider.Update client plan state) (fresh (Some state))) s →
      ∃ req id result,
        ModelProvider.UpdateModelprovider client req id
          = Ok (ModelProvider.Update_ModelProviderResponse result)
        ∧ s = ModelProvider.mergeWithID plan result)
  ∧ (∀ client plan s,
      succeeded (exec (MCPEndpoint.Create client plan) (fresh None)) s →
      ∃ req result,
        MCPEndpoint.CreateMcpendpoint client req
          = Ok (MCPEndpoint.Create_MCPEndpointResponse result)
        ∧ s = MCPEndpoint.mergeCreate plan result)
  ∧ (∀ client state s,
      succeeded (exec (MCPEndpoint.Read client state) (fresh (Some state))) s →
      ∃ id result,
        MCPEndpoint.GetMcpendpoint client id
          = Ok (MCPEndpoint.Get_MCPEndpointResponse result)
        ∧ s = MCPEndpoint.mergeRead state result)
  ∧ (∀ client plan state s,
      succeeded (exec (MCPEndpoint.Update client plan state) (fresh (Some state))) s →
      ∃ req id result,
        MCPEndpoint.UpdateMcpendpoint client req id
          = Ok (MCPEndpoint.Update_MCPEndpointResponse result)
        ∧ s = MCPEndpoint.mergeUpdate plan result)
  ∧ (∀ client plan s,
      succeeded (exec (Model.Create client plan) (fresh None)) s →
      ∃ req result,
        Model.CreateModel client req = Ok (Model.Create_ModelResponse result)
        ∧ s = Model.mergeResponse plan result)
  ∧ (∀ client state s,
      succeeded (exec (Model.Read client state) (fresh (Some state))) s →
      ∃ result,
        Model.GetModel client (ValueOf (Model.Name state))
          = Ok (Model.Get_ModelResponse result)
        ∧ s = Model.mergeResponse state result)
  ∧ (∀ client plan state s,
      succeeded (exec (Model.Update client plan state) (fresh (Some state))) s →
      ∃ req result,
        Model.UpdateModel client req (ValueOf (Model.Name state))
          = Ok (Model.Update_ModelResponse result)
        ∧ s = Model.mergeResponse plan result)
  ∧ (∀ client plan s,
      succeeded (exec (ChatSuggestion.Create client plan) (fresh None)) s →
      ∃ req result,
        ChatSuggestion.CreateChatSuggestion client req
          = Ok (ChatSuggestion.Create_ChatSuggestionResponse result)
        ∧ s = ChatSuggestion.mergeCreate plan result)
  ∧ (∀ client state s,
      succeeded (exec (ChatSuggestion.Read client state) (fresh (Some state))) s →
      ∃ suggestions suggestion,
        ChatSuggestion.ListChatSuggestions client
          = Ok (ChatSuggestion.List_OKApplicationJSON suggestions)
        ∧ suggestion ∈ suggestions
        ∧ s = ChatSuggestion.assignRead state suggestion).
Proof.
  unfold succeeded. split_and!.
  - intros client plan s [Hok Hs].
    destruct (ModelProvider_Create_outcome client plan)
      as [[_ Herr]|(req & result & _ & Hcall & Hw)]; [congruence|].
    rewrite Hw in Hs. injection Hs as <-. by exists req, result.
  - intros client state s [Hok Hs].
    destruct (ModelProvider_Read_outcome client state)
      as [[_ Herr]|[[Hnone _]|(id & result & _ & Hcall & Hw)]]; [congruence..|].
    rewrite Hw in Hs. injection Hs as <-. by exists id, result.
  - intros client plan state s [Hok Hs].
    destruct (ModelProvider_Update_outcome client plan state)
      as [(_ & _ & Herr)|(id & _ & _ & [[_ Herr]|(result & Hcall & _ & Hw)])];
      [congruence..|].
    rewrite Hw in Hs. injection Hs as <-. by eexists _, id, result.
  - intros client plan s [Hok Hs].
    destruct (MCPEndpoint_Create_outcome client plan)
      as [[_ Herr]|(req & result & Hcall & Hw)]; [congruence|].
    rewrite Hw in Hs. injection Hs as <-. by exists req, result.
  - intros client state s [Hok Hs].
    destruct (MCPEndpoint_Read_outcome client state)
      as [[_ Herr]|[[Hnone _]|(id & result & _ & Hcall & Hw)]]; [congruence..|].
    rewrite Hw in Hs. injection Hs as <-. by exists id, result.
  - intros client plan state s [Hok Hs].
    destruct (MCPEndpoint_Update_outcome client plan state)
      as [(_ & _ & Herr)|(id & req & _ & _ & _ & [[_ Herr]|(result & Hcall & _ & Hw)])];
      [congruence..|].
    rewrite Hw in Hs. injection Hs as <-. by exists req, id, result.
  - intros client plan s [Hok Hs].
    destruct (Model_Create_outcome client plan)
      as [[_ Herr]|(req & result & Hcall & Hw)]; [congruence|].
    rewrite Hw in Hs. injection Hs as <-. by exists req, result.
  - intros client state s [Hok Hs].
    destruct (Model_Read_outcome client state)
      as [[_ Herr]|[[Hnone _]|(result & Hcall & Hw)]]; [congruence..|].
    rewrite Hw in Hs. injection Hs as <-. by exists result.
  - intros client plan state s [Hok Hs].
    destruct (Model_Update_outcome client plan state)
      as [(_ & _ & Herr)|(req & _ & _ & [[_ Herr]|(result & Hcall & _ & Hw)])];
      [congruence..|].
    rewrite Hw in Hs. injection Hs as <-. by exists req, result.
  - intros client plan s [Hok Hs].
    destruct (ChatSuggestion_Create_outcome client plan)
      as [[_ Herr]|(req & result & Hcall & Hw)]; [congruence|].
    rewrite Hw in Hs. injection Hs as <-. by exists req, result.
  - intros client state s [Hok Hs].
    destruct (ChatSuggestion_Read_outcome client state)
      as [[_ Herr]|[[Hnone _]|(l & e & Hcall & He & _ & Hw)]]; [congruence..|].
    rewrite Hw in Hs. injection Hs as <-. by exists l, e.
Qed.

End PersistedRecords.

(** ** Optional response fields *)

Section OptionalFields.
Context `{Platform}.

(** C9.  The merge of a response into the plan or state record keeps an
    attribute as it was whenever the response leaves the matching optional
    field unset, so only a set field can overwrite it: the model
    provider's default; the MCP endpoint's description, headers,
    devgraph_auth, supports_resources, immutable, active and
    oauth_service_id (Update merges the description only and keeps the
    others whatever the response holds); the model's description and
    default; the chat suggestion's active.  By
    [persisted_records_are_merges] these merges are what a successful
    Create, Read or Update persists. *)
Theorem unset_optional_keeps_prior_value :
  (∀ plan result,
      (∀ p, activeProvider result = Some p →
            opt_Set (ModelProvider.pr_Default p) = false) →
      ModelProvider.Default (ModelProvider.mergeWithID plan result)
        = ModelProvider.Default plan
      ∧ ModelProvider.Default (ModelProvider.mergeRead plan result)
        = ModelProvider.Default plan)
  ∧ (∀ m result,
      let created := MCPEndpoint.mergeCreate m result in
      let read := MCPEndpoint.mergeRead m result in
      let updated := MCPEndpoint.mergeUpdate m result in
      (on_Set (MCPEndpoint.r_Description result) = false →
         MCPEndpoint.Description created = MCPEndpoint.Description m
         ∧ MCPEndpoint.Description read = MCPEndpoint.Description m
         ∧ MCPEndpoint.Description updated = MCPEndpoint.Description m)
      ∧ (opt_Set (MCPEndpoint.r_Headers result) = false →
         MCPEndpoint.Headers created = MCPEndpoint.Headers m
         ∧ MCPEndpoint.Headers read = MCPEndpoint.Headers m)
      ∧ (opt_Set (MCPEndpoint.r_DevgraphAuth result) = false →
         MCPEndpoint.DevgraphAuth created = MCPEndpoint.DevgraphAuth m
         ∧ MCPEndpoint.DevgraphAuth read = MCPEndpoint.DevgraphAuth m)
      ∧ (opt_Set (MCPEndpoint.r_SupportsResources result) = false →
         MCPEndpoint.SupportsResources created = MCPEndpoint.SupportsResources m
         ∧ MCPEndpoint.SupportsResources read = MCPEndpoint.SupportsResources m)
      ∧ (opt_Set (MCPEndpoint.r_Immutable result) = false →
         MCPEndpoint.Immutable created = MCPEndpoint.Immutable m
         ∧ MCPEndpoint.Immutable read = MCPEndpoint.Immutable m)
      ∧ (opt_Set (MCPEndpoint.r_Active result) = false →
         MCPEndpoint.Active created = MCPEndpoint.Active m
         ∧ MCPEndpoint.Active read = MCPEndpoint.Active m)
      ∧ (on_Set (MCPEndpoint.r_OAuthServiceID result) = false →
         MCPEndpoint.OAuthServiceID created = MCPEndpoint.OAuthServiceID m
         ∧ MCPEndpoint.OAuthServiceID read = MCPEndpoint.OAuthServiceID m)
      ∧ MCPEndpoint.Headers updated = MCPEndpoint.Headers m
      ∧ MCPEndpoint.DevgraphAuth updated = MCPEndpoint.DevgraphAuth m
      ∧ MCPEndpoint.SupportsResources updated = MCPEndpoint.SupportsResources m
      ∧ MCPEndpoint.Immutable updated = MCPEndpoint.Immutable m
      ∧ MCPEndpoint.Active updated = MCPEndpoint.Active m
      ∧ MCPEndpoint.OAuthServiceID updated = MCPEndpoint.OAuthServiceID m)
  ∧ (∀ m result,
      (on_Set (Model.r_Description result) = false →
         Model.Description (Model.mergeResponse m result) = Model.Description m)
      ∧ (opt_Set (Model.r_Default result) = false →
         Model.Default (Model.mergeResponse m result) = Model.Default m))
  ∧ (∀ m result,
      opt_Set (ChatSuggestion.r_Active result) = false →
      ChatSuggestion.Active (ChatSuggestion.mergeCreate m result)
        = ChatSuggestion.Active m
      ∧ ChatSuggestion.Active (ChatSuggestion.assignRead m result)
        = ChatSuggestion.Active m).
Proof.
  split_and!.
  - intros plan result Hunset.
    unfold ModelProvider.mergeWithID, ModelProvider.mergeRead.
    unfold activeProvider in Hunset.
    destruct (ModelProvider.r_Type result); simpl; try done;
      by rewrite (Hunset _ eq_refl).
  - intros m result created read updated. subst created read updated.
    unfold MCPEndpoint.mergeCreate, MCPEndpoint.mergeRead, MCPEndpoint.mergeUpdate,
      MCPEndpoint.mergeResponse, MCPEndpoint.ifSetBool; simpl.
    split_and!; try done; by intros ->.
  - intros m result. unfold Model.mergeResponse; simpl.
    split; by intros ->.
  - intros m result. unfold ChatSuggestion.mergeCreate, ChatSuggestion.assignRead;
      simpl. by intros ->.
Qed.

End OptionalFields.

Section OptionalFieldsOnInputs.
#[local] Existing Instance TestPlatform.

Lemma unset_optional_witness :
  Model.Description (Model.mergeResponse model_renamed model_response)
    = TfValue "general purpose"
  ∧ Model.Default (Model.mergeResponse model_renamed model_response)
    = TfValue false.
Proof.
  destruct (@unset_optional_keeps_prior_value TestPlatform) as (_ & _ & Hmodel & _).
  destruct (Hmodel model_renamed model_response) as [Hdesc Hdef].
  split; [apply Hdesc|apply Hdef]; reflexivity.
Defined.

End OptionalFieldsOnInputs.

(** ** The model's name in Update *)

Section ModelName.
Context `{Platform}.
Import Model.

(** C10.  Update of devgraph_model issues at most one call, an update
    addressed by the name in the prior state.  Its payload has the three
    fields description, provider_id and default and nothing else, each
    sent only when plan and state differ on it; the planned name is part
    of neither the payload nor the address.  When plan and state agree on
    those three attributes (so that at most the name differs), the payload
    is empty. *)
Theorem model_update_ignores_planned_name :
  ∀ client plan state,
    let w := exec (Update client plan state) (fresh (Some state)) in
    (w_Calls w = []
     ∨ ∃ req, w_Calls w = [CallUpdateModel req (ValueOf (Name state))]
              ∧ Model_sends_diff plan state req)
    ∧ (Description plan = Description state →
       ProviderID plan = ProviderID state →
       Default plan = Default state →
       w_Calls w = [CallUpdateModel Model_emptyUpdate (ValueOf (Name state))]).
Proof.
  intros client plan state w. subst w. split.
  - destruct (Model_Update_outcome client plan state)
      as [(Hnone & _)|(req & Hreq & Hcalls & _)]; [by left|].
    right. exists req. split; [done|]. by eapply Model_updateReqOf_Some.
  - intros Hdesc Hprov Hdef.
    unfold exec, Update, updateReqOf, op_bind, Equal; simpl.
    rewrite !bool_decide_eq_true_2 by done. simpl.
    by destruct (UpdateModel client _ _) as [[result|goType]|e].
Qed.

End ModelName.

Section ModelNameOnInputs.
#[local] Existing Instance TestPlatform.

(** A plan that changes only the name: the empty payload goes to the old
    name. *)
Lemma model_update_witness :
  w_Calls (exec (Model.Update model_client model_renamed model_state)
                (fresh (Some model_state)))
  = [Model.CallUpdateModel Model_emptyUpdate "gpt-4"].
Proof.
  apply (proj2 (@model_update_ignores_planned_name TestPlatform
                  model_client model_renamed model_state)); reflexivity.
Defined.

End ModelNameOnInputs.

(** * Further properties *)

(** ** Calls, errors and state across all operations *)

#[global] Hint Resolve OAuthService_quiet_optURL OAuthService_quiet_optStringArray
  OAuthService_quiet_updateReqOf MCPEndpoint_quiet_optUUID
  MCPEndpoint_quiet_optStringArray MCPEndpoint_quiet_updateReqOf
  Model_quiet_updateReqOf DiscoveryProvider_quiet_validateConfig
  DiscoveryProvider_quiet_encodeConfig DiscoveryProvider_quiet_updateReqOf : quiet.

Section Tidy.
Context {M C : Type}.
Implicit Types w : World M C.

Lemma wp_ret {A} (a : A) w (Q : World M C → Prop) : Q w → wp (@op_ret M C A a) w Q.
Proof. done. Qed.

Lemma tidy_before_call (st : option M) w :
  w_State w = st → w_Calls w = [] → diags_HasError (w_Diagnostics w) = true →
  tidy st w.
Proof.
  intros Hst Hcalls Herr. unfold tidy. rewrite Hcalls, Herr. simpl.
  split_and!; [lia|done|done].
Qed.

Lemma tidy_failed (st : option M) summary detail (c : C) :
  tidy st (mkWorld (diags_Append [] (ErrorDiagnostic summary detail)) st [c]).
Proof.
  unfold tidy. cbn [w_Diagnostics w_State w_Calls].
  rewrite diags_HasError_Append. simpl. split_and!; [lia|done|done].
Qed.

Lemma tidy_done (st st' : option M) (c : C) : tidy st (mkWorld [] st' [c]).
Proof. unfold tidy. simpl. split_and!; [lia|done|done]. Qed.

End Tidy.

(** Walks through a method body: quiet prefixes, the call, and the cases
    on its answer. *)
Ltac tidy_walk :=
  repeat first
    [ apply wp_bind_quiet;
      [ solve [auto 20 with quiet]
      | intros ? _
      | intros ? ? ? ?; by apply tidy_before_call ]
    | apply wp_bind_remote
    | apply wp_StateSet; apply tidy_done
    | apply wp_removed; apply tidy_done
    | apply wp_ret; apply tidy_done
    | apply wp_fail; apply tidy_failed
    | case_match ].

Section TidyOperations.
Context `{Platform}.

Lemma every_operation_is_tidy : every_operation (@tidy).
Proof.
  unfold every_operation. split_and!; intros; apply wp_exec.
  - unfold ModelProvider.Create. tidy_walk.
  - unfold ModelProvider.Read. tidy_walk.
  - unfold ModelProvider.Update. tidy_walk.
  - unfold ModelProvider.Delete. tidy_walk.
  - unfold OAuthService.Create. tidy_walk.
  - unfold OAuthService.Read. tidy_walk.
  - unfold OAuthService.Update. tidy_walk.
  - unfold OAuthService.Delete. tidy_walk.
  - unfold MCPEndpoint.Create. tidy_walk.
  - unfold MCPEndpoint.Read. tidy_walk.
  - unfold MCPEndpoint.Update. tidy_walk.
  - unfold MCPEndpoint.Delete. tidy_walk.
  - unfold Model.Create. tidy_walk.
  - unfold Model.Read. tidy_walk.
  - unfold Model.Update. tidy_walk.
  - unfold Model.Delete. tidy_walk.
  - unfold DiscoveryProvider.Create. tidy_walk.
  - unfold DiscoveryProvider.Read. tidy_walk.
  - unfold DiscoveryProvider.Update. tidy_walk.
  - unfold DiscoveryProvider.Delete. tidy_walk.
  - unfold Environment.Create. tidy_walk.
  - unfold Environment.Read. tidy_walk.
  - unfold ChatSuggestion.Create. tidy_walk.
  - unfold ChatSuggestion.Read. tidy_walk.
  - unfold ChatSuggestion.Delete. tidy_walk.
Qed.

End TidyOperations.

Section OperationInvariants.
Context `{Platform}.

Lemma every_operation_impl (P Q : ∀ M C : Type, option M → World M C → Prop) :
  (∀ M C st w, P M C st w → Q M C st w) →
  every_operation P → every_operation Q.
Proof.
  intros HPQ HP. unfold every_operation in *.
  repeat match goal with
         | H : _ ∧ _ |- _ => destruct H
         end.
  split_and!; intros; apply HPQ; auto.
Qed.

(** X1.  No lifecycle operation of any resource makes more than one
    remote call. *)
Theorem operations_make_at_most_one_call :
  every_operation (λ M C st w, (length (w_Calls w) ≤ 1)%nat).
Proof.
  apply (every_operation_impl (@tidy)); [|apply every_operation_is_tidy].
  by intros M C st w (? & _).
Qed.

(** X2.  An operation that ends with an error diagnostic leaves the state
    of the response exactly as it found it: nothing is persisted by a
    failed Create, and a failed Read, Update or Delete keeps the prior
    state. *)
Theorem failed_operations_keep_state :
  every_operation
    (λ M C st w, diags_HasError (w_Diagnostics w) = true → w_State w = st).
Proof.
  apply (every_operation_impl (@tidy)); [|apply every_operation_is_tidy].
  by intros M C st w (_ & ? & _).
Qed.

(** X3.  An operation that ends without an error diagnostic has made
    exactly one remote call and has reported no diagnostic at all. *)
Theorem successful_operations_made_one_call :
  every_operation
    (λ M C st w,
       diags_HasError (w_Diagnostics w) = false →
       w_Diagnostics w = [] ∧ length (w_Calls w) = 1%nat).
Proof.
  apply (every_operation_impl (@tidy)); [|apply every_operation_is_tidy].
  by intros M C st w (_ & _ & ?).
Qed.

End OperationInvariants.

Section OperationInvariantsOnInputs.
#[local] Existing Instance TestPlatform.

Lemma failed_operations_keep_state_witness :
  w_State (exec (ModelProvider.Update mp_failing_client mp_renamed mp_state)
                (fresh (Some mp_state)))
  = Some mp_state.
Proof.
  destruct (@failed_operations_keep_state TestPlatform) as (_ & _ & Hupdate & _).
  apply (Hupdate mp_failing_client mp_renamed mp_state). reflexivity.
Defined.

Lemma successful_operations_made_one_call_witness :
  w_Diagnostics (exec (ModelProvider.Read mp_client mp_state) (fresh (Some mp_state)))
  = []
  ∧ length (w_Calls (exec (ModelProvider.Read mp_client mp_state)
                          (fresh (Some mp_state)))) = 1%nat.
Proof.
  destruct (@successful_operations_made_one_call TestPlatform) as (_ & Hread & _).
  apply (Hread mp_client mp_state). reflexivity.
Defined.

End OperationInvariantsOnInputs.

(** ** The provider's Configure *)

Section ProviderConfigure.
Context {Cl : Type}.
Variable NewClient :
  string → Provider.devgraphSecuritySource → Provider.Transport → GoResult Cl.

Lemma Provider_Configure_data Getenv config :
  let resp := Provider.Configure Getenv NewClient config freshConfigure in
  (Provider.HasError (Provider.cr_Diagnostics resp) = true →
   Provider.ResourceData resp = Provider.AnyNil)
  ∧ (Provider.HasError (Provider.cr_Diagnostics resp) = false →
     ∃ client, Provider.ResourceData resp = Provider.AnyClient client).
Proof.
  intros resp. subst resp. unfold Provider.Configure. simpl.
  destruct (String.eqb _ ""); destruct (String.eqb _ ""); simpl; try done.
  destruct (NewClient _ _ _) as [client|e]; simpl; [|done].
  split; [done|]. by eauto.
Qed.

(** X4.  Settings written in the provider configuration take precedence
    over the environment variables.  When host, access_token and
    environment are all non-null in the configuration, Configure does the
    same whatever the environment variables hold; a null setting behaves
    exactly as if the value of its environment variable had been written
    in the configuration.  A setting that is present but unknown or empty
    is not replaced by the environment variable: an unknown host is
    reported as missing even when DEVGRAPH_HOST is set, and no client is
    handed out. *)
Theorem configuration_overrides_environment :
  (∀ Getenv1 Getenv2 config resp,
      IsNull (Provider.Host config) = false →
      IsNull (Provider.AccessToken config) = false →
      IsNull (Provider.Environment config) = false →
      Provider.Configure Getenv1 NewClient config resp
      = Provider.Configure Getenv2 NewClient config resp)
  ∧ (∀ Getenv config resp,
      Provider.Configure Getenv NewClient config resp
      = Provider.Configure Getenv NewClient
          (Provider.mkConfig
             (TfValue (Provider.setting Getenv "DEVGRAPH_HOST" (Provider.Host config)))
             (TfValue (Provider.setting Getenv "DEVGRAPH_ACCESS_TOKEN"
                         (Provider.AccessToken config)))
             (TfValue (Provider.setting Getenv "DEVGRAPH_ENVIRONMENT"
                         (Provider.Environment config))))
          resp)
  ∧ (∀ Getenv config,
      Provider.Host config = TfUnknown ∨ Provider.Host config = TfValue "" →
      let resp := Provider.Configure Getenv NewClient config freshConfigure in
      Provider.MissingHost ∈ Provider.cr_Diagnostics resp
      ∧ Provider.ResourceData resp = Provider.AnyNil).
Proof.
  split_and!.
  - intros Getenv1 Getenv2 config resp Hh Ha He.
    unfold Provider.Configure, Provider.setting. by rewrite Hh, Ha, He.
  - intros Getenv config resp. done.
  - intros Getenv config Hhost resp. subst resp.
    unfold Provider.Configure, Provider.setting.
    assert (IsNull (Provider.Host config) = false
            ∧ ValueOf (Provider.Host config) = "") as [-> ->]
      by (by destruct Hhost as [-> | ->]).
    simpl.
    destruct (String.eqb _ ""); simpl; (split; [|done]).
    + apply list_elem_of_here.
    + apply list_elem_of_here.
Qed.

(** X5.  Run on the framework's response, Configure hands a client to the
    resources exactly when the resolved host and access token are both
    non-empty and the client constructor succeeds, and that client is
    built for the resolved host, token and transport; data sources get
    the same client.  A missing host and a missing token are reported
    together, the host first; whenever an error is reported no client is
    handed out. *)
Theorem configure_hands_out_client :
  ∀ Getenv config,
    let host := Provider.setting Getenv "DEVGRAPH_HOST" (Provider.Host config) in
    let accessToken :=
      Provider.setting Getenv "DEVGRAPH_ACCESS_TOKEN" (Provider.AccessToken config) in
    let environment :=
      Provider.setting Getenv "DEVGRAPH_ENVIRONMENT" (Provider.Environment config) in
    let resp := Provider.Configure Getenv NewClient config freshConfigure in
    (∀ client,
        Provider.ResourceData resp = Provider.AnyClient client
        ↔ host ≠ "" ∧ accessToken ≠ ""
          ∧ NewClient host (Provider.mkSecuritySource accessToken)
                      (Provider.clientTransport accessToken environment)
            = Ok client)
    ∧ Provider.DataSourceData resp = Provider.ResourceData resp
    ∧ (host = "" → accessToken = "" →
       Provider.cr_Diagnostics resp
       = [Provider.MissingHost; Provider.MissingAccessToken])
    ∧ (Provider.HasError (Provider.cr_Diagnostics resp) = true →
       Provider.ResourceData resp = Provider.AnyNil)
    ∧ (Provider.HasError (Provider.cr_Diagnostics resp) = false →
       Provider.cr_Diagnostics resp = []
       ∧ ∃ client, Provider.ResourceData resp = Provider.AnyClient client).
Proof.
  intros Getenv config host accessToken environment resp.
  subst resp. unfold Provider.Configure. fold host accessToken environment.
  simpl.
  destruct (String.eqb_spec host "") as [Hh|Hh];
    destruct (String.eqb_spec accessToken "") as [Ha|Ha]; simpl.
  - split_and!; try done. intros client; split; [done|]. by intros (? & _).
  - split_and!; try done. intros client; split; [done|]. by intros (? & _).
  - split_and!; try done. intros client; split; [done|]. by intros (_ & ? & _).
  - destruct (NewClient host _ _) as [client|e] eqn:Hnew; simpl.
    + split_and!; try done; [|by eauto].
      intros c; split; [by intros [= ->]|by intros (_ & _ & [= ->])].
    + split_and!; try done. by intros c; split; [|intros (_ & _ & ?)].
Qed.

End ProviderConfigure.

Section ProviderConfigureOnInputs.

Lemma configuration_overrides_environment_witness :
  Provider.Configure sample_Getenv sample_NewClient
    (Provider.mkConfig (TfValue "https://api.devgraph.ai") (TfValue "tok-9") (TfValue ""))
    freshConfigure
  = Provider.Configure (λ _, "") sample_NewClient
      (Provider.mkConfig (TfValue "https://api.devgraph.ai") (TfValue "tok-9") (TfValue ""))
      freshConfigure
  ∧ Provider.MissingHost
      ∈ Provider.cr_Diagnostics
          (Provider.Configure sample_Getenv sample_NewClient
             (Provider.mkConfig TfUnknown TfNull TfNull) freshConfigure).
Proof.
  destruct (configuration_overrides_environment sample_NewClient)
    as (Hsame & _ & Hunknown).
  split.
  - apply Hsame; reflexivity.
  - apply (Hunknown sample_Getenv (Provider.mkConfig TfUnknown TfNull TfNull)).
    by left.
Defined.

Lemma configure_hands_out_client_witness :
  Provider.ResourceData
    (Provider.Configure sample_Getenv sample_NewClient sample_config freshConfigure)
  = Provider.AnyClient
      ("https://api.devgraph.ai",
       Provider.environmentTransport
         (Provider.OAuth2Transport (Provider.mkToken "tok-123" "Bearer")) "acme").
Proof.
  destruct (configure_hands_out_client sample_NewClient sample_Getenv sample_config)
    as (Hclient & _).
  apply Hclient. split_and!; [discriminate|discriminate|reflexivity].
Defined.

End ProviderConfigureOnInputs.

(** ** The HTTP transport of the configured client *)

Section ProviderTransport.
Context {Rest Response : Type}.
Variable oauth2RoundTrip :
  Provider.Token → Provider.Request Rest → GoResult Response.

(** X6.  Every request sent through the transport that Configure builds
    reaches the OAuth2 transport with the access token as a Bearer token.
    With a non-empty environment the request carries exactly one
    Devgraph-Environment value, the configured one, replacing whatever the
    caller had set; with an empty environment that header is left as it
    was.  All other headers and the rest of the request are untouched. *)
Theorem configured_transport_stamps_environment :
  ∀ accessToken environment req,
  ∃ req',
    Provider.RoundTrip oauth2RoundTrip
      (Provider.clientTransport accessToken environment) req
    = oauth2RoundTrip (Provider.mkToken accessToken "Bearer") req'
    ∧ Provider.rest req' = Provider.rest req
    ∧ (∀ key, key ≠ "Devgraph-Environment" →
         Provider.Header req' !! key = Provider.Header req !! key)
    ∧ Provider.Header req' !! "Devgraph-Environment"
      = (if String.eqb environment "" then
           Provider.Header req !! "Devgraph-Environment"
         else Some [environment]).
Proof.
  intros accessToken environment req. unfold Provider.clientTransport.
  destruct (String.eqb environment "") eqn:Henv; simpl.
  - exists req. by split_and!.
  - rewrite Henv. simpl. eexists. split; [reflexivity|]. simpl.
    unfold Provider.Header_Set. split_and!; [done| |].
    + intros key Hkey. by rewrite lookup_insert_ne.
    + by rewrite lookup_insert_eq.
Qed.

End ProviderTransport.

Section ProviderTransportOnInputs.

Lemma configured_transport_stamps_environment_witness :
  ∃ req',
    Provider.RoundTrip sample_oauth2RoundTrip
      (Provider.clientTransport "tok-123" "acme") sample_request
    = Ok (Provider.mkToken "tok-123" "Bearer", req')
    ∧ Provider.Header req' !! "Accept" = Some ["application/json"]
    ∧ Provider.Header req' !! "Devgraph-Environment" = Some ["acme"].
Proof.
  destruct (configured_transport_stamps_environment sample_oauth2RoundTrip
              "tok-123" "acme" sample_request)
    as (req' & Hsent & _ & Hother & Henv).
  exists req'. split_and!.
  - exact Hsent.
  - rewrite Hother; [reflexivity|discriminate].
  - exact Henv.
Defined.

End ProviderTransportOnInputs.

(** ** From the provider's Configure to each resource's Configure *)

Section ResourceConfigure.
Context {Cl : Type}.
Variable Getenv : string → string.
Variable NewClient :
  string → Provider.devgraphSecuritySource → Provider.Transport → GoResult Cl.

(** X7.  Handed what the provider's Configure produced, a resource's
    Configure never reports a diagnostic: it stores the client when the
    provider built one, and leaves its client as it was when the provider
    reported an error (or has not been configured yet).  The
    "Unexpected Resource Configure Type" error needs provider data of a
    foreign type, which this provider never produces; it then leaves the
    resource's client unchanged. *)
Theorem resources_accept_provider_data :
  ∀ config r_client diags,
    let resp := Provider.Configure Getenv NewClient config freshConfigure in
    snd (Provider.ResourceConfigure (Provider.ResourceData resp) r_client diags)
    = diags
    ∧ (∀ client,
         Provider.ResourceData resp = Provider.AnyClient client →
         fst (Provider.ResourceConfigure (Provider.ResourceData resp)
                r_client diags) = Some client)
    ∧ (Provider.HasError (Provider.cr_Diagnostics resp) = true →
       fst (Provider.ResourceConfigure (Provider.ResourceData resp)
              r_client diags) = r_client)
    ∧ (∀ goType,
         let r := Provider.ResourceConfigure (Provider.AnyOther goType)
                    r_client diags in
         fst r = r_client ∧ diags_HasError (snd r) = true).
Proof.
  intros config r_client diags resp.
  destruct (Provider_Configure_data NewClient Getenv config) as (Herr & Hok).
  fold resp in Herr, Hok.
  split_and!.
  - destruct (Provider.HasError (Provider.cr_Diagnostics resp)).
    + by rewrite Herr.
    + destruct Hok as (client & ->); done.
  - by intros client ->.
  - intros Hfailed. by rewrite Herr.
  - intros goType r. subst r. simpl. split; [done|].
    apply diags_HasError_Append.
Qed.

End ResourceConfigure.

Section ResourceConfigureOnInputs.

Lemma resources_accept_provider_data_witness :
  fst (Provider.ResourceConfigure
         (Provider.ResourceData
            (Provider.Configure sample_Getenv sample_NewClient sample_config
               freshConfigure))
         None [])
  = Some ("https://api.devgraph.ai",
          Provider.environmentTransport
            (Provider.OAuth2Transport (Provider.mkToken "tok-123" "Bearer"))
            "acme").
Proof.
  destruct (resources_accept_provider_data sample_Getenv sample_NewClient
              sample_config None [])
    as (_ & Hclient & _).
  apply Hclient. reflexivity.
Defined.

End ResourceConfigureOnInputs.

(** ** Resource registration and type names *)

Lemma string_app_inv_head (p a b : string) : p ++ a = p ++ b → a = b.
Proof. induction p as [|c p IH]; simpl; [done|]. intros [= ?]. auto. Qed.

(** X8.  The provider registers every resource type, each once, and for
    any provider type name the resource type names are pairwise distinct;
    for this provider they are the seven devgraph_ names. *)
Theorem resource_type_names_distinct :
  NoDup Provider.Resources
  ∧ (∀ r, r ∈ Provider.Resources)
  ∧ (∀ ProviderTypeName,
       NoDup ((λ r, Provider.Metadata r ProviderTypeName) <$> Provider.Resources))
  ∧ (λ r, Provider.Metadata r Provider.TypeName) <$> Provider.Resources
    = ["devgraph_environment"; "devgraph_mcp_endpoint";
       "devgraph_model_provider"; "devgraph_model"; "devgraph_oauth_service";
       "devgraph_discovery_provider"; "devgraph_chat_suggestion"].
Proof.
  assert (NoDup Provider.Resources) as Hnodup
    by (apply (bool_decide_unpack _); vm_compute; exact I).
  split_and!; [done| | |done].
  - intros r. unfold Provider.Resources. destruct r; set_solver.
  - intros name. apply NoDup_fmap_2_strong; [|done].
    intros r1 r2 _ _ Heq.
    destruct r1, r2; try reflexivity; simpl in Heq;
      apply string_app_inv_head in Heq; discriminate.
Qed.

(** ** Schemas and the structs decoded from them *)

(** X9.  For every resource and for the provider, the schema declares
    exactly the attributes that the model struct has fields for: the
    struct's tfsdk tags are distinct, each tag is a declared attribute of
    the field's type, and no declared attribute lacks a field.  Every
    declared attribute satisfies the framework's rules on required,
    optional, computed, defaults and UseStateForUnknown. *)
Theorem schemas_match_models :
  Forall (λ d : gmap string Schema.Attribute * list (string * Schema.AttributeType),
            NoDup (d.2).*1
            ∧ Schema.a_Type <$> d.1 = list_to_map d.2
            ∧ map_Forall (λ _ a, wellDeclared a) d.1)
         Schema.declarations.
Proof.
  unfold Schema.declarations.
  repeat apply Forall_cons_2; [..|apply Forall_nil_2]; simpl;
    (split_and!;
     [ apply (bool_decide_unpack _); vm_compute; exact I
     | apply (bool_decide_unpack _); vm_compute; exact I
     | apply (bool_decide_unpack _); vm_compute; exact I ]).
Qed.

(** ** No unknown value is left in the state *)

Section Persisted.
Context `{Platform}.

(** What a successful Create or Update of each resource persists. *)
Lemma OAuthService_Create_persists client plan s :
  succeeded (exec (OAuthService.Create client plan) (fresh None)) s →
  ∃ result, s = OAuthService.mergeCreate plan result.
Proof.
  intros [Hok Hst].
  destruct (OAuthService_Create_outcome client plan)
    as [[Hnone _]|(req & result & _ & Hw)]; [congruence|].
  rewrite Hw in Hst. injection Hst as <-. by exists result.
Qed.

Lemma OAuthService_Update_persists client plan state s :
  succeeded (exec (OAuthService.Update client plan state) (fresh (Some state))) s →
  ∃ result, s = OAuthService.mergeUpdate plan result.
Proof.
  intros [Hok Hst].
  destruct (OAuthService_Update_outcome client plan state)
    as [(_ & _ & Herr)|(id & req & _ & _ & _ & [[_ Herr]|(result & _ & _ & Hs)])];
    [congruence..|].
  exists result. congruence.
Qed.

Lemma OAuthService_Read_persists client state s :
  succeeded (exec (OAuthService.Read client state) (fresh (Some state))) s →
  ∃ id result,
    uuid_Parse (ValueOf (OAuthService.ID state)) = Ok id
    ∧ w_Calls (exec (OAuthService.Read client state) (fresh (Some state)))
      = [OAuthService.CallGetOAuthService id]
    ∧ s = OAuthService.mergeRead state result.
Proof.
  intros [Hok Hst].
  destruct (OAuthService_Read_outcome client state)
    as [[_ Herr]|[[Hnone _]|(id & result & Hid & _ & Hw)]]; [congruence..|].
  rewrite Hw in Hst |- *. injection Hst as <-. by exists id, result.
Qed.

Lemma MCPEndpoint_Create_persists client plan s :
  succeeded (exec (MCPEndpoint.Create client plan) (fresh None)) s →
  ∃ result, s = MCPEndpoint.mergeCreate plan result.
Proof.
  intros [Hok Hst].
  destruct (MCPEndpoint_Create_outcome client plan)
    as [[Hnone _]|(req & result & _ & Hw)]; [congruence|].
  rewrite Hw in Hst. injection Hst as <-. by exists result.
Qed.

Lemma MCPEndpoint_Update_persists client plan state s :
  succeeded (exec (MCPEndpoint.Update client plan state) (fresh (Some state))) s →
  ∃ result, s = MCPEndpoint.mergeUpdate plan result.
Proof.
  intros [Hok Hst].
  destruct (MCPEndpoint_Update_outcome client plan state)
    as [(_ & _ & Herr)|(id & req & _ & _ & _ & [[_ Herr]|(result & _ & _ & Hs)])];
    [congruence..|].
  exists result. congruence.
Qed.

Lemma MCPEndpoint_Read_persists client state s :
  succeeded (exec (MCPEndpoint.Read client state) (fresh (Some state))) s →
  ∃ id result,
    uuid_Parse (ValueOf (MCPEndpoint.ID state)) = Ok id
    ∧ w_Calls (exec (MCPEndpoint.Read client state) (fresh (Some state)))
      = [MCPEndpoint.CallGetMcpendpoint id]
    ∧ s = MCPEndpoint.mergeRead state result.
Proof.
  intros [Hok Hst].
  destruct (MCPEndpoint_Read_outcome client state)
    as [[_ Herr]|[[Hnone _]|(id & result & Hid & _ & Hw)]]; [congruence..|].
  rewrite Hw in Hst |- *. injection Hst as <-. by exists id, result.
Qed.

Lemma ModelProvider_Create_persists client plan s :
  succeeded (exec (ModelProvider.Create client plan) (fresh None)) s →
  ∃ req result,
    ModelProvider.CreateModelprovider client req
      = Ok (ModelProvider.Create_ModelProviderResponse result)
    ∧ s = ModelProvider.mergeWithID plan result.
Proof.
  intros [Hok Hst].
  destruct (ModelProvider_Create_outcome client plan)
    as [[Hnone _]|(req & result & _ & Hcall & Hw)]; [congruence|].
  rewrite Hw in Hst. injection Hst as <-. by exists req, result.
Qed.

Lemma ModelProvider_Update_persists client plan state s :
  succeeded (exec (ModelProvider.Update client plan state) (fresh (Some state))) s →
  ∃ req id result,
    ModelProvider.UpdateModelprovider client req id
      = Ok (ModelProvider.Update_ModelProviderResponse result)
    ∧ s = ModelProvider.mergeWithID plan result.
Proof.
  intros [Hok Hst].
  destruct (ModelProvider_Update_outcome client plan state)
    as [(_ & _ & Herr)|(id & _ & _ & [[_ Herr]|(result & Hcall & _ & Hs)])];
    [congruence..|].
  exists (ModelProvider.updateReqOf plan state), id, result.
  split; [done|congruence].
Qed.

Lemma ModelProvider_Read_persists client state s :
  succeeded (exec (ModelProvider.Read client state) (fresh (Some state))) s →
  ∃ id result,
    uuid_Parse (ValueOf (ModelProvider.ID state)) = Ok id
    ∧ w_Calls (exec (ModelProvider.Read client state) (fresh (Some state)))
      = [ModelProvider.CallGetModelprovider id]
    ∧ s = ModelProvider.mergeRead state result.
Proof.
  intros [Hok Hst].
  destruct (ModelProvider_Read_outcome client state)
    as [[_ Herr]|[[Hnone _]|(id & result & Hid & _ & Hw)]]; [congruence..|].
  rewrite Hw in Hst |- *. injection Hst as <-. by exists id, result.
Qed.

Lemma Model_Create_persists client plan s :
  succeeded (exec (Model.Create client plan) (fresh None)) s →
  ∃ result, s = Model.mergeResponse plan result.
Proof.
  intros [Hok Hst].
  destruct (Model_Create_outcome client plan)
    as [[Hnone _]|(req & result & _ & Hw)]; [congruence|].
  rewrite Hw in Hst. injection Hst as <-. by exists result.
Qed.

Lemma Model_Update_persists client plan state s :
  succeeded (exec (Model.Update client plan state) (fresh (Some state))) s →
  ∃ result, s = Model.mergeResponse plan result.
Proof.
  intros [Hok Hst].
  destruct (Model_Update_outcome client plan state)
    as [(_ & _ & Herr)|(req & _ & _ & [[_ Herr]|(result & _ & _ & Hs)])];
    [congruence..|].
  exists result. congruence.
Qed.

Lemma Model_Read_persists client state s :
  succeeded (exec (Model.Read client state) (fresh (Some state))) s →
  ∃ result,
    Model.GetModel client (ValueOf (Model.Name state))
    = Ok (Model.Get_ModelResponse result)
    ∧ w_Calls (exec (Model.Read client state) (fresh (Some state)))
      = [Model.CallGetModel (ValueOf (Model.Name state))]
    ∧ s = Model.mergeResponse state result.
Proof.
  intros [Hok Hst].
  destruct (Model_Read_outcome client state)
    as [[_ Herr]|[[Hnone _]|(result & Hcall & Hw)]]; [congruence..|].
  rewrite Hw in Hst |- *. injection Hst as <-. by exists result.
Qed.

Lemma DiscoveryProvider_Create_persists client plan s :
  succeeded (exec (DiscoveryProvider.Create client plan) (fresh None)) s →
  ∃ result, s = DiscoveryProvider.mergeWithID plan result.
Proof.
  intros [Hok Hst].
  destruct (DiscoveryProvider_Create_outcome client plan)
    as [[Hnone _]|(req & result & _ & Hw)]; [congruence|].
  rewrite Hw in Hst. injection Hst as <-. by exists result.
Qed.

Lemma DiscoveryProvider_Update_persists client plan state s :
  succeeded (exec (DiscoveryProvider.Update client plan state) (fresh (Some state))) s →
  ∃ result, s = DiscoveryProvider.mergeWithID plan result.
Proof.
  intros [Hok Hst].
  destruct (DiscoveryProvider_Update_outcome client plan state)
    as [(_ & _ & Herr)|(id & req & _ & _ & _ & [[_ Herr]|(result & _ & _ & Hs)])];
    [congruence..|].
  exists result. congruence.
Qed.

Lemma DiscoveryProvider_Read_persists client state s :
  succeeded (exec (DiscoveryProvider.Read client state) (fresh (Some state))) s →
  ∃ id result,
    uuid_Parse (ValueOf (DiscoveryProvider.ID state)) = Ok id
    ∧ w_Calls (exec (DiscoveryProvider.Read client state) (fresh (Some state)))
      = [DiscoveryProvider.CallGetConfiguredProvider id]
    ∧ s = DiscoveryProvider.mergeRead state result.
Proof.
  intros [Hok Hst].
  destruct (DiscoveryProvider_Read_outcome client state)
    as [[_ Herr]|[[Hnone _]|(id & result & Hid & _ & Hw)]]; [congruence..|].
  rewrite Hw in Hst |- *. injection Hst as <-. by exists id, result.
Qed.

Lemma Environment_Create_persists client plan s :
  succeeded (exec (Environment.Create client plan) (fresh None)) s →
  ∃ result, s = Environment.mergeCreate plan result.
Proof.
  intros [Hok Hst].
  destruct (Environment_Create_outcome client plan)
    as [[Hnone _]|(req & result & _ & Hw)]; [congruence|].
  rewrite Hw in Hst. injection Hst as <-. by exists result.
Qed.

Lemma ChatSuggestion_Create_persists client plan s :
  succeeded (exec (ChatSuggestion.Create client plan) (fresh None)) s →
  ∃ result, s = ChatSuggestion.mergeCreate plan result.
Proof.
  intros [Hok Hst].
  destruct (ChatSuggestion_Create_outcome client plan)
    as [[Hnone _]|(req & result & _ & Hw)]; [congruence|].
  rewrite Hw in Hst. injection Hst as <-. by exists result.
Qed.

End Persisted.

(** Splits a [planned] hypothesis into one fact per attribute, evaluating
    the schema lookup, then settles each attribute of the goal. *)
Ltac known_fields Hplan :=
  unfold planned, ModelProvider_unknowns, OAuthService_unknowns,
    MCPEndpoint_unknowns, Model_unknowns, DiscoveryProvider_unknowns,
    Environment_unknowns, ChatSuggestion_unknowns in Hplan;
  repeat match type of Hplan with
         | Forall _ (_ :: _) =>
           let Hx := fresh "Hx" in
           apply Forall_cons_1 in Hplan as [Hx Hplan];
           cbn [fst snd] in Hx;
           match type of Hx with
           | ?u = true → _ =>
             let E := fresh "E" in
             destruct u eqn:E;
             [specialize (Hx eq_refl); vm_compute in Hx; try discriminate Hx
             |]; clear Hx
           end
         end;
  clear Hplan.

Ltac no_unknown :=
  unfold resolved, ModelProvider_unknowns, OAuthService_unknowns,
    MCPEndpoint_unknowns, Model_unknowns, DiscoveryProvider_unknowns,
    Environment_unknowns, ChatSuggestion_unknowns;
  repeat apply Forall_cons_2; [..|apply Forall_nil_2];
  cbn [fst snd]; simpl;
  unfold OAuthService.ofNil, MCPEndpoint.ifSetBool;
  repeat case_match; simpl; first [done|assumption].

Section NoUnknown.
Context `{Platform}.

(** X10.  Applying a plan leaves no unknown attribute in the state.  If
    the only unknown attributes of the plan are ones the schema lets the
    provider compute (on create: computed without a default; on update:
    those of them without UseStateForUnknown), then the record a
    successful Create or Update persists has a known or null value for
    every attribute.  For the model provider this needs the response to
    carry one of the three declared discriminators. *)
Theorem apply_leaves_no_unknown :
  (∀ client plan s,
      planned Schema.ModelProvider unknownOnCreate (ModelProvider_unknowns plan) →
      (∀ req result,
          ModelProvider.CreateModelprovider client req
            = Ok (ModelProvider.Create_ModelProviderResponse result) →
          ModelProvider_recognised result) →
      succeeded (exec (ModelProvider.Create client plan) (fresh None)) s →
      resolved (ModelProvider_unknowns s))
  ∧ (∀ client plan state s,
      planned Schema.ModelProvider unknownOnUpdate (ModelProvider_unknowns plan) →
      (∀ req id result,
          ModelProvider.UpdateModelprovider client req id
            = Ok (ModelProvider.Update_ModelProviderResponse result) →
          ModelProvider_recognised result) →
      succeeded (exec (ModelProvider.Update client plan state) (fresh (Some state))) s →
      resolved (ModelProvider_unknowns s))
  ∧ (∀ client plan s,
      planned Schema.OAuthService unknownOnCreate (OAuthService_unknowns plan) →
      succeeded (exec (OAuthService.Create client plan) (fresh None)) s →
      resolved (OAuthService_unknowns s))
  ∧ (∀ client plan state s,
      planned Schema.OAuthService unknownOnUpdate (OAuthService_unknowns plan) →
      succeeded (exec (OAuthService.Update client plan state) (fresh (Some state))) s →
      resolved (OAuthService_unknowns s))
  ∧ (∀ client plan s,
      planned Schema.MCPEndpoint unknownOnCreate (MCPEndpoint_unknowns plan) →
      succeeded (exec (MCPEndpoint.Create client plan) (fresh None)) s →
      resolved (MCPEndpoint_unknowns s))
  ∧ (∀ client plan state s,
      planned Schema.MCPEndpoint unknownOnUpdate (MCPEndpoint_unknowns plan) →
      succeeded (exec (MCPEndpoint.Update client plan state) (fresh (Some state))) s →
      resolved (MCPEndpoint_unknowns s))
  ∧ (∀ client plan s,
      planned Schema.Model unknownOnCreate (Model_unknowns plan) →
      succeeded (exec (Model.Create client plan) (fresh None)) s →
      resolved (Model_unknowns s))
  ∧ (∀ client plan state s,
      planned Schema.Model unknownOnUpdate (Model_unknowns plan) →
      succeeded (exec (Model.Update client plan state) (fresh (Some state))) s →
      resolved (Model_unknowns s))
  ∧ (∀ client plan s,
      planned Schema.DiscoveryProvider unknownOnCreate
              (DiscoveryProvider_unknowns plan) →
      succeeded (exec (DiscoveryProvider.Create client plan) (fresh None)) s →
      resolved (DiscoveryProvider_unknowns s))
  ∧ (∀ client plan state s,
      planned Schema.DiscoveryProvider unknownOnUpdate
              (DiscoveryProvider_unknowns plan) →
      succeeded (exec (DiscoveryProvider.Update client plan state)
                      (fresh (Some state))) s →
      resolved (DiscoveryProvider_unknowns s))
  ∧ (∀ client plan s,
      planned Schema.Environment unknownOnCreate (Environment_unknowns plan) →
      succeeded (exec (Environment.Create client plan) (fresh None)) s →
      resolved (Environment_unknowns s))
  ∧ (∀ client plan s,
      planned Schema.ChatSuggestion unknownOnCreate (ChatSuggestion_unknowns plan) →
      succeeded (exec (ChatSuggestion.Create client plan) (fresh None)) s →
      resolved (ChatSuggestion_unknowns s)).
Proof.
  split_and!.
  - intros client plan s Hplan Htag (req & result & Hcall & ->)%ModelProvider_Create_persists.
    apply Htag in Hcall. unfold ModelProvider_recognised in Hcall.
    known_fields Hplan; unfold ModelProvider.mergeWithID;
      destruct (ModelProvider.r_Type result); try done; no_unknown.
  - intros client plan state s Hplan Htag
      (req & id & result & Hcall & ->)%ModelProvider_Update_persists.
    apply Htag in Hcall. unfold ModelProvider_recognised in Hcall.
    known_fields Hplan; unfold ModelProvider.mergeWithID;
      destruct (ModelProvider.r_Type result); try done; no_unknown.
  - intros client plan s Hplan (result & ->)%OAuthService_Create_persists.
    known_fields Hplan; no_unknown.
  - intros client plan state s Hplan (result & ->)%OAuthService_Update_persists.
    known_fields Hplan; no_unknown.
  - intros client plan s Hplan (result & ->)%MCPEndpoint_Create_persists.
    known_fields Hplan; no_unknown.
  - intros client plan state s Hplan (result & ->)%MCPEndpoint_Update_persists.
    known_fields Hplan; no_unknown.
  - intros client plan s Hplan (result & ->)%Model_Create_persists.
    known_fields Hplan; no_unknown.
  - intros client plan state s Hplan (result & ->)%Model_Update_persists.
    known_fields Hplan; no_unknown.
  - intros client plan s Hplan (result & ->)%DiscoveryProvider_Create_persists.
    known_fields Hplan; no_unknown.
  - intros client plan state s Hplan (result & ->)%DiscoveryProvider_Update_persists.
    known_fields Hplan; no_unknown.
  - intros client plan s Hplan (result & ->)%Environment_Create_persists.
    known_fields Hplan; no_unknown.
  - intros client plan s Hplan (result & ->)%ChatSuggestion_Create_persists.
    known_fields Hplan; no_unknown.
Qed.

End NoUnknown.

Section NoUnknownOnInputs.
#[local] Existing Instance TestPlatform.

Lemma apply_leaves_no_unknown_witness :
  resolved (OAuthService_unknowns (OAuthService.mergeCreate oauth_plan oauth_response)).
Proof.
  destruct (@apply_leaves_no_unknown TestPlatform) as (_ & _ & Hcreate & _).
  apply (Hcreate oauth_client oauth_plan).
  - unfold planned. repeat apply Forall_cons_2; [..|apply Forall_nil_2];
      vm_compute; congruence.
  - split; reflexivity.
Defined.

End NoUnknownOnInputs.

(** ** Delete *)

Section Deleting.
Context `{Platform}.

Lemma deletes_run {M C} (state : M) (key : GoResult UUID) (request : UUID → C)
  (answer : UUID → GoResult unit) summary prefix failure detail :
  deletes state key request answer
    (exec (returnIfError ;;;
           id <- match key with
                 | Ok u => op_ret u
                 | Err e => fail summary (prefix ++ e)
                 end ;;
           res <- remote (request id) (answer id) ;;
           match res with
           | Err e => fail failure (detail ++ e)
           | Ok _ => op_ret tt
           end)
          (fresh (Some state))).
Proof.
  unfold deletes, exec, op_bind, returnIfError, remote, fail, AddError, halt,
    op_bind, op_ret. simpl.
  destruct key as [id|e]; simpl.
  - destruct (answer id) as [[]|e] eqn:Hanswer; simpl; [done|].
    split_and!; [done..|]. split; [|done].
    intros Hd. apply (f_equal diags_HasError) in Hd.
    by rewrite diags_HasError_Append in Hd.
  - by split_and!.
Qed.

(** X11.  Delete of a model provider, an OAuth service, an MCP endpoint, a
    discovery provider and a chat suggestion parses the identifier in the
    state and sends exactly one delete request for it; Delete of a model
    sends the request for the name in the state.  The run is free of
    diagnostics exactly when the client reports no error.  When the
    identifier does not parse, nothing is sent and an error is reported.
    Delete itself never touches the state. *)
Theorem delete_sends_one_request :
  (∀ client state,
      deletes state (uuid_Parse (ValueOf (ModelProvider.ID state)))
              ModelProvider.CallDeleteModelprovider
              (ModelProvider.DeleteModelprovider client)
              (exec (ModelProvider.Delete client state) (fresh (Some state))))
  ∧ (∀ client state,
      deletes state (uuid_Parse (ValueOf (OAuthService.ID state)))
              OAuthService.CallDeleteOAuthService
              (OAuthService.DeleteOAuthService client)
              (exec (OAuthService.Delete client state) (fresh (Some state))))
  ∧ (∀ client state,
      deletes state (uuid_Parse (ValueOf (MCPEndpoint.ID state)))
              MCPEndpoint.CallDeleteMcpendpoint
              (MCPEndpoint.DeleteMcpendpoint client)
              (exec (MCPEndpoint.Delete client state) (fresh (Some state))))
  ∧ (∀ client state,
      deletes state (uuid_Parse (ValueOf (DiscoveryProvider.ID state)))
              DiscoveryProvider.CallDeleteConfiguredProvider
              (DiscoveryProvider.DeleteConfiguredProvider client)
              (exec (DiscoveryProvider.Delete client state) (fresh (Some state))))
  ∧ (∀ client state,
      deletes state (uuid_Parse (ValueOf (ChatSuggestion.ID state)))
              ChatSuggestion.CallDeleteChatSuggestion
              (ChatSuggestion.DeleteChatSuggestion client)
              (exec (ChatSuggestion.Delete client state) (fresh (Some state))))
  ∧ (∀ client state,
      deletes state (Ok (ValueOf (Model.Name state)))
              Model.CallDeleteModel (Model.DeleteModel client)
              (exec (Model.Delete client state) (fresh (Some state)))).
Proof.
  split_and!; intros client state.
  - apply (deletes_run state (uuid_Parse (ValueOf (ModelProvider.ID state)))).
  - apply (deletes_run state (uuid_Parse (ValueOf (OAuthService.ID state)))).
  - apply (deletes_run state (uuid_Parse (ValueOf (MCPEndpoint.ID state)))).
  - apply (deletes_run state (uuid_Parse (ValueOf (DiscoveryProvider.ID state)))).
  - apply (deletes_run state (uuid_Parse (ValueOf (ChatSuggestion.ID state)))).
  - unfold deletes, exec, Model.Delete, op_bind, returnIfError, remote, fail,
      AddError, halt, op_bind, op_ret. simpl.
    destruct (Model.DeleteModel client _) as [[]|e] eqn:Hanswer; simpl; [done|].
    split_and!; [done..|]. split; [|done].
    intros Hd. apply (f_equal diags_HasError) in Hd.
    by rewrite diags_HasError_Append in Hd.
Qed.

End Deleting.

(** ** Read: what it keeps, and Read after import *)

Section ReadKeeps.
Context `{Platform}.

Lemma scanEnvironments_outcome environments state :
  match Environment.scanEnvironments environments state with
  | (state', true) =>
    ∃ env,
      env ∈ environments
      ∧ uuid_String (Environment.r_ID env) = ValueOf (Environment.ID state)
      ∧ state' = Environment.assignRead state env
  | (state', false) => state' = state
  end.
Proof.
  induction environments as [|e rest IH]; simpl; [done|].
  destruct (String.eqb_spec (uuid_String (Environment.r_ID e))
                            (ValueOf (Environment.ID state))) as [Heq|_].
  - exists e. split_and!; [left|done..].
  - destruct (Environment.scanEnvironments rest state) as [state' [|]]; [|done].
    destruct IH as (env & Henv & Hid & ->). exists env.
    split_and!; [by right|done..].
Qed.

Lemma Environment_Read_persists client state s :
  succeeded (exec (Environment.Read client state) (fresh (Some state))) s →
  ∃ environments env,
    Environment.GetEnvironments client
    = Ok (Environment.Get_OKApplicationJSON environments)
    ∧ env ∈ environments
    ∧ uuid_String (Environment.r_ID env) = ValueOf (Environment.ID state)
    ∧ s = Environment.assignRead state env.
Proof.
  unfold succeeded, exec, Environment.Read, op_bind, returnIfError, remote.
  simpl.
  destruct (Environment.GetEnvironments client) as [[environments|goType]|e];
    simpl; [|by intros [? _]..].
  pose proof (scanEnvironments_outcome environments state) as Hscan.
  destruct (Environment.scanEnvironments environments state) as [state' [|]];
    simpl; [|by intros [_ ?]].
  destruct Hscan as (env & Henv & Hid & ->). intros [_ [= <-]].
  by exists environments, env.
Qed.

Lemma ChatSuggestion_Read_persists client state s :
  succeeded (exec (ChatSuggestion.Read client state) (fresh (Some state))) s →
  ∃ id suggestion,
    uuid_Parse (ValueOf (ChatSuggestion.ID state)) = Ok id
    ∧ w_Calls (exec (ChatSuggestion.Read client state) (fresh (Some state)))
      = [ChatSuggestion.CallListChatSuggestions]
    ∧ s = ChatSuggestion.assignRead state suggestion.
Proof.
  intros [Hok Hst].
  destruct (ChatSuggestion_Read_outcome client state)
    as [[_ Herr]|[[Hnone _]|(suggestions & suggestion & _ & _ & Hid & Hw)]];
    [congruence..|].
  rewrite Hw in Hst |- *. injection Hst as <-.
  by exists (ChatSuggestion.r_ID suggestion), suggestion.
Qed.

(** X12.  A successful Read never changes the identifier of a model
    provider, an OAuth service, an MCP endpoint, a discovery provider, an
    environment or a chat suggestion, and it leaves the attributes the API
    does not return as they are in the state: the name and the client id
    of an OAuth service, the allowed and denied tools of an MCP endpoint,
    and the invited users, the Stripe subscription and the instance URL
    of an environment. *)
Theorem read_keeps_unreturned_attributes :
  (∀ client state s,
      succeeded (exec (ModelProvider.Read client state) (fresh (Some state))) s →
      ModelProvider.ID s = ModelProvider.ID state)
  ∧ (∀ client state s,
      succeeded (exec (OAuthService.Read client state) (fresh (Some state))) s →
      OAuthService.ID s = OAuthService.ID state
      ∧ OAuthService.Name s = OAuthService.Name state
      ∧ OAuthService.ClientID s = OAuthService.ClientID state)
  ∧ (∀ client state s,
      succeeded (exec (MCPEndpoint.Read client state) (fresh (Some state))) s →
      MCPEndpoint.ID s = MCPEndpoint.ID state
      ∧ MCPEndpoint.AllowedTools s = MCPEndpoint.AllowedTools state
      ∧ MCPEndpoint.DeniedTools s = MCPEndpoint.DeniedTools state)
  ∧ (∀ client state s,
      succeeded (exec (DiscoveryProvider.Read client state) (fresh (Some state))) s →
      DiscoveryProvider.ID s = DiscoveryProvider.ID state)
  ∧ (∀ client state s,
      succeeded (exec (Environment.Read client state) (fresh (Some state))) s →
      Environment.ID s = Environment.ID state
      ∧ Environment.InvitedUsers s = Environment.InvitedUsers state
      ∧ Environment.StripeSubscriptionID s = Environment.StripeSubscriptionID state
      ∧ Environment.InstanceURL s = Environment.InstanceURL state)
  ∧ (∀ client state s,
      succeeded (exec (ChatSuggestion.Read client state) (fresh (Some state))) s →
      ChatSuggestion.ID s = ChatSuggestion.ID state).
Proof.
  split_and!.
  - intros client state s (id & result & _ & _ & ->)%ModelProvider_Read_persists.
    unfold ModelProvider.mergeRead. by destruct (ModelProvider.r_Type result).
  - by intros client state s (id & result & _ & _ & ->)%OAuthService_Read_persists.
  - by intros client state s (id & result & _ & _ & ->)%MCPEndpoint_Read_persists.
  - by intros client state s (id & result & _ & _ & ->)%DiscoveryProvider_Read_persists.
  - by intros client state s
      (environments & env & _ & _ & _ & ->)%Environment_Read_persists.
  - by intros client state s (id & suggestion & _ & _ & ->)%ChatSuggestion_Read_persists.
Qed.

(** X13.  Read after import.  ImportState stores the import identifier
    (for a model: as the name) and nothing else, so the first successful
    Read looks the resource up by that identifier, which must parse as a
    UUID except for a model, and leaves null what Read never writes: the
    name, client id and client secret of an OAuth service, the tool lists
    of an MCP endpoint, the config of a discovery provider, and the
    invited users, Stripe subscription and instance URL of an
    environment.  For an OAuth service the name is then null in the
    state, so every configured name differs from it and the
    RequiresReplace modifier on name asks for replacement. *)
Theorem read_after_import :
  (∀ client req_ID s0 s,
      w_State (exec (ModelProvider.ImportState req_ID) (fresh None)) = Some s0 →
      succeeded (exec (ModelProvider.Read client s0) (fresh (Some s0))) s →
      ModelProvider.ID s = TfValue req_ID
      ∧ ∃ id, uuid_Parse req_ID = Ok id
              ∧ w_Calls (exec (ModelProvider.Read client s0) (fresh (Some s0)))
                = [ModelProvider.CallGetModelprovider id])
  ∧ (∀ client req_ID s0 s,
      w_State (exec (OAuthService.ImportState req_ID) (fresh None)) = Some s0 →
      succeeded (exec (OAuthService.Read client s0) (fresh (Some s0))) s →
      OAuthService.ID s = TfValue req_ID
      ∧ OAuthService.Name s = TfNull
      ∧ OAuthService.ClientID s = TfNull
      ∧ OAuthService.ClientSecret s = TfNull
      ∧ (∀ name, Schema.forcesReplacement Schema.OAuthService "name"
                   (TfValue name) (OAuthService.Name s) = true)
      ∧ ∃ id, uuid_Parse req_ID = Ok id
              ∧ w_Calls (exec (OAuthService.Read client s0) (fresh (Some s0)))
                = [OAuthService.CallGetOAuthService id])
  ∧ (∀ client req_ID s0 s,
      w_State (exec (MCPEndpoint.ImportState req_ID) (fresh None)) = Some s0 →
      succeeded (exec (MCPEndpoint.Read client s0) (fresh (Some s0))) s →
      MCPEndpoint.ID s = TfValue req_ID
      ∧ MCPEndpoint.AllowedTools s = TfNull
      ∧ MCPEndpoint.DeniedTools s = TfNull
      ∧ ∃ id, uuid_Parse req_ID = Ok id
              ∧ w_Calls (exec (MCPEndpoint.Read client s0) (fresh (Some s0)))
                = [MCPEndpoint.CallGetMcpendpoint id])
  ∧ (∀ client req_ID s0 s,
      w_State (exec (Model.ImportState req_ID) (fresh None)) = Some s0 →
      succeeded (exec (Model.Read client s0) (fresh (Some s0))) s →
      w_Calls (exec (Model.Read client s0) (fresh (Some s0)))
      = [Model.CallGetModel req_ID]
      ∧ ∃ result,
          Model.GetModel client req_ID = Ok (Model.Get_ModelResponse result)
          ∧ Model.ID s = TfValue (uuid_String (Model.r_ID result))
          ∧ Model.Name s = TfValue (Model.r_Name result)
          ∧ Model.ProviderID s = TfValue (uuid_String (Model.r_ProviderID result)))
  ∧ (∀ client req_ID s0 s,
      w_State (exec (DiscoveryProvider.ImportState req_ID) (fresh None)) = Some s0 →
      succeeded (exec (DiscoveryProvider.Read client s0) (fresh (Some s0))) s →
      DiscoveryProvider.ID s = TfValue req_ID
      ∧ DiscoveryProvider.Config s = TfNull
      ∧ ∃ id, uuid_Parse req_ID = Ok id
              ∧ w_Calls (exec (DiscoveryProvider.Read client s0) (fresh (Some s0)))
                = [DiscoveryProvider.CallGetConfiguredProvider id])
  ∧ (∀ client req_ID s0 s,
      w_State (exec (Environment.ImportState req_ID) (fresh None)) = Some s0 →
      succeeded (exec (Environment.Read client s0) (fresh (Some s0))) s →
      Environment.ID s = TfValue req_ID
      ∧ Environment.InvitedUsers s = TfNull
      ∧ Environment.StripeSubscriptionID s = TfNull
      ∧ Environment.InstanceURL s = TfNull)
  ∧ (∀ client req_ID s0 s,
      w_State (exec (ChatSuggestion.ImportState req_ID) (fresh None)) = Some s0 →
      succeeded (exec (ChatSuggestion.Read client s0) (fresh (Some s0))) s →
      ChatSuggestion.ID s = TfValue req_ID
      ∧ ∃ id, uuid_Parse req_ID = Ok id
              ∧ w_Calls (exec (ChatSuggestion.Read client s0) (fresh (Some s0)))
                = [ChatSuggestion.CallListChatSuggestions]).
Proof.
  split_and!.
  - intros client req_ID s0 s [= <-]
      (id & result & Hid & Hcalls & ->)%ModelProvider_Read_persists.
    split; [|by exists id].
    unfold ModelProvider.mergeRead. by destruct (ModelProvider.r_Type result).
  - intros client req_ID s0 s [= <-]
      (id & result & Hid & Hcalls & ->)%OAuthService_Read_persists.
    split_and!; try done. by exists id.
  - intros client req_ID s0 s [= <-]
      (id & result & Hid & Hcalls & ->)%MCPEndpoint_Read_persists.
    split_and!; try done. by exists id.
  - intros client req_ID s0 s [= <-]
      (result & Hcall & Hcalls & ->)%Model_Read_persists.
    split; [done|]. by exists result.
  - intros client req_ID s0 s [= <-]
      (id & result & Hid & Hcalls & ->)%DiscoveryProvider_Read_persists.
    split_and!; try done. by exists id.
  - by intros client req_ID s0 s [= <-]
      (environments & env & _ & _ & _ & ->)%Environment_Read_persists.
  - intros client req_ID s0 s [= <-]
      (id & suggestion & Hid & Hcalls & ->)%ChatSuggestion_Read_persists.
    split; [done|]. by exists id.
Qed.

End ReadKeeps.

Section ReadKeepsOnInputs.
#[local] Existing Instance TestPlatform.

Lemma read_keeps_unreturned_attributes_witness :
  MCPEndpoint.ID (MCPEndpoint.mergeRead mcp_state mcp_response)
  = MCPEndpoint.ID mcp_state
  ∧ MCPEndpoint.AllowedTools (MCPEndpoint.mergeRead mcp_state mcp_response)
    = MCPEndpoint.AllowedTools mcp_state
  ∧ MCPEndpoint.DeniedTools (MCPEndpoint.mergeRead mcp_state mcp_response)
    = MCPEndpoint.DeniedTools mcp_state.
Proof.
  destruct (@read_keeps_unreturned_attributes TestPlatform) as (_ & _ & Hmcp & _).
  apply (Hmcp mcp_client mcp_state). split; reflexivity.
Defined.

Lemma read_after_import_witness :
  Schema.forcesReplacement Schema.OAuthService "name" (TfValue "github")
    (OAuthService.Name
       (OAuthService.mergeRead
          (OAuthService.mkModel (TfValue "1b2c3d4e-5f6a-4b7c-8d8e-9f0a1b2c3d4e")
             TfNull TfNull TfNull TfNull TfNull TfNull TfNull TfNull TfNull
             TfNull TfNull TfNull TfNull TfNull TfNull)
          oauth_response))
  = true.
Proof.
  destruct (@read_after_import TestPlatform) as (_ & Hoauth & _).
  destruct (Hoauth oauth_client "1b2c3d4e-5f6a-4b7c-8d8e-9f0a1b2c3d4e"
              (OAuthService.mkModel (TfValue "1b2c3d4e-5f6a-4b7c-8d8e-9f0a1b2c3d4e")
                 TfNull TfNull TfNull TfNull TfNull TfNull TfNull TfNull TfNull
                 TfNull TfNull TfNull TfNull TfNull TfNull)
              (OAuthService.mergeRead
                 (OAuthService.mkModel (TfValue "1b2c3d4e-5f6a-4b7c-8d8e-9f0a1b2c3d4e")
                    TfNull TfNull TfNull TfNull TfNull TfNull TfNull TfNull TfNull
                    TfNull TfNull TfNull TfNull TfNull TfNull)
                 oauth_response))
    as (_ & _ & _ & _ & Hreplace & _).
  - reflexivity.
  - split; reflexivity.
  - apply Hreplace.
Defined.

End ReadKeepsOnInputs.

(** ** The create request of a model provider *)

Section ModelProviderCreateRequest.
Context `{Platform}.
Import ModelProvider.

(** X14.  Create of a model provider accepts exactly the provider types
    the schema validator lists.  For any other type it stops with the
    single diagnostic "Invalid provider type", which quotes the type,
    without calling the API or persisting anything.  For an accepted type
    it sends one create request whose variant and type field both are
    the planned type, carrying the planned name and API key, and the
    planned default always set. *)
Theorem model_provider_create_checks_type :
  Schema.a_Validators <$> Schema.ModelProvider !! "type"
  = Some [Schema.OneOf ["openai"; "anthropic"; "xai"]]
  ∧ (∀ client plan,
      ValueOf (Type_ plan) ∉ ["openai"; "anthropic"; "xai"] →
      exec (Create client plan) (fresh None)
      = mkWorld [ErrorDiagnostic "Invalid provider type"
                   ("Provider type must be one of: openai, anthropic, xai. Got: "
                      ++ ValueOf (Type_ plan))]
                None [])
  ∧ (∀ client plan,
      ValueOf (Type_ plan) ∈ ["openai"; "anthropic"; "xai"] →
      ∃ req,
        w_Calls (exec (Create client plan) (fresh None))
        = [CallCreateModelprovider req]
        ∧ pc_Type (Data_Provider req) = ValueOf (Type_ plan)
        ∧ pc_Name (Data_Provider req) = ValueOf (Name plan)
        ∧ pc_APIKey (Data_Provider req) = ValueOf (APIKey plan)
        ∧ pc_Default (Data_Provider req) = NewOpt (ValueOf (Default plan))
        ∧ (Data_Type req = OpenAIModelProviderCreateModelProviderCreateData
           ↔ ValueOf (Type_ plan) = "openai")
        ∧ (Data_Type req = AnthropicModelProviderCreateModelProviderCreateData
           ↔ ValueOf (Type_ plan) = "anthropic")
        ∧ (Data_Type req = XAIModelProviderCreateModelProviderCreateData
           ↔ ValueOf (Type_ plan) = "xai")).
Proof.
  split_and!.
  - vm_compute. reflexivity.
  - intros client plan Hno.
    unfold exec, Create, op_bind, createReqOf. simpl.
    destruct (String.eqb_spec (ValueOf (Type_ plan)) "openai") as [Heq|_];
      [exfalso; apply Hno; rewrite Heq; set_solver|].
    destruct (String.eqb_spec (ValueOf (Type_ plan)) "anthropic") as [Heq|_];
      [exfalso; apply Hno; rewrite Heq; set_solver|].
    destruct (String.eqb_spec (ValueOf (Type_ plan)) "xai") as [Heq|_];
      [exfalso; apply Hno; rewrite Heq; set_solver|].
    done.
  - intros client plan Hin.
    assert (∃ req, createReqOf plan = Some req
                   ∧ w_Calls (exec (Create client plan) (fresh None))
                     = [CallCreateModelprovider req]) as (req & Hreq & Hcalls).
    { unfold exec, Create, op_bind, remote.
      assert (is_Some (createReqOf plan)) as [req Hreq].
      { unfold createReqOf.
        destruct (String.eqb_spec (ValueOf (Type_ plan)) "openai"); [by eauto|].
        destruct (String.eqb_spec (ValueOf (Type_ plan)) "anthropic"); [by eauto|].
        destruct (String.eqb_spec (ValueOf (Type_ plan)) "xai"); [by eauto|].
        apply list_elem_of_In in Hin. simpl in Hin.
        destruct Hin as [?|[?|[?|[]]]]; congruence. }
      exists req. split; [done|]. rewrite Hreq. simpl.
      by destruct (CreateModelprovider client req) as [[result|goType]|e]. }
    exists req. split; [done|]. clear Hcalls. unfold createReqOf in Hreq.
    destruct (String.eqb_spec (ValueOf (Type_ plan)) "openai") as [Ho|Ho].
    { injection Hreq as <-. rewrite Ho. simpl. by split_and!. }
    destruct (String.eqb_spec (ValueOf (Type_ plan)) "anthropic") as [Ha|Ha].
    { injection Hreq as <-. rewrite Ha. simpl. by split_and!. }
    destruct (String.eqb_spec (ValueOf (Type_ plan)) "xai") as [Hx|Hx].
    { injection Hreq as <-. rewrite Hx. simpl. by split_and!. }
    done.
Qed.

End ModelProviderCreateRequest.

Section ModelProviderCreateRequestOnInputs.
#[local] Existing Instance TestPlatform.

Lemma model_provider_create_checks_type_witness :
  exec (ModelProvider.Create mp_client
          (ModelProvider.mkModel TfUnknown (TfValue "mistral") (TfValue "p1")
             (TfValue "k1") (TfValue false)))
       (fresh None)
  = mkWorld [ErrorDiagnostic "Invalid provider type"
               "Provider type must be one of: openai, anthropic, xai. Got: mistral"]
            None []
  ∧ ∃ req,
      w_Calls (exec (ModelProvider.Create mp_client mp_plan) (fresh None))
      = [ModelProvider.CallCreateModelprovider req]
      ∧ ModelProvider.pc_Type (ModelProvider.Data_Provider req) = "anthropic".
Proof.
  destruct (@model_provider_create_checks_type TestPlatform)
    as (_ & Hreject & Haccept).
  split.
  - apply (Hreject mp_client
             (ModelProvider.mkModel TfUnknown (TfValue "mistral") (TfValue "p1")
                (TfValue "k1") (TfValue false))).
    apply (bool_decide_unpack _). vm_compute. exact I.
  - destruct (Haccept mp_client mp_plan) as (req & Hcalls & Htype & _).
    + apply (bool_decide_unpack _). vm_compute. exact I.
    + exists req. split; [exact Hcalls|exact Htype].
Defined.

End ModelProviderCreateRequestOnInputs.

(** ** The config of a discovery provider *)

Section DiscoveryConfig.
Context `{Platform}.
Import DiscoveryProvider.

Lemma json_Unmarshal_map_other config :
  Json.isObject config = false → Json.isNull config = false →
  json_Unmarshal_map config = Err (json_error config).
Proof. intros Hobj Hnull. unfold json_Unmarshal_map. by rewrite Hobj, Hnull. Qed.

(** What the loop over the decoded members leaves in the map. *)
Lemma encodeConfig_Some validateMap configMap (w : World ResourceModel Call) m w' :
  encodeConfig validateMap configMap w = (Some m, w') →
  w' = w
  ∧ (∀ key, is_Some (m !! key)
            ↔ key ∈ validateMap.*1 ∨ is_Some (configMap !! key))
  ∧ (∀ key valueJSON,
       m !! key = Some valueJSON →
       configMap !! key = Some valueJSON
       ∨ ∃ value, (key, value) ∈ validateMap ∧ json_Marshal value = Ok valueJSON).
Proof.
  revert configMap.
  induction validateMap as [|[key0 value0] rest IH]; intros configMap; simpl.
  - intros [= <- <-]. split_and!; [done| |by left].
    intros key. split; [by right|]. intros [[]%elem_of_nil|]; done.
  - destruct (json_Marshal value0) as [valueJSON0|e] eqn:Hvalue; [|done].
    intros (-> & Hkeys & Hvalues)%IH. split_and!; [done| |].
    + intros key. rewrite Hkeys, lookup_insert_is_Some, elem_of_cons.
      destruct (decide (key0 = key)) as [->|Hne]; [by intuition|].
      split; [intros [?|[?|[_ ?]]]|intros [[?|?]|?]]; by intuition.
    + intros key valueJSON [Hin|(value & Hin & Hm)]%Hvalues.
      * destruct (decide (key0 = key)) as [->|Hne].
        -- rewrite lookup_insert_eq in Hin. injection Hin as <-.
           right. exists value0. split; [left|done].
        -- rewrite lookup_insert_ne in Hin by done. by left.
      * right. exists value. split; [by right|done].
Qed.

Lemma encodeConfig_marshals validateMap configMap (w : World ResourceModel Call) :
  Forall (λ member, ∃ valueJSON, json_Marshal member.2 = Ok valueJSON) validateMap →
  ∃ m, encodeConfig validateMap configMap w = (Some m, w).
Proof.
  revert configMap.
  induction validateMap as [|[key0 value0] rest IH]; intros configMap Hall; simpl.
  - by eexists.
  - apply Forall_cons_1 in Hall as [[valueJSON0 Hvalue] Hall]. simpl in Hvalue.
    rewrite Hvalue. by apply IH.
Qed.

Lemma encodeConfig_fails validateMap configMap (w : World ResourceModel Call)
  key value e :
  (key, value) ∈ validateMap → json_Marshal value = Err e →
  ∃ detail,
    encodeConfig validateMap configMap w
    = (None, mkWorld (diags_Append (w_Diagnostics w)
                        (ErrorDiagnostic "Error encoding config value" detail))
                     (w_State w) (w_Calls w)).
Proof.
  intros Hin Hvalue. revert configMap.
  induction validateMap as [|[key0 value0] rest IH]; intros configMap; simpl.
  - by apply elem_of_nil in Hin.
  - destruct (json_Marshal value0) as [valueJSON0|e0] eqn:Hvalue0; [|by eexists].
    apply IH. apply elem_of_cons in Hin as [[= -> ->]|Hin]; [congruence|done].
Qed.

(** X15.  The config text of a discovery provider is checked exactly when
    it is sent.  Create, and Update when the planned config differs from
    the state's, reject a text that is neither a JSON object nor null
    (malformed text, but also an array, a string or a number) with the
    single diagnostic "Invalid Config JSON", before any call and leaving
    the state as it was.  Update with an unchanged config does not look
    at the text: whatever it is, the update request goes out with its
    config field unset. *)
Theorem discovery_config_checked_when_sent :
  (∀ client plan,
      Json.isObject (ValueOf (Config plan)) = false →
      Json.isNull (ValueOf (Config plan)) = false →
      exec (Create client plan) (fresh None)
      = mkWorld [ErrorDiagnostic "Invalid Config JSON"
                   ("Could not parse config as JSON: "
                      ++ json_error (ValueOf (Config plan)))]
                None [])
  ∧ (∀ client plan state id,
      uuid_Parse (ValueOf (ID state)) = Ok id →
      Equal (Config plan) (Config state) = false →
      Json.isObject (ValueOf (Config plan)) = false →
      Json.isNull (ValueOf (Config plan)) = false →
      exec (Update client plan state) (fresh (Some state))
      = mkWorld [ErrorDiagnostic "Invalid Config JSON"
                   ("Could not parse config as JSON: "
                      ++ json_error (ValueOf (Config plan)))]
                (Some state) [])
  ∧ (∀ client plan state id,
      uuid_Parse (ValueOf (ID state)) = Ok id →
      Equal (Config plan) (Config state) = true →
      ∃ req,
        w_Calls (exec (Update client plan state) (fresh (Some state)))
        = [CallUpdateConfiguredProvider req id]
        ∧ u_Config req = zero).
Proof.
  split_and!.
  - intros client plan Hobj Hnull.
    unfold exec, Create, op_bind, validateConfig; simpl.
    by rewrite json_Unmarshal_map_other.
  - intros client plan state id Hid Hchanged Hobj Hnull.
    unfold exec, Update, op_bind, parseUUID, updateReqOf, op_bind, validateConfig;
      simpl.
    rewrite Hid, Hchanged. simpl.
    by rewrite json_Unmarshal_map_other.
  - intros client plan state id Hid Hsame.
    unfold exec, Update, op_bind, parseUUID, updateReqOf, op_bind, remote; simpl.
    rewrite Hid, Hsame. simpl.
    match goal with
    | |- context [UpdateConfiguredProvider client ?r id] => exists r
    end.
    split; [|reflexivity].
    by destruct (UpdateConfiguredProvider client _ id) as [[result|goType]|e].
Qed.

(** X16.  What Create of a discovery provider sends as config.  For a
    JSON object that decodes without error and whose members all marshal,
    the request holds one entry per member key and no other, each entry
    being the marshalled JSON of a member with that key.  If a member
    does not marshal, Create stops with an error before any call.  For
    the text null the request holds the empty map. *)
Theorem discovery_config_sent_by_member :
  (∀ client plan,
      Json.isObject (ValueOf (Config plan)) = true →
      json_decode_error (ValueOf (Config plan)) = None →
      Forall (λ member, ∃ valueJSON, json_Marshal member.2 = Ok valueJSON)
             (json_members (ValueOf (Config plan))) →
      ∃ req,
        w_Calls (exec (Create client plan) (fresh None))
        = [CallCreateConfiguredProvider req]
        ∧ (∀ key, is_Some (c_Config req !! key)
                  ↔ key ∈ (json_members (ValueOf (Config plan))).*1)
        ∧ (∀ key valueJSON,
             c_Config req !! key = Some valueJSON →
             ∃ value, (key, value) ∈ json_members (ValueOf (Config plan))
                      ∧ json_Marshal value = Ok valueJSON))
  ∧ (∀ client plan key value e,
      Json.isObject (ValueOf (Config plan)) = true →
      (key, value) ∈ json_members (ValueOf (Config plan)) →
      json_Marshal value = Err e →
      let w := exec (Create client plan) (fresh None) in
      w_Calls w = [] ∧ w_State w = None
      ∧ diags_HasError (w_Diagnostics w) = true)
  ∧ (∀ client plan,
      Json.isObject (ValueOf (Config plan)) = false →
      Json.isNull (ValueOf (Config plan)) = true →
      ∃ req,
        w_Calls (exec (Create client plan) (fresh None))
        = [CallCreateConfiguredProvider req]
        ∧ c_Config req = ∅).
Proof.
  split_and!.
  - intros client plan Hobj Hdecoded Hall.
    destruct (encodeConfig_marshals _ ∅ (fresh None) Hall) as [m Hm].
    destruct (encodeConfig_Some _ _ _ _ _ Hm) as (_ & Hkeys & Hvalues).
    unfold exec, Create, op_bind, validateConfig, remote; simpl.
    rewrite json_Unmarshal_map_object by done. simpl.
    rewrite Hm. simpl.
    match goal with
    | |- context [CreateConfiguredProvider client ?r] => exists r
    end.
    split_and!.
    + by match goal with
         | |- context [CreateConfiguredProvider client ?r] =>
           destruct (CreateConfiguredProvider client r) as [[result| |goType]|e]
         end.
    + intros key. simpl. rewrite Hkeys, lookup_empty.
      split; [intros [?|[? [=]]]; done|by left].
    + intros key valueJSON Hlook. simpl in Hlook.
      destruct (Hvalues key valueJSON Hlook) as [Hempty|?]; [|done].
      by rewrite lookup_empty in Hempty.
  - intros client plan key value e Hobj Hin Hvalue w. subst w.
    destruct (encodeConfig_fails _ ∅ (fresh None) _ _ _ Hin Hvalue)
      as [detail Hfail].
    unfold exec, Create, op_bind, validateConfig; simpl.
    destruct (json_decode_error (ValueOf (Config plan))) as [e'|] eqn:Hdecoded.
    + rewrite (json_Unmarshal_map_range _ e') by done. simpl. by split_and!.
    + rewrite json_Unmarshal_map_object by done. simpl.
      rewrite Hfail. simpl. by split_and!.
  - intros client plan Hobj Hnull.
    unfold exec, Create, op_bind, validateConfig, json_Unmarshal_map, remote; simpl.
    rewrite Hobj, Hnull. simpl.
    match goal with
    | |- context [CreateConfiguredProvider client ?r] => exists r
    end.
    split; [|reflexivity].
    by match goal with
       | |- context [CreateConfiguredProvider client ?r] =>
         destruct (CreateConfiguredProvider client r) as [[result| |goType]|e]
       end.
Qed.

End DiscoveryConfig.

Section DiscoveryConfigOnInputs.
#[local] Existing Instance TestPlatform.

Lemma discovery_config_checked_when_sent_witness :
  w_Calls (exec (DiscoveryProvider.Create discovery_client (discovery_plan "[1,2]"))
                (fresh None)) = []
  ∧ diag_Summary
      <$> w_Diagnostics
            (exec (DiscoveryProvider.Create discovery_client (discovery_plan "[1,2]"))
                  (fresh None))
    = ["Invalid Config JSON"].
Proof.
  destruct (@discovery_config_checked_when_sent TestPlatform) as (Hcreate & _).
  rewrite (Hcreate discovery_client (discovery_plan "[1,2]")).
  - split; reflexivity.
  - vm_compute. reflexivity.
  - vm_compute. reflexivity.
Defined.

Lemma discovery_config_sent_by_member_witness :
  ∃ req,
    w_Calls (exec (DiscoveryProvider.Create discovery_client
                     (discovery_plan token_config)) (fresh None))
    = [DiscoveryProvider.CallCreateConfiguredProvider req]
    ∧ is_Some (DiscoveryProvider.c_Config req !! "token").
Proof.
  destruct (@discovery_config_sent_by_member TestPlatform) as (Hobject & _).
  destruct (Hobject discovery_client (discovery_plan token_config))
    as (req & Hcalls & Hkeys & _).
  - vm_compute. reflexivity.
  - vm_compute. reflexivity.
  - repeat constructor. by eexists.
  - exists req. split; [exact Hcalls|]. apply Hkeys.
    apply (bool_decide_unpack _). vm_compute. exact I.
Defined.

End DiscoveryConfigOnInputs.

(** ** Collections stored from a response *)

Section StoredCollections.
Context `{Platform}.

Lemma ElementsAs_list_ListOfStrings xs :
  ElementsAs_list (ListOfStrings xs) = Some xs.
Proof.
  unfold ElementsAs_list, ListOfStrings.
  by apply mapM_fmap_Some.
Qed.

Lemma ElementsAs_map_values (hs : gmap string string) :
  ElementsAs_map (TfValue (TfValue <$> hs)) = Some hs.
Proof.
  unfold ElementsAs_map. rewrite bool_decide_eq_true_2.
  - f_equal. apply map_eq. intros key.
    rewrite lookup_omap, lookup_fmap. by destruct (hs !! key).
  - intros key v. rewrite lookup_fmap.
    destruct (hs !! key); [|done]. intros [= <-]. by eexists.
Qed.

(** X17.  convertMapToStringValues returns a map equal to its argument,
    so the headers Create and Read store for a response are the response
    headers, each as a known string.  Headers and string lists stored
    from a response read back through ElementsAs as exactly what the
    response carried: the headers of an MCP endpoint, the default scopes
    and the supported grant types of an OAuth service. *)
Theorem stored_collections_read_back :
  (∀ m, MCPEndpoint.convertMapToStringValues m = m)
  ∧ (∀ headers,
      MCPEndpoint.headersValue headers = TfValue (TfValue <$> headers)
      ∧ ElementsAs_map (MCPEndpoint.headersValue headers) = Some headers)
  ∧ (∀ m result,
      opt_Set (MCPEndpoint.r_Headers result) = true →
      (0 < size (opt_Value (MCPEndpoint.r_Headers result)))%nat →
      ElementsAs_map (MCPEndpoint.Headers (MCPEndpoint.mergeCreate m result))
      = Some (opt_Value (MCPEndpoint.r_Headers result))
      ∧ ElementsAs_map (MCPEndpoint.Headers (MCPEndpoint.mergeRead m result))
        = Some (opt_Value (MCPEndpoint.r_Headers result)))
  ∧ (∀ m result,
      let stored s :=
        ElementsAs_list (OAuthService.DefaultScopes s)
        = Some (OAuthService.r_DefaultScopes result)
        ∧ ElementsAs_list (OAuthService.SupportedGrantTypes s)
          = Some (OAuthService.r_SupportedGrantTypes result) in
      stored (OAuthService.mergeCreate m result)
      ∧ stored (OAuthService.mergeRead m result)
      ∧ stored (OAuthService.mergeUpdate m result)).
Proof.
  assert (∀ m, MCPEndpoint.convertMapToStringValues m = m) as Hconvert.
  { intros m. unfold MCPEndpoint.convertMapToStringValues.
    apply (map_fold_weak_ind (λ r m, r = m)); [done|].
    by intros key v m' r _ ->. }
  assert (∀ headers,
            MCPEndpoint.headersValue headers = TfValue (TfValue <$> headers))
    as Hvalue.
  { intros headers. unfold MCPEndpoint.headersValue. rewrite Hconvert. f_equal.
    apply (map_fold_weak_ind (λ r m, r = TfValue <$> m)).
    - by rewrite fmap_empty.
    - intros key v m' r _ ->. by rewrite fmap_insert. }
  split_and!.
  - done.
  - intros headers. split; [done|]. rewrite Hvalue. apply ElementsAs_map_values.
  - intros m result Hset Hsize. apply Nat.ltb_lt in Hsize.
    unfold MCPEndpoint.mergeCreate, MCPEndpoint.mergeRead; simpl.
    rewrite Hset, Hsize. simpl. split; apply ElementsAs_map_values.
  - intros m result stored. subst stored. cbn beta.
    unfold OAuthService.mergeCreate, OAuthService.mergeRead,
      OAuthService.mergeUpdate, OAuthService.with_CreatedAt,
      OAuthService.with_ID, OAuthService.mergeCommon.
    cbn [OAuthService.DefaultScopes OAuthService.SupportedGrantTypes].
    by rewrite !ElementsAs_list_ListOfStrings.
Qed.

End StoredCollections.

Section StoredCollectionsOnInputs.
#[local] Existing Instance TestPlatform.

Lemma stored_collections_read_back_witness :
  ElementsAs_map
    (MCPEndpoint.Headers
       (MCPEndpoint.mergeRead mcp_state
          (MCPEndpoint.mkResponse
             ("6f1c2a3b-0d4e-4f5a-8b6c-7d8e9f0a1b2c" : @UUID TestPlatform)
             "search" "https://mcp.example.com/v1" zero
             (NewOpt {[ "X-Team" := "platform" ]}) zero zero zero zero zero)))
  = Some {[ "X-Team" := "platform" ]}.
Proof.
  destruct (@stored_collections_read_back TestPlatform) as (_ & _ & Hheaders & _).
  apply Hheaders.
  - reflexivity.
  - vm_compute. lia.
Defined.

End StoredCollectionsOnInputs.

(** ** Read by scanning a list *)

Section FirstMatch.
Context `{Platform}.

(** X18.  Read of an environment and of a chat suggestion takes the first
    element of the returned list that carries the stored identifier and
    ignores whatever follows it, a later element with the same identifier
    included.  An environment is matched on the text of the identifier,
    which is not parsed; a chat suggestion on the parsed identifier. *)
Theorem read_takes_first_match :
  (∀ client state pre env post,
      Environment.GetEnvironments client
      = Ok (Environment.Get_OKApplicationJSON (pre ++ env :: post)) →
      (∀ e, e ∈ pre →
         uuid_String (Environment.r_ID e) ≠ ValueOf (Environment.ID state)) →
      uuid_String (Environment.r_ID env) = ValueOf (Environment.ID state) →
      exec (Environment.Read client state) (fresh (Some state))
      = mkWorld [] (Some (Environment.assignRead state env))
                [Environment.CallGetEnvironments])
  ∧ (∀ client state id pre suggestion post,
      uuid_Parse (ValueOf (ChatSuggestion.ID state)) = Ok id →
      ChatSuggestion.ListChatSuggestions client
      = Ok (ChatSuggestion.List_OKApplicationJSON (pre ++ suggestion :: post)) →
      (∀ s, s ∈ pre → ChatSuggestion.r_ID s ≠ id) →
      ChatSuggestion.r_ID suggestion = id →
      exec (ChatSuggestion.Read client state) (fresh (Some state))
      = mkWorld [] (Some (ChatSuggestion.assignRead state suggestion))
                [ChatSuggestion.CallListChatSuggestions]).
Proof.
  split.
  - intros client state pre env post Hlist Hpre Henv.
    unfold exec, Environment.Read, op_bind, remote. simpl.
    rewrite Hlist. simpl.
    by rewrite (scanEnvironments_found pre env post state Hpre Henv).
  - intros client state id pre suggestion post Hid Hlist Hpre Hs.
    unfold exec, ChatSuggestion.Read, op_bind, remote, parseUUID. simpl.
    rewrite Hid. simpl. rewrite Hlist. simpl.
    by rewrite (scanSuggestions_found pre suggestion post id state Hpre Hs).
Qed.

End FirstMatch.

Section FirstMatchOnInputs.
#[local] Existing Instance TestPlatform.

Lemma read_takes_first_match_witness :
  exec (Environment.Read
          (Environment.mkClient (λ _, Err "unused")
             (Ok (Environment.Get_OKApplicationJSON
                    ([env_other]
                       ++ @Environment.mkResponse TestPlatform
                            "4e5f6a7b-8c9d-4e0f-8a1b-2c3d4e5f6a7b" "prod" "prod"
                            "org_1" "cus_1" "6a7b8c9d-0e1f-4a2b-8c3d-4e5f6a7b8c9d"
                       :: [@Environment.mkResponse TestPlatform
                             "4e5f6a7b-8c9d-4e0f-8a1b-2c3d4e5f6a7b" "shadow"
                             "shadow" "org_9" "cus_9"
                             "6a7b8c9d-0e1f-4a2b-8c3d-4e5f6a7b8c9d"]))))
          env_state)
       (fresh (Some env_state))
  = mkWorld [] (Some env_state) [Environment.CallGetEnvironments].
Proof.
  destruct (@read_takes_first_match TestPlatform) as (Henv & _).
  apply (Henv _ env_state [env_other]
           (@Environment.mkResponse TestPlatform
              "4e5f6a7b-8c9d-4e0f-8a1b-2c3d4e5f6a7b" "prod" "prod"
              "org_1" "cus_1" "6a7b8c9d-0e1f-4a2b-8c3d-4e5f6a7b8c9d")
           [@Environment.mkResponse TestPlatform
              "4e5f6a7b-8c9d-4e0f-8a1b-2c3d4e5f6a7b" "shadow"
              "shadow" "org_9" "cus_9"
              "6a7b8c9d-0e1f-4a2b-8c3d-4e5f6a7b8c9d"]).
  - reflexivity.
  - intros e He. apply list_elem_of_singleton in He. subst e. discriminate.
  - reflexivity.
Defined.

End FirstMatchOnInputs.

(** ** What Update keeps from the plan *)

Section UpdateKeeps.
Context `{Platform}.

(** X19.  A successful Update of an MCP endpoint copies only the name,
    the URL and a set description from the response: the identifier, the
    headers, the four flags, the OAuth service and the tool lists it
    persists are the planned ones, whatever the response says.  A
    successful Update of an OAuth service persists the planned
    identifier, name, client id and creation time. *)
Theorem update_keeps_planned_attributes :
  (∀ client plan state s,
      succeeded (exec (MCPEndpoint.Update client plan state) (fresh (Some state))) s →
      MCPEndpoint.ID s = MCPEndpoint.ID plan
      ∧ MCPEndpoint.Headers s = MCPEndpoint.Headers plan
      ∧ MCPEndpoint.DevgraphAuth s = MCPEndpoint.DevgraphAuth plan
      ∧ MCPEndpoint.SupportsResources s = MCPEndpoint.SupportsResources plan
      ∧ MCPEndpoint.OAuthServiceID s = MCPEndpoint.OAuthServiceID plan
      ∧ MCPEndpoint.Immutable s = MCPEndpoint.Immutable plan
      ∧ MCPEndpoint.Active s = MCPEndpoint.Active plan
      ∧ MCPEndpoint.AllowedTools s = MCPEndpoint.AllowedTools plan
      ∧ MCPEndpoint.DeniedTools s = MCPEndpoint.DeniedTools plan)
  ∧ (∀ client plan state s,
      succeeded (exec (OAuthService.Update client plan state) (fresh (Some state))) s →
      OAuthService.ID s = OAuthService.ID plan
      ∧ OAuthService.Name s = OAuthService.Name plan
      ∧ OAuthService.ClientID s = OAuthService.ClientID plan
      ∧ OAuthService.CreatedAt s = OAuthService.CreatedAt plan).
Proof.
  split.
  - by intros client plan state s (result & ->)%MCPEndpoint_Update_persists.
  - by intros client plan state s (result & ->)%OAuthService_Update_persists.
Qed.

End UpdateKeeps.

Section UpdateKeepsOnInputs.
#[local] Existing Instance TestPlatform.

Lemma update_keeps_planned_attributes_witness :
  MCPEndpoint.Headers (MCPEndpoint.mergeUpdate mcp_plan mcp_response)
  = MCPEndpoint.Headers mcp_plan.
Proof.
  destruct (@update_keeps_planned_attributes TestPlatform) as (Hmcp & _).
  apply (Hmcp mcp_client mcp_plan mcp_state). split; reflexivity.
Defined.

End UpdateKeepsOnInputs.

(** ** What Create sends *)

(** A failed prefix of Create has sent nothing. *)
Ltac nothing_sent :=
  let Hcalls := fresh "Hcalls" in
  let Hin := fresh "Hin" in
  intros ? _ Hcalls _ ? Hin; rewrite Hcalls in Hin; simpl in Hin;
  by apply elem_of_nil in Hin.

(** The call itself: whatever the answer, the log holds the one request. *)
Ltac request_sent :=
  apply wp_bind_remote;
  repeat match goal with
         | |- wp (match ?answer with _ => _ end) _ _ => destruct answer
         end;
  unfold wp; simpl; intros ? [= ->]%list_elem_of_singleton.

Section CreateRequests.
Context `{Platform}.

Lemma sentOpt_value {B} (R : B → Prop) (v : B) : R v → sentOpt true R (NewOpt v).
Proof. by intros HR. Qed.

Lemma sentOpt_nonNull {B} `{Zero B} (v : tfval B) :
  sentOpt (negb (IsNull v)) (λ b, b = ValueOf v)
          (if negb (IsNull v) then NewOpt (ValueOf v) else zero).
Proof. by destruct (IsNull v). Qed.

Lemma sent_nonEmpty (xs : list string) :
  sent (0 <? length xs)%nat (λ ys, ys = xs) (MCPEndpoint.optNonEmpty xs).
Proof.
  unfold MCPEndpoint.optNonEmpty. destruct (0 <? length xs)%nat; [|done].
  by apply sent_value.
Qed.

Lemma OAuthService_Create_sends client plan req :
  OAuthService.CallCreateOAuthService req
    ∈ w_Calls (exec (OAuthService.Create client plan) (fresh None)) →
  OAuthService_create_sends plan req.
Proof.
  revert req. apply wp_exec. unfold OAuthService.Create.
  wp_quiet; [intros _ _|nothing_sent].
  wp_quiet; [intros authURL [_ Hauth]%parseURL_Some|nothing_sent].
  wp_quiet; [intros tokenURL [_ Htoken]%parseURL_Some|nothing_sent].
  wp_quiet; [intros supportedGrantTypes Hgrants|nothing_sent].
  apply wp_bind_quiet; [apply OAuthService_quiet_optStringArray| |nothing_sent].
  intros defaultScopes [_ Hscopes]%OAuthService_optStringArray_Some.
  apply wp_bind_quiet; [apply OAuthService_quiet_optURL| |nothing_sent].
  intros userinfoURL [_ Huserinfo]%OAuthService_optURL_Some.
  apply wp_bind_quiet; [apply OAuthService_quiet_optURL| |nothing_sent].
  intros iconURL [_ Hicon]%OAuthService_optURL_Some.
  apply wp_bind_quiet; [apply OAuthService_quiet_optURL| |nothing_sent].
  intros homepageURL [_ Hhomepage]%OAuthService_optURL_Some.
  request_sent.
  all: unfold OAuthService_create_sends; simpl;
    (split_and!; try done;
     [ destruct (negb (IsNull (OAuthService.SupportedGrantTypes plan))
                 && negb (IsUnknown (OAuthService.SupportedGrantTypes plan)));
       [by apply elementsAs_list_Some in Hgrants as [_ ?]
       |by injection Hgrants as <-]
     | apply OAuthService_sent_optString
     | apply sentOpt_nonNull ]).
Qed.

Lemma MCPEndpoint_Create_sends client plan req :
  MCPEndpoint.CallCreateMcpendpoint req
    ∈ w_Calls (exec (MCPEndpoint.Create client plan) (fresh None)) →
  MCPEndpoint_create_sends plan req.
Proof.
  revert req. apply wp_exec. unfold MCPEndpoint.Create.
  wp_quiet; [intros _ _|nothing_sent].
  wp_quiet; [intros headers Hheaders|nothing_sent].
  wp_quiet; [intros allowedTools Hallowed|nothing_sent].
  wp_quiet; [intros deniedTools Hdenied|nothing_sent].
  apply wp_bind_quiet; [apply MCPEndpoint_quiet_optUUID| |nothing_sent].
  intros oauthServiceID [_ Hoauth]%MCPEndpoint_optUUID_Some.
  assert (plannedHeaders (MCPEndpoint.Headers plan) headers) as Hh.
  { unfold plannedHeaders. destruct (IsNull (MCPEndpoint.Headers plan)); simpl in *.
    - by injection Hheaders as <-.
    - by apply elementsAs_map_Some in Hheaders as [_ ?]. }
  assert (plannedStrings (MCPEndpoint.AllowedTools plan) allowedTools) as Ha.
  { unfold plannedStrings.
    destruct (IsNull (MCPEndpoint.AllowedTools plan)); simpl in *.
    - by injection Hallowed as <-.
    - by apply elementsAs_list_Some in Hallowed as [_ ?]. }
  assert (plannedStrings (MCPEndpoint.DeniedTools plan) deniedTools) as Hd.
  { unfold plannedStrings.
    destruct (IsNull (MCPEndpoint.DeniedTools plan)); simpl in *.
    - by injection Hdenied as <-.
    - by apply elementsAs_list_Some in Hdenied as [_ ?]. }
  request_sent.
  all: unfold MCPEndpoint_create_sends; simpl;
    (split_and!; try done;
     [ apply MCPEndpoint_sent_optString
     | exists headers; split; [done|]; by destruct (0 <? size headers)%nat
     | exists allowedTools; split; [done|apply sent_nonEmpty]
     | exists deniedTools; split; [done|apply sent_nonEmpty] ]).
Qed.

Lemma Model_Create_sends client plan req :
  Model.CallCreateModel req
    ∈ w_Calls (exec (Model.Create client plan) (fresh None)) →
  Model_create_sends plan req.
Proof.
  revert req. apply wp_exec. unfold Model.Create.
  wp_quiet; [intros _ _|nothing_sent].
  wp_quiet; [intros providerID [_ Hprovider]%parseUUID_Some|nothing_sent].
  request_sent.
  all: unfold Model_create_sends; simpl; (split_and!; try done);
    destruct (IsNull (Model.Description plan)); [done|by apply sent_value].
Qed.

Lemma DiscoveryProvider_Create_sends client plan req :
  DiscoveryProvider.CallCreateConfiguredProvider req
    ∈ w_Calls (exec (DiscoveryProvider.Create client plan) (fresh None)) →
  DiscoveryProvider_create_sends plan req.
Proof.
  revert req. apply wp_exec. unfold DiscoveryProvider.Create.
  wp_quiet; [intros _ _|nothing_sent].
  apply wp_bind_quiet; [apply DiscoveryProvider_quiet_validateConfig| |nothing_sent].
  intros validateMap [_ Hvalidate]%DiscoveryProvider_validateConfig_Some.
  apply wp_bind_quiet; [apply DiscoveryProvider_quiet_encodeConfig| |nothing_sent].
  intros configMap Hconfig%encodeConfig_sentConfig.
  request_sent.
  all: unfold DiscoveryProvider_create_sends; simpl;
    (split_and!; try done; [apply sentOpt_nonNull..|by exists validateMap]).
Qed.

Lemma Environment_Create_sends client plan req :
  Environment.CallCreateEnvironment req
    ∈ w_Calls (exec (Environment.Create client plan) (fresh None)) →
  Environment_create_sends plan req.
Proof.
  revert req. apply wp_exec. unfold Environment.Create.
  wp_quiet; [intros _ _|nothing_sent].
  wp_quiet; [intros invitedUsers Hinvited|nothing_sent].
  assert (plannedStrings (Environment.InvitedUsers plan) invitedUsers) as Hi.
  { unfold plannedStrings.
    destruct (IsNull (Environment.InvitedUsers plan)); simpl in *.
    - by injection Hinvited as <-.
    - by apply elementsAs_list_Some in Hinvited as [_ ?]. }
  request_sent.
  all: by unfold Environment_create_sends.
Qed.

Lemma ChatSuggestion_Create_sends client plan req :
  ChatSuggestion.CallCreateChatSuggestion req
    ∈ w_Calls (exec (ChatSuggestion.Create client plan) (fresh None)) →
  ChatSuggestion_create_sends plan req.
Proof.
  revert req. apply wp_exec. unfold ChatSuggestion.Create.
  wp_quiet; [intros _ _|nothing_sent].
  request_sent.
  all: unfold ChatSuggestion_create_sends; simpl;
    (split_and!; try done; apply sentOpt_nonNull).
Qed.

(** X20.  What the request sent by Create carries, for the six resources
    other than the model provider.  Required attributes go out as the
    planned values, identifiers and URLs parsed, and the config of a
    discovery provider as the map of the members decoded from the text,
    each marshalled again.  An optional attribute
    is sent exactly when it is not null in the plan (the list attributes
    of the OAuth service: neither null nor unknown) and then carries the
    planned value, with these exceptions: the MCP endpoint's four flags
    and the model's default are always sent, a null one as false; the MCP
    endpoint's headers and tool lists are sent only when they are not
    empty. *)
Theorem create_request_contents :
  (∀ client plan req,
      OAuthService.CallCreateOAuthService req
        ∈ w_Calls (exec (OAuthService.Create client plan) (fresh None)) →
      OAuthService_create_sends plan req)
  ∧ (∀ client plan req,
      MCPEndpoint.CallCreateMcpendpoint req
        ∈ w_Calls (exec (MCPEndpoint.Create client plan) (fresh None)) →
      MCPEndpoint_create_sends plan req)
  ∧ (∀ client plan req,
      Model.CallCreateModel req
        ∈ w_Calls (exec (Model.Create client plan) (fresh None)) →
      Model_create_sends plan req)
  ∧ (∀ client plan req,
      DiscoveryProvider.CallCreateConfiguredProvider req
        ∈ w_Calls (exec (DiscoveryProvider.Create client plan) (fresh None)) →
      DiscoveryProvider_create_sends plan req)
  ∧ (∀ client plan req,
      Environment.CallCreateEnvironment req
        ∈ w_Calls (exec (Environment.Create client plan) (fresh None)) →
      Environment_create_sends plan req)
  ∧ (∀ client plan req,
      ChatSuggestion.CallCreateChatSuggestion req
        ∈ w_Calls (exec (ChatSuggestion.Create client plan) (fresh None)) →
      ChatSuggestion_create_sends plan req).
Proof.
  split_and!.
  - apply OAuthService_Create_sends.
  - apply MCPEndpoint_Create_sends.
  - apply Model_Create_sends.
  - apply DiscoveryProvider_Create_sends.
  - apply Environment_Create_sends.
  - apply ChatSuggestion_Create_sends.
Qed.

End CreateRequests.

Section CreateRequestsOnInputs.
#[local] Existing Instance TestPlatform.

Lemma create_request_contents_witness :
  Model_create_sends model_state
    (Model.mkCreate "gpt-4"
       ("0a1b2c3d-4e5f-4a6b-8c7d-8e9f0a1b2c3d" : @UUID TestPlatform)
       (NewOpt false) (NewOptNil "general purpose"))
  ∧ DiscoveryProvider_create_sends (discovery_plan token_config)
      (DiscoveryProvider.mkCreate "GitHub Production" "github"
         {[ "token" := dquote ++ "t" ++ dquote ]} (NewOpt true) (NewOpt 300%Z)).
Proof.
  destruct (@create_request_contents TestPlatform)
    as (_ & _ & Hmodel & Hdiscovery & _).
  split; [|apply (Hdiscovery discovery_client (discovery_plan token_config));
           vm_compute; left].
  apply (Hmodel model_client model_state).
  assert (w_Calls (exec (Model.Create model_client model_state) (fresh None))
          = [Model.CallCreateModel
               (Model.mkCreate "gpt-4"
                  ("0a1b2c3d-4e5f-4a6b-8c7d-8e9f0a1b2c3d" : @UUID TestPlatform)
                  (NewOpt false) (NewOptNil "general purpose"))]) as ->
    by reflexivity.
  apply list_elem_of_singleton. reflexivity.
Defined.

End CreateRequestsOnInputs.

(** ** Which identifier a request is addressed to *)

Section Addressing.
Context `{Platform}.

(** X21.  Every lookup and every update request is addressed to the
    identifier parsed from the record the operation works on, so no
    request goes out when that identifier does not parse.  Read takes the
    identifier from the state.  Update of a model provider and of a
    discovery provider takes it from the state, Update of an OAuth
    service and of an MCP endpoint from the plan. *)
Theorem requests_addressed_by_identifier :
  (∀ client state id,
      ModelProvider.CallGetModelprovider id
        ∈ w_Calls (exec (ModelProvider.Read client state) (fresh (Some state))) →
      uuid_Parse (ValueOf (ModelProvider.ID state)) = Ok id)
  ∧ (∀ client state id,
      OAuthService.CallGetOAuthService id
        ∈ w_Calls (exec (OAuthService.Read client state) (fresh (Some state))) →
      uuid_Parse (ValueOf (OAuthService.ID state)) = Ok id)
  ∧ (∀ client state id,
      MCPEndpoint.CallGetMcpendpoint id
        ∈ w_Calls (exec (MCPEndpoint.Read client state) (fresh (Some state))) →
      uuid_Parse (ValueOf (MCPEndpoint.ID state)) = Ok id)
  ∧ (∀ client state id,
      DiscoveryProvider.CallGetConfiguredProvider id
        ∈ w_Calls (exec (DiscoveryProvider.Read client state) (fresh (Some state))) →
      uuid_Parse (ValueOf (DiscoveryProvider.ID state)) = Ok id)
  ∧ (∀ client plan state req id,
      ModelProvider.CallUpdateModelprovider req id
        ∈ w_Calls (exec (ModelProvider.Update client plan state) (fresh (Some state))) →
      uuid_Parse (ValueOf (ModelProvider.ID state)) = Ok id)
  ∧ (∀ client plan state req id,
      DiscoveryProvider.CallUpdateConfiguredProvider req id
        ∈ w_Calls (exec (DiscoveryProvider.Update client plan state)
                        (fresh (Some state))) →
      uuid_Parse (ValueOf (DiscoveryProvider.ID state)) = Ok id)
  ∧ (∀ client plan state req id,
      OAuthService.CallUpdateOAuthService req id
        ∈ w_Calls (exec (OAuthService.Update client plan state) (fresh (Some state))) →
      uuid_Parse (ValueOf (OAuthService.ID plan)) = Ok id)
  ∧ (∀ client plan state req id,
      MCPEndpoint.CallUpdateMcpendpoint req id
        ∈ w_Calls (exec (MCPEndpoint.Update client plan state) (fresh (Some state))) →
      uuid_Parse (ValueOf (MCPEndpoint.ID plan)) = Ok id).
Proof.
  split_and!.
  - intros client state. apply wp_exec. unfold ModelProvider.Read.
    wp_quiet; [intros _ _|nothing_sent].
    wp_quiet; [intros id' [_ Hid]%parseUUID_Some|nothing_sent].
    by request_sent.
  - intros client state. apply wp_exec. unfold OAuthService.Read.
    wp_quiet; [intros _ _|nothing_sent].
    wp_quiet; [intros id' [_ Hid]%parseUUID_Some|nothing_sent].
    by request_sent.
  - intros client state. apply wp_exec. unfold MCPEndpoint.Read.
    wp_quiet; [intros _ _|nothing_sent].
    wp_quiet; [intros id' [_ Hid]%parseUUID_Some|nothing_sent].
    by request_sent.
  - intros client state. apply wp_exec. unfold DiscoveryProvider.Read.
    wp_quiet; [intros _ _|nothing_sent].
    wp_quiet; [intros id' [_ Hid]%parseUUID_Some|nothing_sent].
    by request_sent.
  - intros client plan state req id Hcall.
    destruct (ModelProvider_Update_outcome client plan state)
      as [(Hnone & _)|(id' & Hid & Hcalls & _)]; rewrite ?Hnone, ?Hcalls in Hcall.
    + by apply elem_of_nil in Hcall.
    + by apply list_elem_of_singleton in Hcall as [= -> ->].
  - intros client plan state req id Hcall.
    destruct (DiscoveryProvider_Update_outcome client plan state)
      as [(Hnone & _)|(id' & req' & Hid & _ & Hcalls & _)];
      rewrite ?Hnone, ?Hcalls in Hcall.
    + by apply elem_of_nil in Hcall.
    + by apply list_elem_of_singleton in Hcall as [= -> ->].
  - intros client plan state req id Hcall.
    destruct (OAuthService_Update_outcome client plan state)
      as [(Hnone & _)|(id' & req' & Hid & _ & Hcalls & _)];
      rewrite ?Hnone, ?Hcalls in Hcall.
    + by apply elem_of_nil in Hcall.
    + by apply list_elem_of_singleton in Hcall as [= -> ->].
  - intros client plan state req id Hcall.
    destruct (MCPEndpoint_Update_outcome client plan state)
      as [(Hnone & _)|(id' & req' & Hid & _ & Hcalls & _)];
      rewrite ?Hnone, ?Hcalls in Hcall.
    + by apply elem_of_nil in Hcall.
    + by apply list_elem_of_singleton in Hcall as [= -> ->].
Qed.

End Addressing.

Section AddressingOnInputs.
#[local] Existing Instance TestPlatform.

Lemma requests_addressed_by_identifier_witness :
  @uuid_Parse TestPlatform (ValueOf (MCPEndpoint.ID mcp_plan))
  = Ok "6f1c2a3b-0d4e-4f5a-8b6c-7d8e9f0a1b2c".
Proof.
  destruct (@requests_addressed_by_identifier TestPlatform)
    as (_ & _ & _ & _ & _ & _ & _ & Hmcp).
  apply (Hmcp mcp_client mcp_plan mcp_state mcp_request).
  assert (w_Calls (exec (MCPEndpoint.Update mcp_client mcp_plan mcp_state)
                        (fresh (Some mcp_state)))
          = [MCPEndpoint.CallUpdateMcpendpoint mcp_request
               "6f1c2a3b-0d4e-4f5a-8b6c-7d8e9f0a1b2c"]) as -> by reflexivity.
  apply list_elem_of_singleton. reflexivity.
Defined.

End AddressingOnInputs.

(** ** Reading twice *)

Section ReadTwice.
Context `{Platform}.

Lemma ModelProvider_mergeRead_idem state result :
  ModelProvider.mergeRead (ModelProvider.mergeRead state result) result
  = ModelProvider.mergeRead state result.
Proof.
  unfold ModelProvider.mergeRead, ModelProvider.assignRead.
  destruct (ModelProvider.r_Type result); try done; simpl;
    by match goal with |- context [opt_Set ?o] => destruct (opt_Set o) end.
Qed.

Lemma MCPEndpoint_mergeRead_idem state result :
  MCPEndpoint.mergeRead (MCPEndpoint.mergeRead state result) result
  = MCPEndpoint.mergeRead state result.
Proof.
  unfold MCPEndpoint.mergeRead, MCPEndpoint.mergeResponse, MCPEndpoint.ifSetBool;
    simpl.
  f_equal; by repeat case_match.
Qed.

Lemma ChatSuggestion_assignRead_idem state suggestion :
  ChatSuggestion.assignRead (ChatSuggestion.assignRead state suggestion) suggestion
  = ChatSuggestion.assignRead state suggestion.
Proof.
  unfold ChatSuggestion.assignRead; simpl. f_equal; by repeat case_match.
Qed.

Lemma scanEnvironments_again environments state state' :
  Environment.scanEnvironments environments state = (state', true) →
  Environment.scanEnvironments environments state' = (state', true).
Proof.
  induction environments as [|e rest IH]; simpl; [done|].
  destruct (String.eqb (uuid_String (Environment.r_ID e))
                       (ValueOf (Environment.ID state))) eqn:Heq.
  - intros [= <-]. simpl. by rewrite Heq.
  - intros Hrest.
    pose proof (scanEnvironments_outcome rest state) as Hscan.
    rewrite Hrest in Hscan. destruct Hscan as (env & _ & _ & Hst).
    assert (Environment.ID state' = Environment.ID state) as -> by by subst state'.
    rewrite Heq. by apply IH.
Qed.

Lemma scanSuggestions_again suggestions id state state' :
  ChatSuggestion.scanSuggestions suggestions id state = (state', true) →
  ChatSuggestion.scanSuggestions suggestions id state' = (state', true).
Proof.
  induction suggestions as [|e rest IH]; simpl; [done|].
  case_bool_decide as Heq.
  - intros [= <-]. by rewrite ChatSuggestion_assignRead_idem.
  - apply IH.
Qed.

(** X22.  Refreshing twice changes nothing more.  If Read succeeds and
    persists a record, Read run on that record with the same client ends
    in the same response: the same single lookup, no diagnostic and the
    same record.  For a model, which is looked up by name, this needs the
    response to carry the name that was looked up. *)
Theorem read_is_idempotent :
  (∀ client state s,
      succeeded (exec (ModelProvider.Read client state) (fresh (Some state))) s →
      exec (ModelProvider.Read client s) (fresh (Some s))
      = exec (ModelProvider.Read client state) (fresh (Some state)))
  ∧ (∀ client state s,
      succeeded (exec (OAuthService.Read client state) (fresh (Some state))) s →
      exec (OAuthService.Read client s) (fresh (Some s))
      = exec (OAuthService.Read client state) (fresh (Some state)))
  ∧ (∀ client state s,
      succeeded (exec (MCPEndpoint.Read client state) (fresh (Some state))) s →
      exec (MCPEndpoint.Read client s) (fresh (Some s))
      = exec (MCPEndpoint.Read client state) (fresh (Some state)))
  ∧ (∀ client state s,
      succeeded (exec (DiscoveryProvider.Read client state) (fresh (Some state))) s →
      exec (DiscoveryProvider.Read client s) (fresh (Some s))
      = exec (DiscoveryProvider.Read client state) (fresh (Some state)))
  ∧ (∀ client state s,
      succeeded (exec (Environment.Read client state) (fresh (Some state))) s →
      exec (Environment.Read client s) (fresh (Some s))
      = exec (Environment.Read client state) (fresh (Some state)))
  ∧ (∀ client state s,
      succeeded (exec (ChatSuggestion.Read client state) (fresh (Some state))) s →
      exec (ChatSuggestion.Read client s) (fresh (Some s))
      = exec (ChatSuggestion.Read client state) (fresh (Some state)))
  ∧ (∀ client state s,
      succeeded (exec (Model.Read client state) (fresh (Some state))) s →
      ValueOf (Model.Name s) = ValueOf (Model.Name state) →
      exec (Model.Read client s) (fresh (Some s))
      = exec (Model.Read client state) (fresh (Some state))).
Proof.
  split_and!.
  - intros client state s [Hok Hst].
    destruct (ModelProvider_Read_outcome client state)
      as [[_ Herr]|[[Hnone _]|(id & result & Hid & Hcall & Hw)]]; [congruence..|].
    rewrite Hw in Hst |- *. injection Hst as <-.
    assert (ModelProvider.ID (ModelProvider.mergeRead state result)
            = ModelProvider.ID state) as Hsame.
    { unfold ModelProvider.mergeRead. by destruct (ModelProvider.r_Type result). }
    unfold exec, ModelProvider.Read, op_bind, parseUUID, remote; simpl.
    rewrite Hsame, Hid. simpl. rewrite Hcall. simpl.
    by rewrite ModelProvider_mergeRead_idem.
  - intros client state s [Hok Hst].
    destruct (OAuthService_Read_outcome client state)
      as [[_ Herr]|[[Hnone _]|(id & result & Hid & Hcall & Hw)]]; [congruence..|].
    rewrite Hw in Hst |- *. injection Hst as <-.
    unfold exec, OAuthService.Read, op_bind, parseUUID, remote; simpl.
    rewrite Hid. simpl. by rewrite Hcall.
  - intros client state s [Hok Hst].
    destruct (MCPEndpoint_Read_outcome client state)
      as [[_ Herr]|[[Hnone _]|(id & result & Hid & Hcall & Hw)]]; [congruence..|].
    rewrite Hw in Hst |- *. injection Hst as <-.
    unfold exec, MCPEndpoint.Read, op_bind, parseUUID, remote; simpl.
    rewrite Hid. simpl. rewrite Hcall. simpl.
    by rewrite MCPEndpoint_mergeRead_idem.
  - intros client state s [Hok Hst].
    destruct (DiscoveryProvider_Read_outcome client state)
      as [[_ Herr]|[[Hnone _]|(id & result & Hid & Hcall & Hw)]]; [congruence..|].
    rewrite Hw in Hst |- *. injection Hst as <-.
    unfold exec, DiscoveryProvider.Read, op_bind, parseUUID, remote; simpl.
    rewrite Hid. simpl. by rewrite Hcall.
  - intros client state s. unfold succeeded.
    unfold exec, Environment.Read, op_bind, returnIfError, remote. simpl.
    destruct (Environment.GetEnvironments client) as [[environments|goType]|e];
      simpl; [|by intros [? _]..].
    destruct (Environment.scanEnvironments environments state)
      as [state' [|]] eqn:Hscan; simpl; [|by intros [_ ?]].
    intros [_ [= <-]]. by rewrite (scanEnvironments_again _ _ _ Hscan).
  - intros client state s [Hok Hst].
    destruct (ChatSuggestion_Read_outcome client state)
      as [[_ Herr]|[[Hnone _]|(suggestions & suggestion & Hlist & _ & Hid & Hw)]];
      [congruence..|].
    rewrite Hw in Hst. injection Hst as <-.
    revert Hw.
    unfold exec, ChatSuggestion.Read, op_bind, parseUUID, remote; simpl.
    rewrite Hid. simpl. rewrite Hlist. simpl.
    destruct (ChatSuggestion.scanSuggestions suggestions
                (ChatSuggestion.r_ID suggestion) state)
      as [state' [|]] eqn:Hscan; simpl; [|done].
    intros [= ->].
    by rewrite (scanSuggestions_again _ _ _ _ Hscan).
  - intros client state s [Hok Hst] Hname.
    destruct (Model_Read_outcome client state)
      as [[_ Herr]|[[Hnone _]|(result & Hcall & Hw)]]; [congruence..|].
    rewrite Hw in Hst |- *. injection Hst as <-.
    unfold exec, Model.Read, op_bind, remote; simpl.
    simpl in Hname. rewrite Hname, Hcall. simpl.
    by rewrite Model_mergeResponse_idem.
Qed.

End ReadTwice.

Section ReadTwiceOnInputs.
#[local] Existing Instance TestPlatform.

Lemma read_is_idempotent_witness :
  exec (MCPEndpoint.Read mcp_client (MCPEndpoint.mergeRead mcp_state mcp_response))
       (fresh (Some (MCPEndpoint.mergeRead mcp_state mcp_response)))
  = exec (MCPEndpoint.Read mcp_client mcp_state) (fresh (Some mcp_state)).
Proof.
  destruct (@read_is_idempotent TestPlatform) as (_ & _ & Hmcp & _).
  apply (Hmcp mcp_client mcp_state). split; reflexivity.
Defined.

End ReadTwiceOnInputs.
